(** * cobra-daemon: a shallow embedding of the service-lifecycle backends

    The Go package [daemon] wraps three host service managers
    (schtasks.exe, daemontools, rcctl) behind one interface.  This file
    embeds the Go code as Rocq functions over an explicit model of the host
    (file-system name space, external processes, user database) and proves
    the properties stated about it.

    Go strings are byte strings: [string] with one [ascii] per byte.
    A Go [error] value is [option error]; [None] is [nil]. *)

From Stdlib Require Import ZArith NArith List Bool Ascii String Lia.
From stdpp Require Import base option strings gmap.

Local Open Scope Z_scope.

(** * Go standard library: [strings], [unicode], [unicode/utf8] *)

Module strings.

Definition byte_in (lo hi : N) (c : ascii) : bool :=
  ((lo <=? N_of_ascii c) && (N_of_ascii c <=? hi))%N.

(** [strings.Split(s, sep)] for a separator of one byte, which is what every
    call site of the package passes.  The result is never empty:
    [Split "" sep = [""]]. *)
Fixpoint Split (s : string) (sep : ascii) : list string :=
  match s with
  | EmptyString => [EmptyString]
  | String c s' =>
      if Ascii.eqb c sep then EmptyString :: Split s' sep
      else match Split s' sep with
           | f :: fs => String c f :: fs
           | [] => [String c EmptyString]
           end
  end.

(** [strings.Join(elems, sep)]. *)
Definition Join (elems : list string) (sep : string) : string :=
  String.concat sep elems.

(** [strings.Contains(s, substr)], used to state properties. *)
Fixpoint Contains (s substr : string) : bool :=
  String.prefix substr s ||
  match s with
  | EmptyString => false
  | String _ s' => Contains s' substr
  end.

(** ** UTF-8 decoding, as [utf8.DecodeRuneInString] *)

Definition RuneError : Z := 0xFFFD.

(** The [first] table of package utf8: for a leading byte, the size of the
    sequence and the range accepted for its second byte. *)
Definition lead (b0 : ascii) : option (nat * N * N) :=
  let n := N_of_ascii b0 in
  if (n <? 0xC2)%N then None
  else if (n <=? 0xDF)%N then Some (2%nat, 0x80, 0xBF)%N
  else if (n =? 0xE0)%N then Some (3%nat, 0xA0, 0xBF)%N
  else if (n =? 0xED)%N then Some (3%nat, 0x80, 0x9F)%N
  else if (n <=? 0xEF)%N then Some (3%nat, 0x80, 0xBF)%N
  else if (n =? 0xF0)%N then Some (4%nat, 0x90, 0xBF)%N
  else if (n <=? 0xF3)%N then Some (4%nat, 0x80, 0xBF)%N
  else if (n =? 0xF4)%N then Some (4%nat, 0x80, 0x8F)%N
  else None.

Definition bits (mask : N) (c : ascii) : Z := Z.of_N (N.land (N_of_ascii c) mask).

Definition DecodeRuneInString (s : string) : Z * nat :=
  match s with
  | EmptyString => (RuneError, 0%nat)
  | String b0 r0 =>
      if (N_of_ascii b0 <? 0x80)%N then (Z.of_N (N_of_ascii b0), 1%nat)
      else
        match lead b0, r0 with
        | Some (sz, lo, hi), String b1 r1 =>
            if negb (byte_in lo hi b1) then (RuneError, 1%nat)
            else if (sz =? 2)%nat then
              (Z.lor (Z.shiftl (bits 0x1F b0) 6) (bits 0x3F b1), 2%nat)
            else
              match r1 with
              | String b2 r2 =>
                  if negb (byte_in 0x80 0xBF b2) then (RuneError, 1%nat)
                  else if (sz =? 3)%nat then
                    (Z.lor (Z.shiftl (bits 0x0F b0) 12)
                       (Z.lor (Z.shiftl (bits 0x3F b1) 6) (bits 0x3F b2)), 3%nat)
                  else
                    match r2 with
                    | String b3 _ =>
                        if negb (byte_in 0x80 0xBF b3) then (RuneError, 1%nat)
                        else
                          (Z.lor (Z.shiftl (bits 0x07 b0) 18)
                             (Z.lor (Z.shiftl (bits 0x3F b1) 12)
                                (Z.lor (Z.shiftl (bits 0x3F b2) 6) (bits 0x3F b3))),
                           4%nat)
                    | EmptyString => (RuneError, 1%nat)
                    end
              | EmptyString => (RuneError, 1%nat)
              end
        | _, _ => (RuneError, 1%nat)
        end
  end.

Fixpoint drop (n : nat) (s : string) : string :=
  match n, s with
  | S k, String _ s' => drop k s'
  | _, _ => s
  end.

(** [for _, r := range s]: the runes of [s], each with the bytes it spans. *)
Fixpoint runes_go (fuel : nat) (s : string) : list (Z * string) :=
  match fuel, s with
  | S k, String _ _ =>
      let '(r, w) := DecodeRuneInString s in
      (r, String.substring 0 w s) :: runes_go k (drop w s)
  | _, _ => []
  end.

Definition runes (s : string) : list (Z * string) := runes_go (String.length s) s.

(** [unicode.IsSpace]. *)
Definition IsSpace (r : Z) : bool :=
  if r <=? 0xFF then
    (r =? 9) || (r =? 10) || (r =? 11) || (r =? 12) || (r =? 13) || (r =? 32)
    || (r =? 0x85) || (r =? 0xA0)
  else
    (r =? 0x1680) || ((0x2000 <=? r) && (r <=? 0x200A)) || (r =? 0x2028)
    || (r =? 0x2029) || (r =? 0x202F) || (r =? 0x205F) || (r =? 0x3000).

Definition bytes_of (rs : list (Z * string)) : string :=
  String.concat "" (map snd rs).

Fixpoint trim_left (rs : list (Z * string)) : list (Z * string) :=
  match rs with
  | (r, bs) :: rs' => if IsSpace r then trim_left rs' else rs
  | [] => []
  end.

(** [strings.TrimSpace]: leading and trailing white-space runes removed.
    (Go scans the tail backwards with [DecodeLastRuneInString]; UTF-8 is
    self-synchronising, so the runes found are those of the forward scan.) *)
Definition TrimSpace (s : string) : string :=
  bytes_of (rev (trim_left (rev (trim_left (runes s))))).

(** [strings.Fields]: [cur] is the field being read, the span
    [s[start:end]] of [FieldsFunc] with [start >= 0]. *)
Fixpoint fields_go (cur : option string) (rs : list (Z * string)) : list string :=
  match rs with
  | [] => match cur with Some f => [f] | None => [] end
  | (r, bs) :: rs' =>
      if IsSpace r then
        match cur with
        | Some f => f :: fields_go None rs'
        | None => fields_go None rs'
        end
      else fields_go (Some (match cur with Some f => f +:+ bs | None => bs end)) rs'
  end.

Definition Fields (s : string) : list string := fields_go None (runes s).

End strings.

(** * Go standard library: [os.Expand] *)

Module os.

(** [isShellSpecialVar]: the byte names a special shell variable such as [$*]. *)
Definition isShellSpecialVar (c : ascii) : bool :=
  existsb (Ascii.eqb c)
    ["*"; "#"; "$"; "@"; "!"; "?"; "-";
     "0"; "1"; "2"; "3"; "4"; "5"; "6"; "7"; "8"; "9"]%char.

(** [isAlphaNum]: ASCII letter, digit or underscore. *)
Definition isAlphaNum (c : ascii) : bool :=
  Ascii.eqb c "_" || strings.byte_in 48 57 c || strings.byte_in 97 122 c
  || strings.byte_in 65 90 c.

(** The text before the first closing brace, if there is one. *)
Fixpoint scan_brace (s : string) : option string :=
  match s with
  | EmptyString => None
  | String c s' =>
      if Ascii.eqb c "}" then Some EmptyString
      else option_map (String c) (scan_brace s')
  end.

Fixpoint scan_alnum (s : string) : string :=
  match s with
  | String c s' => if isAlphaNum c then String c (scan_alnum s') else EmptyString
  | EmptyString => EmptyString
  end.

(** [getShellName]: the name that begins [s] and the number of bytes consumed
    to extract it.  [Expand] calls it on a non-empty string only. *)
Definition getShellName (s : string) : string * nat :=
  match s with
  | EmptyString => (EmptyString, 0%nat)
  | String c0 rest =>
      if Ascii.eqb c0 "{" then
        let scan :=
          match scan_brace rest with
          | Some EmptyString => (EmptyString, 2%nat)       (* bad syntax; eat "${}" *)
          | Some name => (name, (String.length name + 2)%nat)
          | None => (EmptyString, 1%nat)                   (* bad syntax; eat "${" *)
          end in
        match rest with
        | String c1 (String c2 _) =>
            if isShellSpecialVar c1 && Ascii.eqb c2 "}"
            then (String c1 EmptyString, 3%nat) else scan
        | _ => scan
        end
      else if isShellSpecialVar c0 then (String c0 EmptyString, 1%nat)
      else let name := scan_alnum s in (name, String.length name)
  end.

(** What one [$]-reference contributes to the output buffer. *)
Definition expansion (mapping : string -> string) (name : string) (w : nat) : string :=
  if String.eqb name "" && (0 <? w)%nat then ""    (* invalid syntax; eat the characters *)
  else if String.eqb name "" then "$"               (* no name: the dollar stays *)
  else mapping name.

(** The loop of [os.Expand]: [skip] counts the bytes of the current reference
    that [j += w] still passes over. *)
Fixpoint expand_go (mapping : string -> string) (skip : nat) (s : string) : string :=
  match s with
  | EmptyString => EmptyString
  | String c s' =>
      match skip with
      | S k => expand_go mapping k s'
      | O =>
          if Ascii.eqb c "$" && negb (String.eqb s' "") then
            let '(name, w) := getShellName s' in
            expansion mapping name w +:+ expand_go mapping w s'
          else String c (expand_go mapping 0 s')
      end
  end.

Definition Expand (s : string) (mapping : string -> string) : string :=
  expand_go mapping 0 s.

End os.

(** * Go standard library: [path/filepath]

    [filepath.Join] and [filepath.Split] depend on the platform (separator,
    volume names), so the backends are parametric in them. *)

Class Filepath := {
  IsPathSeparator : ascii -> bool;
  Join : list string -> string;
  Split : string -> string * string
}.

Module filepath.

(** The Unix instance.  [Clean] keeps a stack of the path elements read. *)
Definition clean_step (rooted : bool) (st : list string) (c : string) : list string :=
  if String.eqb c "" || String.eqb c "." then st
  else if String.eqb c ".." then
    match st with
    | top :: rest => if String.eqb top ".." then c :: st else rest
    | [] => if rooted then [] else [c]
    end
  else c :: st.

Definition Clean (path : string) : string :=
  let rooted := String.prefix "/" path in
  let st := fold_left (clean_step rooted) (strings.Split path "/") [] in
  let body := String.concat "/" (rev st) in
  if rooted then "/" +:+ body
  else if String.eqb body "" then "." else body.

Definition unix_Join (elem : list string) : string :=
  match filter (fun e => negb (String.eqb e "")) elem with
  | [] => ""
  | ne => Clean (String.concat "/" ne)
  end.

(** [filepath.Split]: the path is cut after its last separator. *)
Fixpoint unix_Split (path : string) : string * string :=
  match path with
  | EmptyString => (EmptyString, EmptyString)
  | String c p' =>
      let '(d, f) := unix_Split p' in
      if String.eqb d "" && negb (Ascii.eqb c "/") then (d, String c f)
      else (String c d, f)
  end.

Definition unix : Filepath :=
  {| IsPathSeparator := fun c => Ascii.eqb c "/"; Join := unix_Join; Split := unix_Split |}.

(** Lexical containment of [k] in the tree rooted at [p]: [k] is [p], a
    separator, and a rest. *)
Fixpoint within `{Filepath} (p k : string) : bool :=
  match p, k with
  | EmptyString, String c _ => IsPathSeparator c
  | String a p', String b k' => Ascii.eqb a b && within p' k'
  | _, _ => false
  end.

(** The directories above [s], outermost first: [pre] is the part of the
    path already read. *)
Fixpoint parents `{Filepath} (pre s : string) : list string :=
  match s with
  | EmptyString => []
  | String c s' =>
      (if IsPathSeparator c && negb (String.eqb pre "") then [pre] else [])
      ++ parents (pre +:+ String c EmptyString) s'
  end.

End filepath.

(** * The host: errors, file-system name space, processes, users *)

(** Go error values met by the package.  [Fatal] and [Fatalf] stand for
    [common.Fatal(err)] and [common.Fatalf(format, args...)] of the go-common
    helper library: an error that wraps [err], respectively carries the
    formatted message. *)
Inductive error : Type :=
| PathError (op path msg : string)   (* *fs.PathError, *os.LinkError, syscall.Errno *)
| ExitError (code : Z)               (* *exec.ExitError: the process ran and was unsuccessful *)
| ExecError (msg : string)           (* any other error of Cmd.Run / Cmd.Output *)
| NumError (fn num : string)         (* *strconv.NumError *)
| UserError (msg : string)           (* os/user lookup failures *)
| Errorf (msg : string)              (* fmt.Errorf: the formatted message *)
| Fatal (e : error)
| Fatalf (msg : string).

(** What one run of an external command can look like to [os/exec]. *)
Inductive ProcOutcome : Type :=
| Exited (code : Z) (stdout stderr : string)
    (* started and waited for; [Run] returns nil iff [code = 0] and an
       [*exec.ExitError] otherwise ([code = -1] when killed by a signal) *)
| Failed (msg : string) (code : Z) (stdout stderr : string).
    (* [Run] returns an error that is not an [*exec.ExitError]: the command
       could not be started ([code = -1], nothing captured) or waiting failed *)

Definition run_err (o : ProcOutcome) : option error :=
  match o with
  | Exited code _ _ => if code =? 0 then None else Some (ExitError code)
  | Failed msg _ _ _ => Some (ExecError msg)
  end.

(** [cmd.ProcessState.ExitCode()]. *)
Definition ExitCode (o : ProcOutcome) : Z :=
  match o with Exited code _ _ => code | Failed _ code _ _ => code end.

Definition Stdout (o : ProcOutcome) : string :=
  match o with Exited _ out _ => out | Failed _ _ out _ => out end.

Definition Stderr (o : ProcOutcome) : string :=
  match o with Exited _ _ err => err | Failed _ _ _ err => err end.

(** [os/user.User]. *)
Module user.

Record User := {
  Username : string;
  Uid : string;
  Gid : string;
  HomeDir : string
}.

End user.

(** Entries of the file-system name space.  The model is flat: a map from
    path names to what they name.  A symbolic link is followed when the name
    itself is a link; a name below a directory that is a link is a name of
    its own (the package never uses the two names of one file in one
    operation). *)
Inductive node : Type :=
| RegFile (data : string) (perm : N)
| Directory (perm : N) (gid : Z)
| Link (target : string).

(** Calls that can fail or change the host, as they appear in the log. *)
Inductive call : Type :=
| MkdirAll (path : string) (perm : N)
| Mkdir (path : string) (perm : N)
| MkdirTemp (dir pattern name : string)
| Chown (path : string) (uid gid : Z)
| WriteFile (path data : string) (perm : N)
| ReadFile (path : string)
| Open (path : string)
| OpenFile (path : string) (perm : N)          (* O_CREATE|O_TRUNC|O_WRONLY *)
| Copy (dst data : string)                     (* io.Copy of data into the file opened at dst *)
| Remove (path : string)
| RemoveAll (path : string)
| Symlink (oldname newname : string)
| Exec (argv : list string).

Record event := { ev_call : call; ev_err : option error }.

(** The part of the host the program cannot change: what external commands
    answer, which calls fail for reasons outside the model (permissions,
    full disk, ...), the random names of temporary directories, the platform
    and the user database.  Answers are indexed by the number of calls made
    so far.  External commands leave the name space as it is. *)
Record Env := {
  exec_outcome : nat -> list string -> ProcOutcome;
  io_fault : nat -> option string;
  temp_rand : nat -> string;
  TempDir : string;
  egid : Z;
  GOOS : string;
  user_Current : error + user.User;
  user_Lookup : string -> error + user.User
}.

Record World := {
  fs : gmap string node;
  log : list event;
  env : Env
}.

(** State passing: every function of the package runs in [M]. *)
Definition M (A : Type) : Type := World -> A * World.

Definition ret {A} (a : A) : M A := fun w => (a, w).

Definition bind {A B} (m : M A) (k : A -> M B) : M B :=
  fun w => let '(a, w') := m w in k a w'.

Notation "'let*' x ':=' m 'in' k" := (bind m (fun x => k))
  (at level 10, x name, m at level 100, k at level 200).
Notation "'let*' ' p ':=' m 'in' k" := (bind m (fun x => let 'p := x in k))
  (at level 10, p pattern, m at level 100, k at level 200).

Module host.

Definition mode_0600 : N := 384.
Definition mode_0700 : N := 448.
Definition mode_0750 : N := 488.
Definition mode_0755 : N := 493.
Definition mode_0770 : N := 504.

(** [stat(2)]: follows symbolic links, at most 40 of them. *)
Fixpoint stat_go (fuel : nat) (m : gmap string node) (p : string) : option node :=
  match m !! p with
  | Some (Link t) =>
      match fuel with S k => stat_go k m t | O => None end
  | o => o
  end.

Definition stat (m : gmap string node) (p : string) : option node := stat_go 40 m p.

(** The name a path resolves to when opened: the end of its chain of links. *)
Fixpoint resolve_go (fuel : nat) (m : gmap string node) (p : string) : option string :=
  match m !! p with
  | Some (Link t) =>
      match fuel with S k => resolve_go k m t | O => None end
  | _ => Some p
  end.

Definition resolve (m : gmap string node) (p : string) : option string := resolve_go 40 m p.

(** [common.IsDir] and [common.IsFile] of go-common: the path names an
    existing directory, respectively an existing regular file. *)
Definition IsDir (p : string) : M bool :=
  fun w => (match stat (fs w) p with Some (Directory _ _) => true | _ => false end, w).

Definition IsFile (p : string) : M bool :=
  fun w => (match stat (fs w) p with Some (RegFile _ _) => true | _ => false end, w).

(** A call [c] on path [p]: it fails when the environment says so or when
    [pre] finds a reason in the name space, and otherwise applies [eff]. *)
Definition syscall (c : call) (op p : string)
    (pre : gmap string node -> option string)
    (eff : gmap string node -> gmap string node) : M (option error) :=
  fun w =>
    let failure :=
      match io_fault (env w) (length (log w)) with
      | Some msg => Some msg
      | None => pre (fs w)
      end in
    match failure with
    | Some msg =>
        let e := PathError op p msg in
        (Some e, {| fs := fs w; log := log w ++ [{| ev_call := c; ev_err := Some e |}];
                    env := env w |})
    | None =>
        (None, {| fs := eff (fs w); log := log w ++ [{| ev_call := c; ev_err := None |}];
                  env := env w |})
    end.

(** [os.MkdirAll]: the directory and every directory above it that is
    missing; an entry on the way that is not a directory is an error.  A
    fault from outside the model is taken to strike before anything is
    created, where the real call can fail after creating some of the
    directories. *)
Definition mkdir_missing (perm : N) (gid : Z) (m : gmap string node) (q : string) :
    gmap string node :=
  match m !! q with
  | None => <[q := Directory perm gid]> m
  | Some _ => m
  end.

Definition os_MkdirAll `{Filepath} (p : string) (perm : N) : M (option error) :=
  fun w =>
  let chain := filepath.parents "" p ++ [p] in
  syscall (MkdirAll p perm) "mkdir" p
    (fun m => if existsb (fun q => match m !! q, stat m q with
                                   | Some _, Some (Directory _ _) => false
                                   | Some _, _ => true
                                   | None, _ => false
                                   end) chain
              then Some "not a directory" else None)
    (fun m => fold_left (mkdir_missing perm (egid (env w))) chain m) w.

Definition os_Mkdir (p : string) (perm : N) : M (option error) :=
  fun w =>
  syscall (Mkdir p perm) "mkdir" p
    (fun m => match m !! p with Some _ => Some "file exists" | None => None end)
    (fun m => <[p := Directory perm (egid (env w))]> m) w.

(** [os.Chown(name, -1, gid)] follows links; the model records the group of
    directories. *)
Definition os_Chown (p : string) (uid gid : Z) : M (option error) :=
  syscall (Chown p uid gid) "chown" p
    (fun m => match stat m p with None => Some "no such file or directory" | _ => None end)
    (fun m => match resolve m p with
              | Some q => match m !! q with
                          | Some (Directory pm g) => <[q := Directory pm (if gid =? -1 then g else gid)]> m
                          | _ => m
                          end
              | None => m
              end).

(** Opening [p] with [O_WRONLY|O_CREATE|O_TRUNC] and writing [data]: links
    are followed, an existing file keeps its mode. *)
Definition write_pre (p : string) (m : gmap string node) : option string :=
  match resolve m p with
  | None => Some "too many levels of symbolic links"
  | Some q => match m !! q with
              | Some (Directory _ _) => Some "is a directory"
              | _ => None
              end
  end.

Definition write_eff (p data : string) (perm : N) (m : gmap string node) : gmap string node :=
  match resolve m p with
  | Some q => match m !! q with
              | Some (RegFile _ pm) => <[q := RegFile data pm]> m
              | _ => <[q := RegFile data perm]> m
              end
  | None => m
  end.

Definition os_WriteFile (p data : string) (perm : N) : M (option error) :=
  syscall (WriteFile p data perm) "open" p (write_pre p) (write_eff p data perm).

Definition os_OpenFile (p : string) (perm : N) : M (option error) :=
  syscall (OpenFile p perm) "open" p (write_pre p) (write_eff p "" perm).

(** [io.Copy(dst, src)] on two open files, [src] being the entry [os.Open]
    returned: what [src] holds at the time of the copy is written to the file
    opened at [dst].  Reading fails when [src] is not a regular file; the
    error then names the entry, not the path it was opened by. *)
Definition copy_eff (dst data : string) (m : gmap string node) : gmap string node :=
  match resolve m dst with
  | Some q => match m !! q with
              | Some (RegFile _ pm) => <[q := RegFile data pm]> m
              | _ => m
              end
  | None => m
  end.

Definition io_Copy (dst src : string) : M (option error) :=
  fun w =>
  match fs w !! src with
  | Some (RegFile data _) =>
      syscall (Copy dst data) "write" dst (fun _ => None) (copy_eff dst data) w
  | _ =>
      syscall (Copy dst "") "read" src (fun _ => Some "is a directory") (fun m => m) w
  end.

(** Reading: the data of the regular file the path names. *)
Definition read (c : call) (p : string) : M (error + string) :=
  fun w =>
    let r :=
      match io_fault (env w) (length (log w)) with
      | Some msg => inl (PathError "open" p msg)
      | None => match stat (fs w) p with
                | Some (RegFile data _) => inr data
                | Some _ => inl (PathError "read" p "is a directory")
                | None => inl (PathError "open" p "no such file or directory")
                end
      end in
    (r, {| fs := fs w;
           log := log w ++ [{| ev_call := c;
                               ev_err := match r with inl e => Some e | inr _ => None end |}];
           env := env w |}).

Definition os_ReadFile (p : string) : M (error + string) := read (ReadFile p) p.

(** [os.Open]: the path is resolved and the entry it names is opened,
    whether a file or a directory; nothing is read yet.  The handle is the
    name of that entry. *)
Definition os_Open (p : string) : M (error + string) :=
  fun w =>
    let r :=
      match io_fault (env w) (length (log w)) with
      | Some msg => inl (PathError "open" p msg)
      | None => match resolve (fs w) p with
                | Some q => match fs w !! q with
                            | Some _ => inr q
                            | None => inl (PathError "open" p "no such file or directory")
                            end
                | None => inl (PathError "open" p "too many levels of symbolic links")
                end
      end in
    (r, {| fs := fs w;
           log := log w ++ [{| ev_call := Open p;
                               ev_err := match r with inl e => Some e | inr _ => None end |}];
           env := env w |}).

Definition os_Remove (p : string) : M (option error) :=
  syscall (Remove p) "remove" p
    (fun m => match m !! p with
              | None => Some "no such file or directory"
              | Some _ => None
              end)
    (fun m => delete p m).

(** [os.RemoveAll]: the entry and everything within it; a missing entry is
    not an error. *)
Definition os_RemoveAll `{Filepath} (p : string) : M (option error) :=
  syscall (RemoveAll p) "unlinkat" p (fun _ => None)
    (fun m => filter (fun kv => filepath.within p kv.1 = false) (delete p m)).

Definition os_Symlink (oldname newname : string) : M (option error) :=
  syscall (Symlink oldname newname) "symlink" newname
    (fun m => match m !! newname with Some _ => Some "file exists" | None => None end)
    (fun m => <[newname := Link oldname]> m).

(** The pattern of [os.MkdirTemp] is cut at its last star. *)
Fixpoint prefixAndSuffix (pattern : string) : string * option string :=
  match pattern with
  | EmptyString => (EmptyString, None)
  | String c p' =>
      let '(pre, suf) := prefixAndSuffix p' in
      match suf with
      | Some s => (String c pre, Some s)
      | None => if Ascii.eqb c "*" then (EmptyString, Some pre) else (String c pre, None)
      end
  end.

(** [os.MkdirTemp(dir, pattern)]: a new directory of mode 0700 whose name is
    the pattern with its star replaced by a random string.  A name that is
    taken is an error here (Go tries further random strings first). *)
Definition os_MkdirTemp `{Filepath} (dir pattern : string) : M (error + string) :=
  fun w =>
    let d := if String.eqb dir "" then TempDir (env w) else dir in
    let '(pre, suf) := prefixAndSuffix pattern in
    let name := Join [d; pre +:+ temp_rand (env w) (length (log w))
                            +:+ match suf with Some s => s | None => "" end] in
    let '(r, w') :=
      syscall (MkdirTemp dir pattern name) "mkdir" name
        (fun m => match m !! name with Some _ => Some "file exists" | None => None end)
        (fun m => <[name := Directory mode_0700 (egid (env w))]> m) w in
    (match r with Some e => inl e | None => inr name end, w').

(** [exec.Command(argv...)] run to completion by [Run] or [Output]. *)
Definition exec_Run (argv : list string) : M ProcOutcome :=
  fun w =>
    let o := exec_outcome (env w) (length (log w)) argv in
    (o, {| fs := fs w; log := log w ++ [{| ev_call := Exec argv; ev_err := run_err o |}];
           env := env w |}).

Definition runtime_GOOS : M string := fun w => (GOOS (env w), w).
Definition user_current : M (error + user.User) := fun w => (user_Current (env w), w).
Definition user_lookup (name : string) : M (error + user.User) :=
  fun w => (user_Lookup (env w) name, w).

End host.

(** [defer d] around the rest of a function body: [d] runs when the body
    returns, whatever it returns, and its own result is dropped. *)
Definition defer {A B} (d : M B) (body : M A) : M A :=
  let* r := body in
  let* _ := d in
  ret r.

(** * Go standard library: [strconv.Atoi] *)

Module strconv.

Fixpoint digits (acc : Z) (s : string) : option Z :=
  match s with
  | EmptyString => Some acc
  | String c s' =>
      if strings.byte_in 48 57 c
      then digits (10 * acc + (Z.of_N (N_of_ascii c) - 48)) s'
      else None
  end.

(** An optional sign and decimal digits; the value has to fit an [int]
    (64 bits). *)
Definition Atoi (s : string) : error + Z :=
  let '(neg, body) :=
    match s with
    | String c r =>
        if Ascii.eqb c "-" then (true, r)
        else if Ascii.eqb c "+" then (false, r) else (false, s)
    | EmptyString => (false, s)
    end in
  match body with
  | EmptyString => inl (NumError "Atoi" s)
  | _ =>
      match digits 0 body with
      | None => inl (NumError "Atoi" s)
      | Some v =>
          let v := if neg then - v else v in
          if (- 2 ^ 63 <=? v) && (v <? 2 ^ 63) then inr v
          else inl (NumError "Atoi" s)
      end
  end.

End strconv.

Definition dquote : string := String "034" EmptyString.

(** * windows_task.go *)

Module WindowsTask.
Section backend.
Context `{Filepath}.

(** [//go:embed template/task.xml]; the file is not part of the sources. *)
Variable xmlTemplate : string.

Record WindowsTask := {
  Name : string;
  Username : string;
  Uid : string;
  Executable : string;
  Args : string;
  Dir : string;
  LogFile : string
}.

Definition NewWindowsTask (taskName : string) (taskUser : user.User)
    (taskDir taskCommand : string) (taskArgs : list string) : M (error + WindowsTask) :=
  let logDir := Join [user.HomeDir taskUser; "logs"] in
  let* err := host.os_MkdirAll logDir host.mode_0700 in
  match err with
  | Some e => ret (inl (Fatal e))
  | None =>
      let logFile := Join [logDir; taskName +:+ "-task.log"] in
      let taskArgs := taskArgs ++ ["-L"; logFile] in
      ret (inr {| Name := taskName;
                  Username := user.Username taskUser;
                  Uid := user.Uid taskUser;
                  Executable := taskCommand;
                  Args := strings.Join taskArgs " ";
                  Dir := taskDir;
                  LogFile := logFile |})
  end.

(** The verbose echo of the output to the console is not modelled. *)
Definition taskScheduler (t : WindowsTask) (cmd : string) (args : list string) :
    M (Z * string * option error) :=
  let taskArgs := ["/" +:+ cmd; "/TN"; Name t] ++ args in
  let* command := host.exec_Run ("schtasks.exe" :: taskArgs) in
  let err := run_err command in
  let exitCode := ExitCode command in
  let estr := strings.TrimSpace (Stderr command) in
  let ostr := strings.TrimSpace (Stdout command) in
  match err with
  | Some e =>
      if negb (String.eqb estr "") then ret (exitCode, "", Some (Errorf estr))
      else ret (exitCode, "", Some e)
  | None => ret (exitCode, ostr, None)
  end.

(** The callback [Install] hands to [os.Expand]. *)
Definition Install_mapping (t : WindowsTask) (key : string) : string :=
  if String.eqb key "TASK_USER" then Username t
  else if String.eqb key "TASK_UID" then Uid t
  else if String.eqb key "TASK_BIN" then Executable t
  else if String.eqb key "TASK_ARGS" then Args t
  else if String.eqb key "TASK_DIR" then Dir t
  else "UNEXPANDED_XML_PARAM_" +:+ key.

Definition Install (t : WindowsTask) : M (option error) :=
  let xmlData := os.Expand xmlTemplate (Install_mapping t) in
  let* r := host.os_MkdirTemp "" "task-create-*" in
  match r with
  | inl e => ret (Some (Fatal e))
  | inr tempDir =>
      defer (host.os_RemoveAll tempDir)
        (let xmlFile := Join [tempDir; "task.xml"] in
         let* err := host.os_WriteFile (Join [tempDir; "task.xml"]) xmlData host.mode_0600 in
         match err with
         | Some e => ret (Some (Fatal e))
         | None =>
             let createArgs := ["/XML"; xmlFile] in
             let* '(_, _, err) := taskScheduler t "CREATE" createArgs in
             match err with
             | Some e => ret (Some (Fatal e))
             | None => ret None
             end
         end)
  end.

Definition Delete (t : WindowsTask) : M (option error) :=
  let* '(_, _, err) := taskScheduler t "END" [] in
  match err with
  | Some e => ret (Some (Fatal e))
  | None =>
      let* '(_, _, err) := taskScheduler t "DELETE" ["/F"] in
      match err with
      | Some e => ret (Some (Fatal e))
      | None => ret None
      end
  end.

Definition Start (t : WindowsTask) : M (option error) :=
  let* '(_, _, err) := taskScheduler t "RUN" [] in
  match err with
  | Some e => ret (Some (Fatal e))
  | None => ret None
  end.

Definition Stop (t : WindowsTask) : M (option error) :=
  let* '(_, _, err) := taskScheduler t "END" [] in
  match err with
  | Some e => ret (Some (Fatal e))
  | None => ret None
  end.

Definition GetConfig (t : WindowsTask) : M (string * option error) :=
  let* '(_, out, err) := taskScheduler t "QUERY" ["/XML"; "ONE"] in
  match err with
  | Some e => ret ("", Some (Fatal e))
  | None => ret (out, None)
  end.

Definition Query (t : WindowsTask) : M (bool * option error) :=
  let* '(_, stdout, err) := taskScheduler t "QUERY" ["/FO"; "csv"; "/NH"] in
  match err with
  | Some e => ret (false, Some (Fatal e))
  | None =>
      let lines := strings.Split stdout "010" in
      let fields :=
        if (length lines =? 1)%nat then strings.Split (nth 0 lines "") "," else [] in
      if negb (length lines =? 1)%nat || negb (length fields =? 3)%nat then
        ret (false, Some (Fatalf ("unexpected output: " +:+ stdout)))
      else
        let taskName := dquote +:+ "\" +:+ Name t +:+ dquote in
        if negb (String.eqb (nth 0 fields "") taskName) then
          ret (false, Some (Fatalf ("unexpected task name: " +:+ nth 0 fields "")))
        else if String.eqb (nth 2 fields "") (dquote +:+ "Running" +:+ dquote) then
          ret (true, None)
        else ret (false, None)
  end.

End backend.
End WindowsTask.

(** * openbsd_daemon.go *)

Module RCDaemon.
Section backend.
Context `{Filepath}.

(** [//go:embed template/rcfile]; the file is not part of the sources. *)
Variable rcTemplate : string.

Record RCDaemon := {
  Name : string;
  Username : string;
  Uid : string;
  Executable : string;
  Args : string;
  Dir : string;
  LogFile : string;
  serviceBin : string
}.

Definition NewRCDaemon (name : string) (daemonUser : user.User)
    (runDir command : string) (args : list string) : M (error + RCDaemon) :=
  let logFile := Join ["/var/log"; name] in
  let '(_, basename) := Split command in
  ret (inr {| Name := name;
              Username := user.Username daemonUser;
              Uid := user.Uid daemonUser;
              Executable := command;
              Args := strings.Join (args ++ ["-L"; logFile]) " ";
              Dir := runDir;
              LogFile := logFile;
              serviceBin := Join ["/usr/local/bin"; basename] |}).

(** The callback [Install] hands to [os.Expand]. *)
Definition Install_mapping (d : RCDaemon) (key : string) : string :=
  if String.eqb key "TASK_USER" then Username d
  else if String.eqb key "TASK_UID" then Uid d
  else if String.eqb key "TASK_BIN" then serviceBin d
  else if String.eqb key "TASK_ARGS" then Args d
  else if String.eqb key "TASK_DIR" then Dir d
  else "${" +:+ key +:+ "}".

(** Closing the two files (deferred in the source) changes nothing here. *)
Definition Install (d : RCDaemon) : M (option error) :=
  let rcData := os.Expand rcTemplate (Install_mapping d) in
  let write_rc : M (option error) :=
    let rcFile := Join ["/etc/rc.d"; Name d] in
    let* err := host.os_WriteFile rcFile rcData host.mode_0700 in
    match err with
    | Some e => ret (Some (Fatal e))
    | None => ret None
    end in
  if negb (String.eqb (Executable d) (serviceBin d)) then
    let* src := host.os_Open (Executable d) in
    match src with
    | inl e => ret (Some (Fatal e))
    | inr src =>
        let* err := host.os_OpenFile (serviceBin d) host.mode_0755 in
        match err with
        | Some e => ret (Some (Fatal e))
        | None =>
            let* err := host.io_Copy (serviceBin d) src in
            match err with
            | Some e => ret (Some (Fatal e))
            | None => write_rc
            end
        end
    end
  else write_rc.

(** The command line echoed to the console is not modelled. *)
Definition rcctl (d : RCDaemon) (command : string) : M (option error) :=
  let* cmd := host.exec_Run ["rcctl"; command; Name d] in
  ret (run_err cmd).

Definition Delete (d : RCDaemon) : M (option error) :=
  let* err := rcctl d "stop" in
  match err with
  | Some e => ret (Some (Fatal e))
  | None =>
      let* err := rcctl d "disable" in
      match err with
      | Some e => ret (Some (Fatal e))
      | None =>
          let* err := host.os_Remove (Join ["/etc/rc.d"; Name d]) in
          match err with
          | Some e => ret (Some (Fatal e))
          | None => ret None
          end
      end
  end.

Definition Start (d : RCDaemon) : M (option error) :=
  let* err := rcctl d "enable" in
  match err with
  | Some e => ret (Some (Fatal e))
  | None =>
      let* err := rcctl d "start" in
      match err with
      | Some e => ret (Some (Fatal e))
      | None => ret None
      end
  end.

Definition Stop (d : RCDaemon) : M (option error) :=
  let* err := rcctl d "stop" in
  match err with
  | Some e => ret (Some (Fatal e))
  | None => ret None
  end.

Definition GetConfig (d : RCDaemon) : M (string * option error) :=
  let* cmd := host.exec_Run ["rcctl"; "get"; Name d] in
  match run_err cmd with
  | Some e => ret ("", Some (Fatal e))
  | None => ret (Stdout cmd, None)
  end.

Definition Query (d : RCDaemon) : M (bool * option error) :=
  let* cmd := host.exec_Run ["rcctl"; "check"; Name d] in
  let err := run_err cmd in
  match err with
  | None | Some (ExitError _) =>
      let exitCode := ExitCode cmd in
      ret (exitCode =? 0, None)
  | Some e => ret (false, Some (Fatal e))
  end.

End backend.
End RCDaemon.

(** * daemontools *)

Module Daemontools.
Section backend.
Context `{Filepath}.

(** [//go:embed template/daemontools_run] and [template/daemontools_log];
    the files are not part of the sources. *)
Variables runTemplate logTemplate : string.

Record Daemontools := {
  Name : string;
  Username : string;
  Uid : string;
  Gid : string;
  Executable : string;
  Args : string;
  Dir : string;
  LogFile : string;
  service : string;
  serviceBin : string
}.

Definition NewDaemontools (name : string) (serviceUser : user.User)
    (runDir command : string) (args : list string) : M (error + Daemontools) :=
  let serviceDir := Join ["/etc/service"; name] in
  let '(_, basename) := Split command in
  let args := args ++ ["-L-"] in
  ret (inr {| Name := name;
              Username := user.Username serviceUser;
              Uid := user.Uid serviceUser;
              Gid := user.Gid serviceUser;
              Executable := command;
              Args := strings.Join args " ";
              Dir := runDir;
              LogFile := "";
              service := serviceDir;
              serviceBin := Join ["/usr/local/bin"; basename] |}).

(** The callback [templateData] hands to [os.Expand]. *)
Definition templateData_mapping (d : Daemontools) (key : string) : string :=
  if String.eqb key "TASK_NAME" then Name d
  else if String.eqb key "TASK_USER" then Username d
  else if String.eqb key "TASK_UID" then Uid d
  else if String.eqb key "TASK_BIN" then serviceBin d
  else if String.eqb key "TASK_ARGS" then Args d
  else if String.eqb key "TASK_DIR" then Dir d
  else "${" +:+ key +:+ "}".

Definition templateData (d : Daemontools) (template : string) : string :=
  os.Expand template (templateData_mapping d).

Definition enable (d : Daemontools) : M (option error) :=
  let downFile := Join [service d; "down"] in
  let* present := host.IsFile downFile in
  if present then
    let* err := host.os_Remove downFile in
    match err with
    | Some e => ret (Some (Fatal e))
    | None => ret None
    end
  else ret None.

Definition disable (d : Daemontools) : M (option error) :=
  let downFile := Join [service d; "down"] in
  let* present := host.IsFile downFile in
  if negb present then
    let* err := host.os_WriteFile downFile "" host.mode_0600 in
    match err with
    | Some e => ret (Some (Fatal e))
    | None => ret None
    end
  else ret None.

(** Closing the source file (deferred in the source) changes nothing here. *)
Definition Install (d : Daemontools) : M (option error) :=
  match strconv.Atoi (Gid d) with
  | inl e => ret (Some (Fatal e))
  | inr gid =>
  let* err := host.os_MkdirAll "/var/svc.d" host.mode_0755 in
  match err with Some e => ret (Some e) | None =>
  let dir := Join ["/var/svc.d"; Name d] in
  let* err := host.os_MkdirAll (Join [dir; "log"]) host.mode_0750 in
  match err with Some e => ret (Some e) | None =>
  let* err := host.os_Chown dir (-1) gid in
  match err with Some e => ret (Some e) | None =>
  let* err := host.os_WriteFile (Join [dir; "run"]) (templateData d runTemplate)
                host.mode_0700 in
  match err with Some e => ret (Some (Fatal e)) | None =>
  let* err := host.os_WriteFile (Join [dir; "log"; "run"]) (templateData d logTemplate)
                host.mode_0700 in
  match err with Some e => ret (Some (Fatal e)) | None =>
  let* ifp := host.os_Open (Executable d) in
  match ifp with inl e => ret (Some (Fatal e)) | inr ifp =>
  let* err := host.os_OpenFile (serviceBin d) host.mode_0755 in
  match err with Some e => ret (Some (Fatal e)) | None =>
  let* err := host.io_Copy (serviceBin d) ifp in
  match err with Some e => ret (Some (Fatal e)) | None =>
  let logdir := Join ["/var/log"; Name d] in
  let* isdir := host.IsDir logdir in
  let* err := (if negb isdir then host.os_Mkdir logdir host.mode_0770 else ret None) in
  match err with Some e => ret (Some (Fatal e)) | None =>
  let* err := host.os_WriteFile (Join [dir; "down"]) "" host.mode_0600 in
  match err with Some e => ret (Some (Fatal e)) | None =>
  let* err := host.os_Symlink dir (service d) in
  match err with Some e => ret (Some (Fatal e)) | None =>
  ret None
  end end end end end end end end end end end
  end.

Definition svstat (d : Daemontools) (serviceDir : string) : M (bool * option error) :=
  let* cmd := host.exec_Run ["svstat"; serviceDir] in
  match run_err cmd with
  | Some e => ret (false, Some (Fatal e))
  | None =>
      let status := strings.TrimSpace (Stdout cmd) in
      let fields := strings.Fields status in
      if (length fields <? 2)%nat then
        ret (false, Some (Fatalf ("unexpected svstat output: " +:+ status)))
      else if negb (String.eqb (nth 0 fields "") (serviceDir +:+ ":")) then
        ret (false, Some (Fatalf ("unexpected svstat dir output: " +:+ nth 0 fields "")))
      else
        let running := if String.eqb (nth 1 fields "") "up" then true else false in
        ret (running, None)
  end.

Definition Stop (d : Daemontools) : M (option error) :=
  let* cmd := host.exec_Run ["svc"; "-d"; service d] in
  match run_err cmd with
  | Some e => ret (Some (Fatal e))
  | None => ret None
  end.

Definition Delete (d : Daemontools) : M (option error) :=
  let* '(running, err) := svstat d (service d) in
  match err with Some e => ret (Some (Fatal e)) | None =>
  let* err := (if running : bool then
                 let* err := Stop d in
                 match err with
                 | Some e => ret (Some (Fatal e))
                 | None => ret None
                 end
               else ret None) in
  match err with Some e => ret (Some e) | None =>
  let* '(logRunning, err) := svstat d (Join [service d; "log"]) in
  match err with Some e => ret (Some (Fatal e)) | None =>
  let* err := (if logRunning : bool then
                 let* cmd := host.exec_Run ["svc"; "-d"; Join [service d; "log"]] in
                 match run_err cmd with
                 | Some e => ret (Some (Fatal e))
                 | None => ret None
                 end
               else ret None) in
  match err with Some e => ret (Some e) | None =>
  let* err := host.os_RemoveAll (service d) in
  match err with Some e => ret (Some (Fatal e)) | None =>
  let* err := host.os_RemoveAll (Join ["/var/svc.d"; Name d]) in
  match err with Some e => ret (Some (Fatal e)) | None =>
  ret None
  end end end end end end.

Definition Start (d : Daemontools) : M (option error) :=
  let* err := enable d in
  match err with
  | Some e => ret (Some (Fatal e))
  | None =>
      let* cmd := host.exec_Run ["svc"; "-u"; service d] in
      match run_err cmd with
      | Some e => ret (Some (Fatal e))
      | None => ret None
      end
  end.

Definition GetConfig (d : Daemontools) : M (string * option error) :=
  let* runData := host.os_ReadFile (Join [service d; "run"]) in
  match runData with
  | inl e => ret ("", Some (Fatal e))
  | inr data => ret (data, None)
  end.

Definition Query (d : Daemontools) : M (bool * option error) :=
  let* '(running, err) := svstat d (service d) in
  match err with
  | Some e => ret (false, Some (Fatal e))
  | None => ret (running, None)
  end.

End backend.
End Daemontools.

(** * daemon.go: the interface and its factory *)

(** The [CobraDaemon] interface has three implementations. *)
Inductive CobraDaemon : Type :=
| OfWindowsTask (t : WindowsTask.WindowsTask)
| OfRCDaemon (d : RCDaemon.RCDaemon)
| OfDaemontools (d : Daemontools.Daemontools).

Section factory.
Context `{Filepath}.

Definition NewDaemon (name username dir command : string) (args : list string) :
    M (error + CobraDaemon) :=
  let* cur := host.user_current in
  match cur with
  | inl e => ret (inl (Fatal e))
  | inr taskUser =>
  let* looked := (if negb (String.eqb username "") then host.user_lookup username
                  else ret (inr taskUser)) in
  match looked with
  | inl e => ret (inl (Fatal e))
  | inr taskUser =>
  let taskDir := if String.eqb dir "" then user.HomeDir taskUser else dir in
  let* isdir := host.IsDir taskDir in
  if negb isdir then ret (inl (Fatalf ("not directory: " +:+ taskDir)))
  else
    let* goos := host.runtime_GOOS in
    if String.eqb goos "windows" then
      let* r := WindowsTask.NewWindowsTask name taskUser taskDir command args in
      match r with
      | inl e => ret (inl (Fatal e))
      | inr t => ret (inr (OfWindowsTask t))
      end
    else if String.eqb goos "openbsd" then
      let* r := RCDaemon.NewRCDaemon name taskUser taskDir command args in
      match r with
      | inl e => ret (inl (Fatal e))
      | inr d => ret (inr (OfRCDaemon d))
      end
    else if String.eqb goos "linux" then
      let* r := Daemontools.NewDaemontools name taskUser taskDir command args in
      match r with
      | inl e => ret (inl (Fatal e))
      | inr d => ret (inr (OfDaemontools d))
      end
    else ret (inl (Fatalf ("unsuported os: " +:+ goos)))
  end
  end.

End factory.

(** * Notions used to state the properties *)

(** The command line [taskScheduler] runs. *)
Definition schtasks_argv (t : WindowsTask.WindowsTask) (cmd : string) (args : list string) :
    list string :=
  "schtasks.exe" :: ["/" +:+ cmd; "/TN"; WindowsTask.Name t] ++ args.

(** Occurrences of a byte in a string. *)
Fixpoint count (c : ascii) (s : string) : nat :=
  match s with
  | EmptyString => 0%nat
  | String a s' => ((if Ascii.eqb a c then 1 else 0) + count c s')%nat
  end.

(** The task name as schtasks prints it in CSV output: quoted, with a
    leading backslash. *)
Definition quoted_task (name : string) : string := dquote +:+ "\" +:+ name +:+ dquote.

Definition running_literal : string := dquote +:+ "Running" +:+ dquote.

(** A host for examples: a Unix name space, an oracle for the external
    commands, and the calls that fail for outside reasons. *)
Definition root : user.User :=
  {| user.Username := "root"; user.Uid := "0"; user.Gid := "0"; user.HomeDir := "/root" |}.

Definition svc : user.User :=
  {| user.Username := "svc"; user.Uid := "1001"; user.Gid := "1001";
     user.HomeDir := "/home/svc" |}.

Definition sample_env (goos : string) (answer : list string -> ProcOutcome)
    (fault : nat -> option string) : Env :=
  {| exec_outcome := fun _ argv => answer argv;
     io_fault := fault;
     temp_rand := fun _ => "2041597263";
     TempDir := "/tmp";
     egid := 0;
     GOOS := goos;
     user_Current := inr root;
     user_Lookup := fun n => if String.eqb n "svc" then inr svc
                             else inl (UserError ("user: unknown user " +:+ n)) |}.

Definition sample_fs : gmap string node :=
  {[ "/root" := Directory 448 0;
     "/home/svc" := Directory 493 1001;
     "/usr/local/bin/netbootd" := RegFile "ELF" 493 ]}.

Definition sample_world (goos : string) (answer : list string -> ProcOutcome)
    (fault : nat -> option string) : World :=
  {| fs := sample_fs; log := []; env := sample_env goos answer fault |}.

Definition no_fault : nat -> option string := fun _ => None.

Definition netboot_task : WindowsTask.WindowsTask :=
  {| WindowsTask.Name := "netboot"; WindowsTask.Username := "svc";
     WindowsTask.Uid := "1001"; WindowsTask.Executable := "/usr/local/bin/netbootd";
     WindowsTask.Args := "server -L /home/svc/logs/netboot-task.log";
     WindowsTask.Dir := "/home/svc";
     WindowsTask.LogFile := "/home/svc/logs/netboot-task.log" |}.

(** The pieces [os.Expand] cuts a template into, each with the text it
    covers: a literal byte, a reference to a name ([$name] or [${name}]), or
    malformed syntax that is eaten ([${}], an unclosed [${]). *)
Inductive piece : Type :=
| Literal (c : ascii)
| Reference (name raw : string)
| Dropped (raw : string).

Fixpoint pieces_go (fuel : nat) (s : string) : list piece :=
  match fuel, s with
  | S k, String c s' =>
      if Ascii.eqb c "$" && negb (String.eqb s' "") then
        let '(name, w) := os.getShellName s' in
        let raw := String c (String.substring 0 w s') in
        (if String.eqb name "" then
           if (0 <? w)%nat then Dropped raw else Literal c
         else Reference name raw)
        :: pieces_go k (strings.drop w s')
      else Literal c :: pieces_go k s'
  | _, _ => []
  end.

Definition pieces (s : string) : list piece := pieces_go (String.length s) s.

Definition raw_text (p : piece) : string :=
  match p with
  | Literal c => String c EmptyString
  | Reference _ raw => raw
  | Dropped raw => raw
  end.

Definition render (mapping : string -> string) (p : piece) : string :=
  match p with
  | Literal c => String c EmptyString
  | Reference name _ => mapping name
  | Dropped _ => EmptyString
  end.

(** The placeholders a backend recognizes, with their configured values. *)
Fixpoint assoc (key : string) (table : list (string * string)) : option string :=
  match table with
  | [] => None
  | (k, v) :: rest => if String.eqb key k then Some v else assoc key rest
  end.

Definition windows_table (t : WindowsTask.WindowsTask) : list (string * string) :=
  [("TASK_USER", WindowsTask.Username t); ("TASK_UID", WindowsTask.Uid t);
   ("TASK_BIN", WindowsTask.Executable t); ("TASK_ARGS", WindowsTask.Args t);
   ("TASK_DIR", WindowsTask.Dir t)].

Definition rc_table (d : RCDaemon.RCDaemon) : list (string * string) :=
  [("TASK_USER", RCDaemon.Username d); ("TASK_UID", RCDaemon.Uid d);
   ("TASK_BIN", RCDaemon.serviceBin d); ("TASK_ARGS", RCDaemon.Args d);
   ("TASK_DIR", RCDaemon.Dir d)].

Definition daemontools_table (d : Daemontools.Daemontools) : list (string * string) :=
  [("TASK_NAME", Daemontools.Name d); ("TASK_USER", Daemontools.Username d);
   ("TASK_UID", Daemontools.Uid d); ("TASK_BIN", Daemontools.serviceBin d);
   ("TASK_ARGS", Daemontools.Args d); ("TASK_DIR", Daemontools.Dir d)].

(** What a rendering does with every reference of [template]: the output is
    the pieces rendered in order, the pieces cover the template, and a
    reference is rendered as its value when [table] has one, and otherwise as
    [marker name], a non-empty text that contains the name. *)
Definition renders_all (template : string) (mapping : string -> string)
    (table : list (string * string)) (marker : string -> string) : Prop :=
  os.Expand template mapping = String.concat "" (map (render mapping) (pieces template))
  /\ String.concat "" (map raw_text (pieces template)) = template
  /\ (forall name raw, In (Reference name raw) (pieces template) ->
        name <> ""
        /\ render mapping (Reference name raw) =
           match assoc name table with Some v => v | None => marker name end)
  /\ (forall name, marker name <> "" /\ strings.Contains (marker name) name = true)
  /\ (forall key rest, key <> "" -> count "}" key = 0%nat ->
        os.Expand ("${" +:+ key +:+ "}" +:+ rest) mapping
        = match assoc key table with Some v => v | None => marker key end
          +:+ os.Expand rest mapping).

(** The user [NewDaemon] acts for: the current user, or the user looked up
    by name when a name is given (the current user is resolved first in
    either case). *)
Definition resolved_user (w : World) (username : string) : error + user.User :=
  match user_Current (env w) with
  | inl e => inl e
  | inr u => if String.eqb username "" then inr u else user_Lookup (env w) username
  end.

Definition working_directory (taskUser : user.User) (dir : string) : string :=
  if String.eqb dir "" then user.HomeDir taskUser else dir.

Definition supported (goos : string) : bool :=
  String.eqb goos "windows" || String.eqb goos "openbsd" || String.eqb goos "linux".

Definition is_directory (w : World) (p : string) : bool := (host.IsDir p w).1.

Definition is_file (w : World) (p : string) : bool := (host.IsFile p w).1.

(** The [down] sentinel of a supervised service, by the name the helpers
    use for it. *)
Definition downFile `{Filepath} (d : Daemontools.Daemontools) : string :=
  Join [Daemontools.service d; "down"].

(** The log only grows: [w'] is [w] after some more calls. *)
Definition extends (w w' : World) : Prop := exists evs, log w' = log w ++ evs.

(** The control directory of a supervised service. *)
Definition controlDir `{Filepath} (d : Daemontools.Daemontools) : string :=
  Join ["/var/svc.d"; Daemontools.Name d].

(** The calls the supervised-tree [Delete] may make once the probe of the
    service has answered "not running": none of them is the stop signal
    [svc -d] for the service itself. *)
Definition after_probe_call `{Filepath} (d : Daemontools.Daemontools) (c : call) : Prop :=
  c = Exec ["svstat"; Join [Daemontools.service d; "log"]]
  \/ c = Exec ["svc"; "-d"; Join [Daemontools.service d; "log"]]
  \/ c = RemoveAll (Daemontools.service d)
  \/ c = RemoveAll (controlDir d).

(** What the supervised-tree [Delete] does after the service itself is
    dealt with: the log supervisor, then the two directory trees. *)
Definition Delete_tail `{Filepath} (d : Daemontools.Daemontools) : M (option error) :=
  let* '(logRunning, err) :=
    Daemontools.svstat d (Join [Daemontools.service d; "log"]) in
  match err with Some e => ret (Some (Fatal e)) | None =>
  let* err := (if logRunning : bool then
                 let* cmd := host.exec_Run ["svc"; "-d"; Join [Daemontools.service d; "log"]] in
                 match run_err cmd with
                 | Some e => ret (Some (Fatal e))
                 | None => ret None
                 end
               else ret None) in
  match err with Some e => ret (Some e) | None =>
  let* err := host.os_RemoveAll (Daemontools.service d) in
  match err with Some e => ret (Some (Fatal e)) | None =>
  let* err := host.os_RemoveAll (Join ["/var/svc.d"; Daemontools.Name d]) in
  match err with Some e => ret (Some (Fatal e)) | None =>
  ret None
  end end end end.

Definition only_calls (P : call -> Prop) (w w' : World) : Prop :=
  exists rest, log w' = log w ++ rest /\ Forall (fun ev => P (ev_call ev)) rest.

(** A Windows host on which the task is installed and not running, and on
    which [schtasks /END] fails. *)
Definition stopped_task_answer (argv : list string) : ProcOutcome :=
  match argv with
  | [_; verb; _; _] =>
      if String.eqb verb "/END"
      then Exited 1 "" "ERROR: The request could not be completed."
      else Exited 0 "" ""
  | [_; verb; _; _; _] =>                     (* /DELETE /TN name /F *)
      Exited 0 "SUCCESS: The scheduled task was successfully deleted." ""
  | _ =>                                      (* /QUERY /TN name /FO csv /NH *)
      Exited 0 (quoted_task "netboot" +:+ "," +:+ dquote +:+ "N/A" +:+ dquote +:+ ","
                +:+ dquote +:+ "Ready" +:+ dquote) ""
  end.

Definition stopped_task_world : World := sample_world "windows" stopped_task_answer no_fault.

(** An OpenBSD host on which the daemon is installed and not running, and on
    which [rcctl stop] exits with status 1. *)
Definition netboot_rc : RCDaemon.RCDaemon :=
  {| RCDaemon.Name := "netboot"; RCDaemon.Username := "svc"; RCDaemon.Uid := "1001";
     RCDaemon.Executable := "/usr/local/bin/netbootd";
     RCDaemon.Args := "server -L /var/log/netboot";
     RCDaemon.Dir := "/home/svc"; RCDaemon.LogFile := "/var/log/netboot";
     RCDaemon.serviceBin := "/usr/local/bin/netbootd" |}.

Definition stopped_rc_answer (argv : list string) : ProcOutcome :=
  match argv with
  | [_; verb; _] =>
      if String.eqb verb "check" || String.eqb verb "stop"
      then Exited 1 "" "" else Exited 0 "" ""
  | _ => Exited 0 "" ""
  end.

Definition stopped_rc_world : World :=
  {| fs := <["/etc/rc.d/netboot" := RegFile "#!/bin/ksh" 448]> sample_fs;
     log := [];
     env := sample_env "openbsd" stopped_rc_answer no_fault |}.

(** The same two hosts with utilities that accept every request: the
    service is installed and not running, and the stop verb succeeds. *)
Definition idle_task_answer (argv : list string) : ProcOutcome :=
  match argv with
  | [_; _; _; _] => Exited 0 "" ""                        (* /END /TN name *)
  | [_; _; _; _; _] =>                                    (* /DELETE /TN name /F *)
      Exited 0 "SUCCESS: The scheduled task was successfully deleted." ""
  | _ =>                                                  (* /QUERY /TN name /FO csv /NH *)
      Exited 0 (quoted_task "netboot" +:+ "," +:+ dquote +:+ "N/A" +:+ dquote +:+ ","
                +:+ dquote +:+ "Ready" +:+ dquote) ""
  end.

Definition idle_task_world : World := sample_world "windows" idle_task_answer no_fault.

Definition idle_rc_answer (argv : list string) : ProcOutcome :=
  match argv with
  | [_; verb; _] => if String.eqb verb "check" then Exited 1 "" "" else Exited 0 "" ""
  | _ => Exited 0 "" ""
  end.

Definition idle_rc_world : World :=
  {| fs := <["/etc/rc.d/netboot" := RegFile "#!/bin/ksh" 448]> sample_fs;
     log := [];
     env := sample_env "openbsd" idle_rc_answer no_fault |}.

(** A Linux host with the supervised service installed and down. *)
Definition netboot_svc : Daemontools.Daemontools :=
  {| Daemontools.Name := "netboot"; Daemontools.Username := "svc";
     Daemontools.Uid := "1001"; Daemontools.Gid := "1001";
     Daemontools.Executable := "/usr/local/bin/netbootd";
     Daemontools.Args := "server -L-"; Daemontools.Dir := "/home/svc";
     Daemontools.LogFile := "";
     Daemontools.service := "/etc/service/netboot";
     Daemontools.serviceBin := "/usr/local/bin/netbootd" |}.

Definition down_svc_answer (argv : list string) : ProcOutcome :=
  match argv with
  | [_; dir] => Exited 0 (dir +:+ ": down 12 seconds, normally up") ""
  | _ => Exited 0 "" ""
  end.

Definition down_svc_world : World :=
  {| fs := <["/etc/service/netboot" := Link "/var/svc.d/netboot"]>
           (<["/etc/service/netboot/down" := RegFile "" 384]>
           (<["/var/svc.d/netboot" := Directory 488 1001]>
           (<["/var/svc.d/netboot/run" := RegFile "#!/bin/sh" 448]> sample_fs)));
     log := [];
     env := sample_env "linux" down_svc_answer no_fault |}.

(** A Linux host before the service is installed, with the executable in
    the home directory of the service user. *)
Definition netboot_new : Daemontools.Daemontools :=
  {| Daemontools.Name := "netboot"; Daemontools.Username := "svc";
     Daemontools.Uid := "1001"; Daemontools.Gid := "1001";
     Daemontools.Executable := "/home/svc/netbootd";
     Daemontools.Args := "server -L-"; Daemontools.Dir := "/home/svc";
     Daemontools.LogFile := "";
     Daemontools.service := "/etc/service/netboot";
     Daemontools.serviceBin := "/usr/local/bin/netbootd" |}.

Definition fresh_linux_world : World :=
  {| fs := <["/home/svc/netbootd" := RegFile "ELF" 493]> sample_fs;
     log := [];
     env := sample_env "linux" down_svc_answer no_fault |}.

Definition sample_run_template : string :=
  "#!/bin/sh" +:+ String "010" "exec setuidgid ${TASK_USER} ${TASK_BIN} ${TASK_ARGS} 2>&1".

Definition sample_log_template : string :=
  "#!/bin/sh" +:+ String "010" "exec multilog t /var/log/${TASK_NAME}".

(** A Windows host on which the task runs. *)
Definition crlf : string := String "013" (String "010" EmptyString).

Definition running_task_answer (argv : list string) : ProcOutcome :=
  Exited 0 (quoted_task "netboot" +:+ "," +:+ dquote +:+ "Ready" +:+ dquote +:+ ","
            +:+ running_literal +:+ crlf) "".

Definition running_task_world : World := sample_world "windows" running_task_answer no_fault.

(** A Windows host on which schtasks refuses every request. *)
Definition denied_answer (argv : list string) : ProcOutcome :=
  Exited 1 "" ("ERROR: Access is denied." +:+ crlf).

Definition denied_world : World := sample_world "windows" denied_answer no_fault.

(** A Linux host on which svstat reports the service up. *)
Definition up_svc_answer (argv : list string) : ProcOutcome :=
  match argv with
  | [_; dir] => Exited 0 (dir +:+ ": up (pid 123) 5 seconds" +:+ String "010" "") ""
  | _ => Exited 0 "" ""
  end.

Definition up_svc_world : World := sample_world "linux" up_svc_answer no_fault.

(** A host of a platform without backend. *)
Definition plan9_world : World := sample_world "plan9" (fun _ => Exited 0 "" "") no_fault.

(** * The interface methods and the commands of cobra.go *)

(** A method call on a [CobraDaemon] value goes to the implementation of
    its variant.  The four embedded templates are parameters. *)
Module daemon.
Section methods.
Context `{Filepath}.
Variables xmlTemplate rcTemplate runTemplate logTemplate : string.

Definition Install (d : CobraDaemon) : M (option error) :=
  match d with
  | OfWindowsTask t => WindowsTask.Install xmlTemplate t
  | OfRCDaemon r => RCDaemon.Install rcTemplate r
  | OfDaemontools s => Daemontools.Install runTemplate logTemplate s
  end.

Definition Delete (d : CobraDaemon) : M (option error) :=
  match d with
  | OfWindowsTask t => WindowsTask.Delete t
  | OfRCDaemon r => RCDaemon.Delete r
  | OfDaemontools s => Daemontools.Delete s
  end.

Definition Start (d : CobraDaemon) : M (option error) :=
  match d with
  | OfWindowsTask t => WindowsTask.Start t
  | OfRCDaemon r => RCDaemon.Start r
  | OfDaemontools s => Daemontools.Start s
  end.

Definition Stop (d : CobraDaemon) : M (option error) :=
  match d with
  | OfWindowsTask t => WindowsTask.Stop t
  | OfRCDaemon r => RCDaemon.Stop r
  | OfDaemontools s => Daemontools.Stop s
  end.

Definition GetConfig (d : CobraDaemon) : M (string * option error) :=
  match d with
  | OfWindowsTask t => WindowsTask.GetConfig t
  | OfRCDaemon r => RCDaemon.GetConfig r
  | OfDaemontools s => Daemontools.GetConfig s
  end.

Definition Query (d : CobraDaemon) : M (bool * option error) :=
  match d with
  | OfWindowsTask t => WindowsTask.Query t
  | OfRCDaemon r => RCDaemon.Query r
  | OfDaemontools s => Daemontools.Query s
  end.

(** The [Run] functions of the commands, from the point where [initDaemon]
    has returned the daemon [d]; the flags read from the configuration are
    arguments.  The result is the status the process exits with, or [None]
    when [Run] returns to the caller.  [cobra.CheckErr(err)] prints the error
    and exits with status 1 when [err] is not nil; what is printed is not
    modelled. *)
Definition CheckErr (err : option error) (k : M (option Z)) : M (option Z) :=
  match err with
  | Some _ => ret (Some 1)
  | None => k
  end.

Definition daemonInstallCmd (d : CobraDaemon) (force : bool) : M (option Z) :=
  let* '(_, err) := GetConfig d in
  let install : M (option Z) :=
    let* err := Install d in
    CheckErr err (ret None) in
  if match err with None => true | Some _ => false end && force then
    let* err := Delete d in
    CheckErr err install
  else install.

Definition daemonStartCmd (d : CobraDaemon) : M (option Z) :=
  let* err := Start d in
  CheckErr err (ret None).

Definition daemonStopCmd (d : CobraDaemon) : M (option Z) :=
  let* err := Stop d in
  CheckErr err (ret None).

Definition daemonRestartCmd (d : CobraDaemon) : M (option Z) :=
  let* err := Stop d in
  CheckErr err
    (let* err := Start d in
     CheckErr err (ret None)).

Definition daemonDeleteCmd (d : CobraDaemon) : M (option Z) :=
  let* err := Delete d in
  CheckErr err (ret None).

Definition daemonShowCmd (d : CobraDaemon) : M (option Z) :=
  let* '(out, err) := GetConfig d in
  CheckErr err (ret None).

Definition daemonQueryCmd (d : CobraDaemon) (quiet : bool) : M (option Z) :=
  let* '(running, err) := Query d in
  (if negb quiet then CheckErr err else fun k => k)
    (if running : bool then ret (Some 0) else ret (Some 1)).

End methods.
End daemon.

(** [strings.Cut(s, sep)] for a separator of one byte: the text before the
    first separator, the text after it, and whether there is one. *)
Fixpoint Cut (s : string) (sep : ascii) : string * string * bool :=
  match s with
  | EmptyString => (EmptyString, EmptyString, false)
  | String c s' =>
      if Ascii.eqb c sep then (EmptyString, s', true)
      else let '(before, after, found) := Cut s' sep in (String c before, after, found)
  end.

(** [daemonDefaults] on a Unix host, from what [os.Executable] returned:
    the result is the status [cobra.CheckErr] exits with, or the path of the
    binary and the default name of the daemon. *)
Definition daemonDefaults (executable : error + string) : Z + string * string :=
  match executable with
  | inl _ => inl 1
  | inr binary =>
      let binary := filepath.Clean binary in
      let '(_, name) := filepath.unix_Split binary in
      let '(name, _, _) := Cut name "." in
      inr (binary, name)
  end.

(** The calls the Windows backend makes outside [Install]: [schtasks.exe]
    with a verb and the task name. *)
Definition schtasks_call (t : WindowsTask.WindowsTask) (c : call) : Prop :=
  exists verb args, c = Exec (schtasks_argv t verb args).

(** The calls the rc-script backend makes outside [Install] and [Delete]:
    [rcctl] with a verb and the daemon name. *)
Definition rcctl_call (d : RCDaemon.RCDaemon) (c : call) : Prop :=
  exists verb, c = Exec ["rcctl"; verb; RCDaemon.Name d].

(** A Linux host on which nothing answers as the package expects:
    used where an operation has to fail. *)
Definition broken_answer (argv : list string) : ProcOutcome :=
  Failed "exec: not found" (-1) "" "".

Definition broken_world (goos : string) : World := sample_world goos broken_answer no_fault.

(** A daemon whose name has a comma, and one whose supervision directory
    has a blank in its name. *)
Definition comma_task : WindowsTask.WindowsTask :=
  {| WindowsTask.Name := "net,boot"; WindowsTask.Username := "svc";
     WindowsTask.Uid := "1001"; WindowsTask.Executable := "/usr/local/bin/netbootd";
     WindowsTask.Args := "server"; WindowsTask.Dir := "/home/svc";
     WindowsTask.LogFile := "/home/svc/logs/net,boot-task.log" |}.

Definition comma_answer (argv : list string) : ProcOutcome :=
  Exited 0 (quoted_task "net,boot" +:+ "," +:+ dquote +:+ "N/A" +:+ dquote +:+ ","
            +:+ running_literal) "".

Definition blank_svc : Daemontools.Daemontools :=
  {| Daemontools.Name := "net boot"; Daemontools.Username := "svc";
     Daemontools.Uid := "1001"; Daemontools.Gid := "1001";
     Daemontools.Executable := "/usr/local/bin/netbootd";
     Daemontools.Args := "server -L-"; Daemontools.Dir := "/home/svc";
     Daemontools.LogFile := "";
     Daemontools.service := "/etc/service/net boot";
     Daemontools.serviceBin := "/usr/local/bin/netbootd" |}.

Definition comma_world : World := sample_world "windows" comma_answer no_fault.




(** What one call [c] with result [r] adds to the log of [w]; a call that
    fails leaves the name space as it is. *)
Definition step_of (c : call) (r : option error * World) (w : World) : Prop :=
  log r.2 = log w ++ [{| ev_call := c; ev_err := r.1 |}]
  /\ (forall e, r.1 = Some e -> fs r.2 = fs w).

(** No entry of the name space is lost from [w] to [w']. *)
Definition keeps_entries (w w' : World) : Prop :=
  forall k, is_Some (fs w !! k) -> is_Some (fs w' !! k).

(** * Properties *)

#[local] Arguments String.append : simpl nomatch.

(** ** Running a computation *)

Lemma bind_run {A B} (m : M A) (k : A -> M B) (w : World) :
  bind m k w = k (m w).1 (m w).2.
Proof. unfold bind. destruct (m w); reflexivity. Qed.

Lemma bind_ret {A B} (a : A) (k : A -> M B) (w : World) : bind (ret a) k w = k a w.
Proof. reflexivity. Qed.

(** ** [strings.Split] *)

Lemma Split_nonempty (s : string) (sep : ascii) : strings.Split s sep <> [].
Proof.
  destruct s as [|c s]; simpl; [discriminate|].
  destruct (Ascii.eqb c sep); [discriminate|].
  destruct (strings.Split s sep); discriminate.
Qed.

Lemma Split_single (s : string) (sep : ascii) :
  length (strings.Split s sep) = 1%nat -> strings.Split s sep = [s].
Proof.
  induction s as [|c s IH]; simpl; [reflexivity|].
  destruct (Ascii.eqb c sep).
  - pose proof (Split_nonempty s sep) as Hne.
    destruct (strings.Split s sep); [congruence | simpl; lia].
  - pose proof (Split_nonempty s sep) as Hne.
    destruct (strings.Split s sep) as [|f fs] eqn:E; [congruence|].
    simpl. intros Hlen. destruct fs; [|simpl in Hlen; lia].
    specialize (IH eq_refl). congruence.
Qed.

(** ** The Windows process invoker *)

Section windows_invoker.
Context `{Filepath}.
Import WindowsTask.

Lemma taskScheduler_run (t : WindowsTask) (cmd : string) (args : list string) (w : World) :
  let o := exec_outcome (env w) (length (log w)) (schtasks_argv t cmd args) in
  taskScheduler t cmd args w =
  (match run_err o with
   | Some e =>
       if negb (String.eqb (strings.TrimSpace (Stderr o)) "")
       then (ExitCode o, "", Some (Errorf (strings.TrimSpace (Stderr o))))
       else (ExitCode o, "", Some e)
   | None => (ExitCode o, strings.TrimSpace (Stdout o), None)
   end,
   (host.exec_Run (schtasks_argv t cmd args) w).2).
Proof.
  unfold taskScheduler, schtasks_argv, bind, ret, host.exec_Run.
  cbn beta iota zeta. cbn [fst snd].
  destruct (run_err _) as [e|]; [|reflexivity].
  destruct (negb _); reflexivity.
Qed.

(** C6. The invoker runs [schtasks.exe /CMD /TN name args...] once and maps
    what it observes: on success the exit code with the output trimmed of
    white space; on a failed run with a non-empty trimmed error output an
    error whose message is that text (the captured error output, trimmed: it
    is the raw capture whenever that has no white space at its ends); on a
    failed run with nothing on the error output, the error of the run itself. *)
Theorem taskScheduler_result (t : WindowsTask) (cmd : string) (args : list string)
    (w : World) :
  let o := exec_outcome (env w) (length (log w)) (schtasks_argv t cmd args) in
  let r := (taskScheduler t cmd args w).1 in
  (run_err o = None ->
     r = (ExitCode o, strings.TrimSpace (Stdout o), None) /\ ExitCode o = 0)
  /\ (forall e, run_err o = Some e -> strings.TrimSpace (Stderr o) <> "" ->
        r = (ExitCode o, "", Some (Errorf (strings.TrimSpace (Stderr o))))
        /\ (strings.TrimSpace (Stderr o) = Stderr o ->
            r = (ExitCode o, "", Some (Errorf (Stderr o)))))
  /\ (forall e, run_err o = Some e -> strings.TrimSpace (Stderr o) = "" ->
        r = (ExitCode o, "", Some e))
  /\ (taskScheduler t cmd args w).2 = (host.exec_Run (schtasks_argv t cmd args) w).2.
Proof.
  intros o r. subst r. rewrite taskScheduler_run. fold o. cbn [fst snd].
  split; [|split; [|split]].
  - intros Hr. rewrite Hr. split; [reflexivity|].
    destruct o; simpl in *; [|discriminate].
    destruct (code =? 0) eqn:E; [lia | discriminate].
  - intros e Hr Hne. rewrite Hr.
    destruct (String.eqb_spec (strings.TrimSpace (Stderr o)) ""); [contradiction|].
    split; [reflexivity|]. intros Heq. simpl. rewrite Heq. reflexivity.
  - intros e Hr He. rewrite Hr, He. reflexivity.
  - reflexivity.
Qed.

End windows_invoker.

(** ** The Windows status parser *)

Lemma Split_length (s : string) (sep : ascii) :
  length (strings.Split s sep) = S (count sep s).
Proof.
  induction s as [|c s IH]; simpl; [reflexivity|].
  destruct (Ascii.eqb c sep); simpl; [congruence|].
  destruct (strings.Split s sep); simpl in *; congruence.
Qed.

Section windows_query.
Context `{Filepath}.
Import WindowsTask.

(** C1. [Query] reads the answer of the CSV status query as one line of
    three comma-separated fields.  An invocation error is fatal; so is an
    answer with a line break, with a number of commas other than two, or
    whose first field is not the quoted task name.  Otherwise the result is
    [true] exactly when the third field is the literal ["Running"] (quotes
    included), and [false] without error for any other third field.  [Query]
    does nothing besides the invocation. *)
Theorem Query_csv_contract (t : WindowsTask) (w : World)
    (code : Z) (out : string) (err : option error) :
  (taskScheduler t "QUERY" ["/FO"; "csv"; "/NH"] w).1 = (code, out, err) ->
  let fields := strings.Split out "," in
  match err with
  | Some e => (Query t w).1 = (false, Some (Fatal e))
  | None =>
      ((count "010" out <> 0%nat \/ count "," out <> 2%nat
        \/ nth 0 fields "" <> quoted_task (Name t)) ->
       exists msg, (Query t w).1 = (false, Some (Fatalf msg)))
      /\ (count "010" out = 0%nat -> count "," out = 2%nat ->
          nth 0 fields "" = quoted_task (Name t) ->
          (Query t w).1 = (String.eqb (nth 2 fields "") running_literal, None))
  end
  /\ (Query t w).2 = (taskScheduler t "QUERY" ["/FO"; "csv"; "/NH"] w).2.
Proof.
  intros Hts fields. unfold Query. rewrite bind_run, Hts.
  destruct err as [e|]; [split; reflexivity|].
  cbn beta iota zeta.
  pose proof (Split_length out "010") as Hl.
  pose proof (Split_length out ",") as Hf.
  destruct (Nat.eqb_spec (length (strings.Split out "010")) 1) as [E1|E1].
  - rewrite (Split_single _ _ E1). cbn [nth negb orb]. fold fields.
    fold (quoted_task (Name t)). fold running_literal.
    destruct (Nat.eqb_spec (length fields) 3) as [E3|E3]; cbn [negb].
    + destruct (String.eqb_spec (nth 0 fields "") (quoted_task (Name t))) as [E0|E0];
        cbn [negb].
      * split; [split|].
        -- intros [Hc|[Hc|Hc]]; [lia | unfold fields in E3; lia | contradiction].
        -- intros _ _ _. destruct (String.eqb _ _); reflexivity.
        -- destruct (String.eqb _ _); reflexivity.
      * split; [split|]; [eexists; reflexivity | intros; contradiction | reflexivity].
    + split; [split|]; [eexists; reflexivity | | reflexivity].
      intros _ Hc _. unfold fields in E3. lia.
  - cbn [negb orb]. split; [split|]; [eexists; reflexivity | | reflexivity].
    intros Hc. lia.
Qed.

End windows_query.

(** ** The supervised-tree status probe *)

Section daemontools_probe.
Context `{Filepath}.
Import Daemontools.

Lemma svstat_run (d : Daemontools) (serviceDir : string) (w : World) :
  let o := exec_outcome (env w) (length (log w)) ["svstat"; serviceDir] in
  let status := strings.TrimSpace (Stdout o) in
  let fields := strings.Fields status in
  svstat d serviceDir w =
  (match run_err o with
   | Some e => (false, Some (Fatal e))
   | None =>
       if (length fields <? 2)%nat
       then (false, Some (Fatalf ("unexpected svstat output: " +:+ status)))
       else if negb (String.eqb (nth 0 fields "") (serviceDir +:+ ":"))
       then (false, Some (Fatalf ("unexpected svstat dir output: " +:+ nth 0 fields "")))
       else (String.eqb (nth 1 fields "") "up", None)
   end,
   (host.exec_Run ["svstat"; serviceDir] w).2).
Proof.
  unfold svstat, bind, ret, host.exec_Run. cbn beta iota zeta. cbn [fst snd].
  destruct (run_err _) as [e|]; [reflexivity|].
  destruct (_ <? 2)%nat; [reflexivity|].
  destruct (negb _); [reflexivity|].
  destruct (String.eqb _ "up"); reflexivity.
Qed.

(** C2. The probe trims the answer of [svstat], splits it at white space,
    and wants at least two fields, the first being the directory followed by
    a colon: fewer fields or another first field give a fatal error, and
    otherwise the result is [true] exactly when the second field is [up].
    [Query] returns what the probe returns for the service directory. *)
Theorem svstat_contract (d : Daemontools) (serviceDir : string) (w : World) :
  let o := exec_outcome (env w) (length (log w)) ["svstat"; serviceDir] in
  let fields := strings.Fields (strings.TrimSpace (Stdout o)) in
  run_err o = None ->
  (((length fields < 2)%nat \/ nth 0 fields "" <> serviceDir +:+ ":") ->
     exists msg, (svstat d serviceDir w).1 = (false, Some (Fatalf msg)))
  /\ ((2 <= length fields)%nat -> nth 0 fields "" = serviceDir +:+ ":" ->
      (svstat d serviceDir w).1 = (String.eqb (nth 1 fields "") "up", None))
  /\ (serviceDir = "/etc/service/x" ->
      (Stdout o = "/etc/service/x: up (pid 123) 5s" ->
         (svstat d serviceDir w).1 = (true, None))
      /\ (Stdout o = "/etc/service/x: down 0s" ->
         (svstat d serviceDir w).1 = (false, None))
      /\ (Stdout o = "/etc/service/y: up (pid 123) 5s" ->
         exists msg, (svstat d serviceDir w).1 = (false, Some (Fatalf msg))))
  /\ (serviceDir = service d ->
      (Query d w).1 = match (svstat d serviceDir w).1 with
                      | (_, Some e) => (false, Some (Fatal e))
                      | (running, None) => (running, None)
                      end).
Proof.
  intros o fields Hr.
  assert (Hgen : (svstat d serviceDir w).1 =
                 if (length fields <? 2)%nat
                 then (false, Some (Fatalf ("unexpected svstat output: "
                                              +:+ strings.TrimSpace (Stdout o))))
                 else if negb (String.eqb (nth 0 fields "") (serviceDir +:+ ":"))
                 then (false, Some (Fatalf ("unexpected svstat dir output: "
                                              +:+ nth 0 fields "")))
                 else (String.eqb (nth 1 fields "") "up", None)).
  { rewrite svstat_run. fold o. rewrite Hr. reflexivity. }
  split; [|split; [|split]].
  - intros Hbad. rewrite Hgen.
    destruct (Nat.ltb_spec (length fields) 2); [eexists; reflexivity|].
    destruct (String.eqb_spec (nth 0 fields "") (serviceDir +:+ ":")) as [E|E];
      cbn [negb]; [|eexists; reflexivity].
    destruct Hbad; [lia | contradiction].
  - intros Hlen Hdir. rewrite Hgen.
    destruct (Nat.ltb_spec (length fields) 2); [lia|].
    rewrite Hdir, String.eqb_refl. reflexivity.
  - intros ->. rewrite Hgen. unfold fields.
    split; [|split]; intros ->; vm_compute; [reflexivity | reflexivity | eexists; reflexivity].
  - intros ->. unfold Query. rewrite bind_run.
    destruct (svstat d (service d) w) as [[r [e|]] w']; reflexivity.
Qed.

End daemontools_probe.

(** ** The rc-script status check *)

Section rc_query.
Context `{Filepath}.
Import RCDaemon.

(** C3. [Query] runs [rcctl check name].  When the command exits, the result
    is [true] for exit code zero and [false] for any other code, in both
    cases without error; [Query] returns an error only when the run failed
    with an error that is not an exit-status error. *)
Theorem Query_check_exit (d : RCDaemon) (w : World) :
  let o := exec_outcome (env w) (length (log w)) ["rcctl"; "check"; Name d] in
  (forall code out err, o = Exited code out err ->
     (Query d w).1 = (code =? 0, None))
  /\ (forall msg code out err, o = Failed msg code out err ->
     (Query d w).1 = (false, Some (Fatal (ExecError msg))))
  /\ ((Query d w).1.2 <> None <->
      exists e, run_err o = Some e /\ forall code, e <> ExitError code).
Proof.
  intros o. unfold Query, bind, ret, host.exec_Run. cbn beta iota zeta. fold o.
  destruct o as [code out err|msg code out err]; cbn [run_err ExitCode].
  - split; [|split].
    + intros ? ? ? [= <- _ _]. destruct (code =? 0); reflexivity.
    + intros; discriminate.
    + destruct (code =? 0) eqn:E; cbn [fst snd]; split; try congruence.
      * intros [e [[=] _]].
      * intros [e [[= <-] Hne]]. exfalso. eapply Hne. reflexivity.
  - split; [|split].
    + intros; discriminate.
    + intros ? ? ? ? [= <- _ _ _]. reflexivity.
    + cbn [fst snd]. split; [|congruence].
      intros _. eexists. split; [reflexivity|]. intros; discriminate.
Qed.

End rc_query.

(** ** Template rendering *)

Lemma append_nil_r (s : string) : s +:+ "" = s.
Proof. induction s; simpl; congruence. Qed.

Lemma append_assoc (a b c : string) : (a +:+ b) +:+ c = a +:+ (b +:+ c).
Proof. induction a; simpl; congruence. Qed.

Lemma concat_cons (x : string) (l : list string) :
  String.concat "" (x :: l) = x +:+ String.concat "" l.
Proof.
  destruct l; simpl; [symmetry; apply append_nil_r | reflexivity].
Qed.

Lemma drop_length (n : nat) (s : string) :
  (String.length (strings.drop n s) <= String.length s)%nat.
Proof.
  revert s. induction n as [|n IH]; intros [|c s]; simpl; try lia.
  specialize (IH s). lia.
Qed.

Lemma substring_drop (n : nat) (s : string) :
  String.substring 0 n s +:+ strings.drop n s = s.
Proof.
  revert s. induction n as [|n IH]; intros [|c s]; simpl; try reflexivity.
  rewrite IH. reflexivity.
Qed.

Lemma expand_go_skip (mapping : string -> string) (k : nat) (s : string) :
  os.expand_go mapping k s = os.expand_go mapping 0 (strings.drop k s).
Proof.
  revert k. induction s as [|c s IH]; intros [|k]; try reflexivity.
  simpl. apply IH.
Qed.

Lemma expand_pieces (mapping : string -> string) (fuel : nat) (s : string) :
  (String.length s <= fuel)%nat ->
  os.expand_go mapping 0 s = String.concat "" (map (render mapping) (pieces_go fuel s)).
Proof.
  revert s. induction fuel as [|fuel IH]; intros [|c s] Hlen; simpl in *;
    try reflexivity; try lia.
  destruct (Ascii.eqb c "$" && negb (String.eqb s "")) eqn:Href.
  - destruct (os.getShellName s) as [name w] eqn:Hname.
    rewrite map_cons, concat_cons, expand_go_skip.
    rewrite <- IH by (pose proof (drop_length w s); lia).
    f_equal. unfold os.expansion.
    apply andb_true_iff in Href as [Hc _]. apply Ascii.eqb_eq in Hc. subst c.
    destruct (String.eqb name ""); [destruct (0 <? w)%nat|]; reflexivity.
  - rewrite map_cons, concat_cons. simpl. rewrite <- IH by lia. reflexivity.
Qed.

Lemma pieces_cover (fuel : nat) (s : string) :
  (String.length s <= fuel)%nat ->
  String.concat "" (map raw_text (pieces_go fuel s)) = s.
Proof.
  revert s. induction fuel as [|fuel IH]; intros [|c s] Hlen; simpl in *;
    try reflexivity; try lia.
  destruct (Ascii.eqb c "$" && negb (String.eqb s "")) eqn:Href.
  - destruct (os.getShellName s) as [name w] eqn:Hname.
    rewrite map_cons, concat_cons.
    rewrite IH by (pose proof (drop_length w s); lia).
    assert (Hraw : String c (String.substring 0 w s) +:+ strings.drop w s = String c s)
      by (simpl; rewrite substring_drop; reflexivity).
    destruct (String.eqb name "") eqn:En; [destruct (0 <? w)%nat eqn:Ew|]; simpl;
      try (rewrite substring_drop; reflexivity).
    apply Nat.ltb_ge in Ew. assert (w = 0%nat) by lia. subst w.
    destruct s; reflexivity.
  - rewrite map_cons, concat_cons. simpl. rewrite IH by lia. reflexivity.
Qed.

Lemma pieces_reference_named (fuel : nat) (s name raw : string) :
  In (Reference name raw) (pieces_go fuel s) -> name <> "".
Proof.
  revert s. induction fuel as [|fuel IH]; intros [|c s]; simpl; try tauto.
  destruct (Ascii.eqb c "$" && negb (String.eqb s "")).
  - destruct (os.getShellName s) as [n w].
    intros [Hhd|Htl]; [|eapply IH; eassumption].
    destruct (String.eqb_spec n ""); [destruct (0 <? w)%nat; discriminate|].
    congruence.
  - intros [Hhd|Htl]; [discriminate | eapply IH; eassumption].
Qed.

Lemma prefix_append (s t : string) : String.prefix s (s +:+ t) = true.
Proof.
  induction s as [|c s IH]; simpl; [destruct t; reflexivity|].
  destruct (ascii_dec c c); [assumption | contradiction].
Qed.

Lemma Contains_append (pre s sub : string) :
  String.prefix sub s = true -> strings.Contains (pre +:+ s) sub = true.
Proof.
  intros Hp. induction pre as [|c pre IH].
  - change ("" +:+ s) with s.
    destruct s; cbn [strings.Contains]; rewrite Hp; reflexivity.
  - change (String c pre +:+ s) with (String c (pre +:+ s)).
    cbn [strings.Contains]. rewrite IH. apply orb_true_r.
Qed.

Lemma drop_append (a b : string) : strings.drop (String.length a) (a +:+ b) = b.
Proof. induction a; simpl; [destruct b; reflexivity | assumption]. Qed.

Lemma length_append (a b : string) :
  String.length (a +:+ b) = (String.length a + String.length b)%nat.
Proof. induction a; simpl; congruence. Qed.

Lemma scan_brace_closed (key rest : string) :
  count "}" key = 0%nat -> os.scan_brace (key +:+ "}" +:+ rest) = Some key.
Proof.
  induction key as [|c key IH]; [reflexivity|].
  change (String c key +:+ "}" +:+ rest) with (String c (key +:+ "}" +:+ rest)).
  cbn [os.scan_brace count].
  destruct (Ascii.eqb c "}"); [discriminate|].
  intros Hc. rewrite IH by exact Hc. reflexivity.
Qed.

Lemma getShellName_braced (key rest : string) :
  key <> "" -> count "}" key = 0%nat ->
  os.getShellName ("{" +:+ key +:+ "}" +:+ rest) = (key, S (S (String.length key))).
Proof.
  intros Hne Hc.
  change ("{" +:+ key +:+ "}" +:+ rest) with (String "{" (key +:+ "}" +:+ rest)).
  unfold os.getShellName. change (Ascii.eqb "{" "{") with true. cbv iota.
  rewrite (scan_brace_closed key rest Hc).
  destruct key as [|c1 key]; [contradiction|].
  replace (String.length (String c1 key) + 2)%nat
    with (S (S (String.length (String c1 key)))) by lia.
  destruct key as [|c2 key].
  - change (String c1 "" +:+ "}" +:+ rest) with (String c1 (String "}" rest)). cbv iota.
    destruct (os.isShellSpecialVar c1 && _); reflexivity.
  - change (String c1 (String c2 key) +:+ "}" +:+ rest)
      with (String c1 (String c2 (key +:+ "}" +:+ rest))). cbv iota.
    cbn [count] in Hc.
    destruct (Ascii.eqb c1 "}"); [discriminate|].
    destruct (Ascii.eqb c2 "}"); [discriminate|].
    rewrite andb_false_r. reflexivity.
Qed.

Lemma Expand_braced (mapping : string -> string) (key rest : string) :
  key <> "" -> count "}" key = 0%nat ->
  os.Expand ("${" +:+ key +:+ "}" +:+ rest) mapping = mapping key +:+ os.Expand rest mapping.
Proof.
  intros Hne Hc. unfold os.Expand.
  change ("${" +:+ key +:+ "}" +:+ rest) with (String "$" ("{" +:+ key +:+ "}" +:+ rest)).
  cbn [os.expand_go]. change (Ascii.eqb "$" "$") with true.
  change (String.eqb ("{" +:+ key +:+ "}" +:+ rest) "") with false.
  cbn [andb negb]. rewrite (getShellName_braced key rest Hne Hc).
  rewrite expand_go_skip. f_equal.
  - unfold os.expansion. destruct (String.eqb_spec key ""); [contradiction | reflexivity].
  - f_equal.
    replace (S (S (String.length key))) with (String.length ("{" +:+ key +:+ "}"))
      by (simpl; rewrite length_append; simpl; lia).
    replace ("{" +:+ key +:+ "}" +:+ rest) with (("{" +:+ key +:+ "}") +:+ rest)
      by (simpl; rewrite append_assoc; reflexivity).
    apply drop_append.
Qed.

Lemma renders_all_intro (template : string) (mapping : string -> string)
    (table : list (string * string)) (marker : string -> string) :
  (forall name, mapping name = match assoc name table with
                               | Some v => v
                               | None => marker name
                               end) ->
  (forall name, marker name <> "" /\ strings.Contains (marker name) name = true) ->
  renders_all template mapping table marker.
Proof.
  intros Hmap Hmark. unfold renders_all, os.Expand, pieces.
  split; [apply expand_pieces; lia|].
  split; [apply pieces_cover; lia|].
  split; [|split; [exact Hmark|]].
  - intros name raw Hin. split; [eapply pieces_reference_named; eassumption|].
    apply Hmap.
  - intros key rest Hne Hc. fold (os.Expand ("${" +:+ key +:+ "}" +:+ rest) mapping).
    fold (os.Expand rest mapping). rewrite Expand_braced by assumption.
    rewrite Hmap. reflexivity.
Qed.

Lemma brace_marker (name : string) :
  "${" +:+ name +:+ "}" <> "" /\ strings.Contains ("${" +:+ name +:+ "}") name = true.
Proof.
  split; [discriminate|]. apply Contains_append, prefix_append.
Qed.

Lemma xml_marker (name : string) :
  "UNEXPANDED_XML_PARAM_" +:+ name <> ""
  /\ strings.Contains ("UNEXPANDED_XML_PARAM_" +:+ name) name = true.
Proof.
  split; [discriminate|]. apply Contains_append.
  rewrite <- (append_nil_r name) at 2. apply prefix_append.
Qed.

(** ** The factory *)

Section factory_facts.
Context `{Filepath}.

Lemma NewDaemon_unresolved (name username dir command : string) (args : list string)
    (w : World) (e : error) :
  resolved_user w username = inl e ->
  NewDaemon name username dir command args w = (inl (Fatal e), w).
Proof.
  unfold resolved_user, NewDaemon, bind, ret, host.user_current, host.user_lookup.
  destruct (user_Current (env w)) as [e0|u]; [intros [= ->]; reflexivity|].
  destruct (String.eqb username ""); [discriminate|]. cbn [negb].
  intros ->. reflexivity.
Qed.

Lemma NewDaemon_resolved (name username dir command : string) (args : list string)
    (w : World) (taskUser : user.User) :
  resolved_user w username = inr taskUser ->
  NewDaemon name username dir command args w =
  let taskDir := working_directory taskUser dir in
  if negb (is_directory w taskDir) then (inl (Fatalf ("not directory: " +:+ taskDir)), w)
  else
    let goos := GOOS (env w) in
    if String.eqb goos "windows" then
      (let* r := WindowsTask.NewWindowsTask name taskUser taskDir command args in
       match r with
       | inl e => ret (inl (Fatal e))
       | inr t => ret (inr (OfWindowsTask t))
       end) w
    else if String.eqb goos "openbsd" then
      (let* r := RCDaemon.NewRCDaemon name taskUser taskDir command args in
       match r with
       | inl e => ret (inl (Fatal e))
       | inr d => ret (inr (OfRCDaemon d))
       end) w
    else if String.eqb goos "linux" then
      (let* r := Daemontools.NewDaemontools name taskUser taskDir command args in
       match r with
       | inl e => ret (inl (Fatal e))
       | inr d => ret (inr (OfDaemontools d))
       end) w
    else (inl (Fatalf ("unsuported os: " +:+ goos)), w).
Proof.
  unfold resolved_user, NewDaemon, is_directory, working_directory, bind, ret,
    host.user_current, host.user_lookup, host.IsDir, host.runtime_GOOS.
  cbn [fst snd].
  destruct (user_Current (env w)) as [e0|u]; [discriminate|].
  destruct (String.eqb username ""); cbn [negb]; intros Hres.
  - injection Hres as ->.
    destruct (match host.stat (fs w) _ with Some (Directory _ _) => true | _ => false end);
      cbn [negb]; [|reflexivity].
    repeat (destruct (String.eqb (GOOS (env w)) _); [reflexivity|]). reflexivity.
  - rewrite Hres.
    destruct (match host.stat (fs w) _ with Some (Directory _ _) => true | _ => false end);
      cbn [negb]; [|reflexivity].
    repeat (destruct (String.eqb (GOOS (env w)) _); [reflexivity|]). reflexivity.
Qed.

(** C7. [NewDaemon] returns an error and no backend whenever the user cannot
    be resolved, whenever the working directory (the given one, or the home
    directory of the resolved user when none is given) is not an existing
    directory, and whenever the platform is none of windows, openbsd and
    linux.  The directory is checked before the platform; on an unsupported
    platform with a resolved user and an existing directory the error is
    [unsuported os: ] followed by the platform identifier.  In each of these
    cases nothing on the host is changed. *)
Theorem NewDaemon_fails (name username dir command : string) (args : list string)
    (w : World) :
  let r := NewDaemon name username dir command args w in
  (forall e, resolved_user w username = inl e -> r = (inl (Fatal e), w))
  /\ (forall taskUser, resolved_user w username = inr taskUser ->
      is_directory w (working_directory taskUser dir) = false ->
      r = (inl (Fatalf ("not directory: " +:+ working_directory taskUser dir)), w))
  /\ (supported (GOOS (env w)) = false ->
      (exists e, r = (inl e, w))
      /\ (forall taskUser, resolved_user w username = inr taskUser ->
          is_directory w (working_directory taskUser dir) = true ->
          r = (inl (Fatalf ("unsuported os: " +:+ GOOS (env w))), w)
          /\ strings.Contains ("unsuported os: " +:+ GOOS (env w)) (GOOS (env w)) = true)).
Proof.
  intros r. subst r. split; [|split].
  - intros e He. apply NewDaemon_unresolved. exact He.
  - intros taskUser Hu Hd. rewrite (NewDaemon_resolved _ _ _ _ _ _ _ Hu).
    cbn zeta. rewrite Hd. reflexivity.
  - unfold supported. intros Hs.
    apply orb_false_iff in Hs as [Hs Hl]. apply orb_false_iff in Hs as [Hw Ho].
    assert (Hgen : forall taskUser, resolved_user w username = inr taskUser ->
              is_directory w (working_directory taskUser dir) = true ->
              NewDaemon name username dir command args w
              = (inl (Fatalf ("unsuported os: " +:+ GOOS (env w))), w)).
    { intros taskUser Hu Hd. rewrite (NewDaemon_resolved _ _ _ _ _ _ _ Hu).
      cbn zeta. rewrite Hd, Hw, Ho, Hl. reflexivity. }
    split.
    + destruct (resolved_user w username) as [e|taskUser] eqn:Hu.
      * eexists. apply NewDaemon_unresolved. exact Hu.
      * destruct (is_directory w (working_directory taskUser dir)) eqn:Hd.
        -- eexists. exact (Hgen taskUser eq_refl Hd).
        -- eexists. rewrite (NewDaemon_resolved _ _ _ _ _ _ _ Hu).
           cbn zeta. rewrite Hd. reflexivity.
    + intros taskUser Hu Hd. split; [exact (Hgen taskUser Hu Hd)|].
      apply Contains_append. rewrite <- (append_nil_r (GOOS (env w))) at 2.
      apply prefix_append.
Qed.

End factory_facts.

(** ** Calls on the host *)

Lemma syscall_run (c : call) (op p : string) (pre : gmap string node -> option string)
    (eff : gmap string node -> gmap string node) (w : World) :
  let failure :=
    match io_fault (env w) (length (log w)) with
    | Some msg => Some msg
    | None => pre (fs w)
    end in
  host.syscall c op p pre eff w =
  (option_map (PathError op p) failure,
   {| fs := match failure with None => eff (fs w) | Some _ => fs w end;
      log := log w ++ [{| ev_call := c; ev_err := option_map (PathError op p) failure |}];
      env := env w |}).
Proof.
  unfold host.syscall. cbv zeta.
  destruct (match io_fault (env w) (length (log w)) with
            | Some msg => Some msg
            | None => pre (fs w)
            end); reflexivity.
Qed.

Lemma syscall_log (c : call) (op p : string) (pre : gmap string node -> option string)
    (eff : gmap string node -> gmap string node) (w : World) :
  log (host.syscall c op p pre eff w).2
  = log w ++ [{| ev_call := c; ev_err := (host.syscall c op p pre eff w).1 |}].
Proof. rewrite syscall_run. reflexivity. Qed.

Lemma syscall_env (c : call) (op p : string) (pre : gmap string node -> option string)
    (eff : gmap string node -> gmap string node) (w : World) :
  env (host.syscall c op p pre eff w).2 = env w.
Proof. rewrite syscall_run. reflexivity. Qed.

Lemma syscall_fs (c : call) (op p : string) (pre : gmap string node -> option string)
    (eff : gmap string node -> gmap string node) (w : World) :
  fs (host.syscall c op p pre eff w).2
  = match (host.syscall c op p pre eff w).1 with
    | None => eff (fs w)
    | Some _ => fs w
    end.
Proof.
  rewrite syscall_run. cbv zeta. cbn [fst snd fs].
  destruct (match io_fault (env w) (length (log w)) with
            | Some msg => Some msg
            | None => pre (fs w)
            end); reflexivity.
Qed.

Lemma syscall_ok_pre (c : call) (op p : string) (pre : gmap string node -> option string)
    (eff : gmap string node -> gmap string node) (w : World) :
  (host.syscall c op p pre eff w).1 = None ->
  pre (fs w) = None /\ io_fault (env w) (length (log w)) = None.
Proof.
  rewrite syscall_run. cbv zeta. cbn [fst].
  destruct (io_fault (env w) (length (log w))); [discriminate|].
  destruct (pre (fs w)); [discriminate|]. split; reflexivity.
Qed.

Lemma syscall_ok (c : call) (op p : string) (pre : gmap string node -> option string)
    (eff : gmap string node -> gmap string node) (w : World) :
  (host.syscall c op p pre eff w).1 = None ->
  (host.syscall c op p pre eff w).2
  = {| fs := eff (fs w); log := log w ++ [{| ev_call := c; ev_err := None |}];
       env := env w |}.
Proof.
  rewrite syscall_run. cbv zeta. cbn [fst snd].
  destruct (match io_fault (env w) (length (log w)) with
            | Some msg => Some msg
            | None => pre (fs w)
            end); [discriminate | reflexivity].
Qed.

(** ** The temporary directory of the Windows [Install] *)

Section windows_install.
Context `{Filepath}.
Variable xmlTemplate : string.
Import WindowsTask.

Lemma MkdirTemp_fresh (dir pattern : string) (w : World) (tempDir : string) :
  (host.os_MkdirTemp dir pattern w).1 = inr tempDir ->
  fs w !! tempDir = None
  /\ fs (host.os_MkdirTemp dir pattern w).2
     = <[tempDir := Directory host.mode_0700 (egid (env w))]> (fs w)
  /\ log (host.os_MkdirTemp dir pattern w).2
     = log w ++ [{| ev_call := MkdirTemp dir pattern tempDir; ev_err := None |}].
Proof.
  unfold host.os_MkdirTemp.
  destruct (host.prefixAndSuffix pattern) as [pre suf].
  set (name := Join _).
  rewrite syscall_run. cbv zeta. cbn [fst snd fs log].
  destruct (io_fault (env w) (length (log w))); [discriminate|].
  destruct (fs w !! name) eqn:E; [discriminate|].
  cbn [option_map]. intros [= <-]. auto.
Qed.

Lemma RemoveAll_gone (p : string) (w : World) :
  (host.os_RemoveAll p w).1 = None ->
  fs (host.os_RemoveAll p w).2 !! p = None
  /\ forall k, filepath.within p k = true -> fs (host.os_RemoveAll p w).2 !! k = None.
Proof.
  unfold host.os_RemoveAll. intros Hok. rewrite syscall_fs, Hok. split.
  - apply map_lookup_filter_None. left. apply lookup_delete_eq.
  - intros k Hk. apply map_lookup_filter_None. right. intros x _. cbn. congruence.
Qed.

(** C8. When the temporary directory cannot be created, [Install] stops with
    that error.  Otherwise the directory is new (the name was free) and of
    mode 0700; the first thing done after creating it is writing the rendered
    XML to [task.xml] inside it; and on every return path, whatever the
    result of [Install], the last call made is [RemoveAll] on the directory.
    Unless that call itself fails, the directory and everything within it
    are gone when [Install] returns. *)
Theorem Install_temp_dir (t : WindowsTask) (w : World) :
  match (host.os_MkdirTemp "" "task-create-*" w).1 with
  | inl e =>
      Install xmlTemplate t w = (Some (Fatal e), (host.os_MkdirTemp "" "task-create-*" w).2)
  | inr tempDir =>
      let w' := (Install xmlTemplate t w).2 in
      fs w !! tempDir = None
      /\ fs (host.os_MkdirTemp "" "task-create-*" w).2 !! tempDir
         = Some (Directory host.mode_0700 (egid (env w)))
      /\ (exists werr mid rerr,
            log w' = log w
                     ++ [{| ev_call := MkdirTemp "" "task-create-*" tempDir; ev_err := None |};
                         {| ev_call := WriteFile (Join [tempDir; "task.xml"])
                                         (os.Expand xmlTemplate (Install_mapping t))
                                         host.mode_0600;
                            ev_err := werr |}]
                     ++ mid
                     ++ [{| ev_call := RemoveAll tempDir; ev_err := rerr |}]
            /\ (rerr = None ->
                fs w' !! tempDir = None
                /\ forall k, filepath.within tempDir k = true -> fs w' !! k = None))
  end.
Proof.
  unfold Install, defer, bind, ret.
  destruct (host.os_MkdirTemp "" "task-create-*" w) as [[e|tempDir] w1] eqn:Htemp;
    cbn [fst snd]; [reflexivity|].
  destruct (MkdirTemp_fresh "" "task-create-*" w tempDir) as (Hfresh & Hfs1 & Hlog1);
    [rewrite Htemp; reflexivity|].
  rewrite Htemp in Hlog1, Hfs1. cbn [snd] in Hlog1, Hfs1.
  split; [exact Hfresh|].
  split; [rewrite Hfs1; apply lookup_insert_eq|].
  set (xmlFile := Join [tempDir; "task.xml"]).
  set (xmlData := os.Expand xmlTemplate (Install_mapping t)).
  pose proof (syscall_log (WriteFile xmlFile xmlData host.mode_0600) "open" xmlFile
                (host.write_pre xmlFile) (host.write_eff xmlFile xmlData host.mode_0600) w1)
    as Hlog2.
  fold (host.os_WriteFile xmlFile xmlData host.mode_0600) in Hlog2.
  destruct (host.os_WriteFile xmlFile xmlData host.mode_0600 w1) as [werr w2] eqn:Hw.
  cbn [fst snd] in Hlog2.
  destruct werr as [e|].
  - (* the write failed *)
    pose proof (syscall_log (RemoveAll tempDir) "unlinkat" tempDir (fun _ => None)
                  (fun m => filter (fun kv => filepath.within tempDir kv.1 = false)
                              (delete tempDir m)) w2) as Hlog3.
    fold (host.os_RemoveAll tempDir) in Hlog3.
    pose proof (RemoveAll_gone tempDir w2) as Hgone.
    destruct (host.os_RemoveAll tempDir w2) as [rerr w3]. cbn [fst snd] in *.
    exists (Some e), [], rerr. split; [|exact Hgone].
    rewrite Hlog3, Hlog2, Hlog1. rewrite <- !app_assoc. reflexivity.
  - (* the write succeeded: CREATE is run *)
    pose proof (taskScheduler_run t "CREATE" ["/XML"; xmlFile] w2) as Hts.
    cbv zeta in Hts.
    destruct (taskScheduler t "CREATE" ["/XML"; xmlFile] w2) as [[[c o] terr] w3].
    apply (f_equal snd) in Hts. cbn [snd] in Hts.
    assert (Hlog3 : log w3 = log w2 ++ [{| ev_call := Exec (schtasks_argv t "CREATE"
                                                              ["/XML"; xmlFile]);
                                           ev_err := run_err (exec_outcome (env w2)
                                                       (length (log w2))
                                                       (schtasks_argv t "CREATE"
                                                          ["/XML"; xmlFile])) |}])
      by (rewrite Hts; reflexivity).
    assert (Hfin : forall (res : option error) (w4 : World),
               (let '(_, w') := host.os_RemoveAll tempDir w3 in (res, w')) = (res, w4) ->
               exists werr mid rerr,
                 log w4 = log w
                          ++ [{| ev_call := MkdirTemp "" "task-create-*" tempDir;
                                 ev_err := None |};
                              {| ev_call := WriteFile xmlFile xmlData host.mode_0600;
                                 ev_err := werr |}]
                          ++ mid ++ [{| ev_call := RemoveAll tempDir; ev_err := rerr |}]
                 /\ (rerr = None ->
                     fs w4 !! tempDir = None
                     /\ forall k, filepath.within tempDir k = true -> fs w4 !! k = None)).
    { intros res w4.
      pose proof (syscall_log (RemoveAll tempDir) "unlinkat" tempDir (fun _ => None)
                    (fun m => filter (fun kv => filepath.within tempDir kv.1 = false)
                                (delete tempDir m)) w3) as Hlog4.
      fold (host.os_RemoveAll tempDir) in Hlog4.
      pose proof (RemoveAll_gone tempDir w3) as Hgone.
      destruct (host.os_RemoveAll tempDir w3) as [rerr w5]. cbn [fst snd] in *.
      intros [= <-].
      exists None, [{| ev_call := Exec (schtasks_argv t "CREATE" ["/XML"; xmlFile]);
                       ev_err := run_err (exec_outcome (env w2) (length (log w2))
                                            (schtasks_argv t "CREATE" ["/XML"; xmlFile])) |}],
        rerr.
      split; [|exact Hgone].
      rewrite Hlog4, Hlog3, Hlog2, Hlog1. rewrite <- !app_assoc. reflexivity. }
    destruct terr as [e|]; cbn [snd].
    + destruct (host.os_RemoveAll tempDir w3) as [rerr w4].
      exact (Hfin (Some (Fatal e)) w4 eq_refl).
    + destruct (host.os_RemoveAll tempDir w3) as [rerr w4].
      exact (Hfin None w4 eq_refl).
Qed.

End windows_install.

(** ** The [down] sentinel: [enable] and [disable] *)

Lemma stat_missing (m : gmap string node) (p : string) :
  m !! p = None -> host.stat m p = None.
Proof. unfold host.stat. simpl. intros ->. reflexivity. Qed.

Lemma resolve_end (fuel : nat) (m : gmap string node) (p q : string) :
  host.resolve_go fuel m p = Some q ->
  host.stat_go fuel m p = m !! q /\ forall t, m !! q <> Some (Link t).
Proof.
  revert p. induction fuel as [|fuel IH]; intros p; simpl.
  - destruct (m !! p) as [[| |t]|] eqn:E; try discriminate;
      intros [= <-]; rewrite E; split; congruence.
  - destruct (m !! p) as [[| |t]|] eqn:E; try (intros [= <-]; rewrite E; split; congruence).
    apply IH.
Qed.

Lemma stat_written (fuel : nat) (m : gmap string node) (p q : string) (v : node) :
  host.resolve_go fuel m p = Some q ->
  (forall t, v <> Link t) ->
  host.stat_go fuel (<[q := v]> m) p = Some v.
Proof.
  intros Hres Hv. revert p Hres. induction fuel as [|fuel IH]; intros p; simpl.
  - destruct (m !! p) as [[| |t]|] eqn:E; try discriminate;
      intros [= <-]; rewrite lookup_insert_eq; destruct v; try reflexivity;
      exfalso; eapply Hv; reflexivity.
  - destruct (m !! p) as [[| |t]|] eqn:E;
      try (intros [= <-]; rewrite lookup_insert_eq; destruct v; try reflexivity;
           exfalso; eapply Hv; reflexivity).
    intros Hres. destruct (resolve_end _ _ _ _ Hres) as [_ Hq].
    assert (q <> p) by (intros ->; eapply Hq; eassumption).
    rewrite lookup_insert_ne by assumption. rewrite E. apply IH. exact Hres.
Qed.

Section sentinel.
Context `{Filepath}.
Import Daemontools.

Lemma enable_run (d : Daemontools) (w : World) :
  enable d w =
  if is_file w (downFile d)
  then (match (host.os_Remove (downFile d) w).1 with
        | Some e => Some (Fatal e)
        | None => None
        end, (host.os_Remove (downFile d) w).2)
  else (None, w).
Proof.
  unfold enable, is_file, downFile, bind, ret, host.IsFile. cbn [fst snd].
  destruct (match host.stat (fs w) _ with Some (RegFile _ _) => true | _ => false end);
    [|reflexivity].
  destruct (host.os_Remove _ w) as [[e|] w']; reflexivity.
Qed.

Lemma disable_run (d : Daemontools) (w : World) :
  disable d w =
  if is_file w (downFile d) then (None, w)
  else (match (host.os_WriteFile (downFile d) "" host.mode_0600 w).1 with
        | Some e => Some (Fatal e)
        | None => None
        end, (host.os_WriteFile (downFile d) "" host.mode_0600 w).2).
Proof.
  unfold disable, is_file, downFile, bind, ret, host.IsFile. cbn [fst snd].
  destruct (match host.stat (fs w) _ with Some (RegFile _ _) => true | _ => false end);
    [reflexivity|].
  cbn [negb]. destruct (host.os_WriteFile _ _ _ w) as [[e|] w']; reflexivity.
Qed.

Lemma Remove_absent (p : string) (w : World) :
  (host.os_Remove p w).1 = None -> is_file (host.os_Remove p w).2 p = false.
Proof.
  unfold host.os_Remove, is_file, host.IsFile. intros Hok. cbn [fst].
  rewrite syscall_fs, Hok. rewrite stat_missing; [reflexivity|]. apply lookup_delete_eq.
Qed.

Lemma Remove_failed (p : string) (w : World) (e : error) :
  (host.os_Remove p w).1 = Some e -> fs (host.os_Remove p w).2 = fs w.
Proof. unfold host.os_Remove. intros He. rewrite syscall_fs, He. reflexivity. Qed.

Lemma WriteFile_present (p data : string) (perm : N) (w : World) :
  (host.os_WriteFile p data perm w).1 = None ->
  exists pm, host.stat (fs (host.os_WriteFile p data perm w).2) p = Some (RegFile data pm).
Proof.
  unfold host.os_WriteFile. intros Hok. rewrite syscall_fs, Hok.
  apply syscall_ok_pre in Hok as [Hpre _].
  unfold host.write_pre in Hpre. unfold host.write_eff, host.resolve in *.
  destruct (host.resolve_go 40 (fs w) p) as [q|] eqn:Hres; [|discriminate].
  destruct (fs w !! q) as [[dt pm|?|?]|] eqn:Hq; try discriminate.
  - exists pm. apply stat_written; [exact Hres | discriminate].
  - destruct (resolve_end _ _ _ _ Hres) as [_ Hl]. exfalso. eapply Hl. eassumption.
  - exists perm. apply stat_written; [exact Hres | discriminate].
Qed.

Lemma WriteFile_failed (p data : string) (perm : N) (w : World) (e : error) :
  (host.os_WriteFile p data perm w).1 = Some e ->
  fs (host.os_WriteFile p data perm w).2 = fs w.
Proof. unfold host.os_WriteFile. intros He. rewrite syscall_fs, He. reflexivity. Qed.

Lemma syscall_no_fault (c : call) (op p : string)
    (pre : gmap string node -> option string)
    (eff : gmap string node -> gmap string node) (w : World) :
  io_fault (env w) (length (log w)) = None ->
  (host.syscall c op p pre eff w).1 = option_map (PathError op p) (pre (fs w)).
Proof. intros Hn. rewrite syscall_run. cbv zeta. rewrite Hn. reflexivity. Qed.

Lemma is_file_fs (w w' : World) (p : string) : fs w' = fs w -> is_file w' p = is_file w p.
Proof. unfold is_file, host.IsFile. cbn [fst]. intros ->. reflexivity. Qed.

Lemma WriteFile_env (p data : string) (perm : N) (w : World) :
  env (host.os_WriteFile p data perm w).2 = env w.
Proof. apply syscall_env. Qed.

Lemma enable_once (d : Daemontools) (w : World) :
  let down := downFile d in
  let once := enable d w in
  (is_file w down = false -> once = (None, w))
  /\ (is_file w down = true ->
      log once.2 = log w ++ [{| ev_call := Remove down;
                                ev_err := (host.os_Remove down w).1 |}])
  /\ (once.1 = None ->
      is_file once.2 down = false /\ enable d once.2 = (None, once.2))
  /\ (once.1 <> None -> fs once.2 = fs w)
  /\ ((forall n, io_fault (env w) n = None) ->
      (enable d once.2).1 = once.1 /\ fs (enable d once.2).2 = fs once.2).
Proof.
  intros down once.
  assert (Hsucc : once.1 = None ->
                  is_file once.2 down = false /\ enable d once.2 = (None, once.2)).
  { subst once. rewrite enable_run. fold down. destruct (is_file w down) eqn:Hf.
    - cbn [fst snd]. destruct (host.os_Remove down w).1 eqn:Hr; [discriminate|].
      intros _. pose proof (Remove_absent down w Hr) as Hgone.
      split; [exact Hgone|]. rewrite enable_run. fold down. rewrite Hgone. reflexivity.
    - intros _. cbn [snd]. split; [exact Hf|]. rewrite enable_run. fold down.
      rewrite Hf. reflexivity. }
  split; [|split; [|split; [exact Hsucc|split]]].
  - intros Hf. subst once. rewrite enable_run. fold down. rewrite Hf. reflexivity.
  - intros Hf. subst once. rewrite enable_run. fold down. rewrite Hf. cbn [snd].
    unfold host.os_Remove. rewrite syscall_log. reflexivity.
  - subst once. rewrite enable_run. fold down. destruct (is_file w down).
    + cbn [fst snd]. destruct (host.os_Remove down w).1 eqn:Hr; [|congruence].
      intros _. eapply Remove_failed. exact Hr.
    + cbn [fst]. congruence.
  - intros Hnf.
    assert (Hok : once.1 = None).
    { subst once. rewrite enable_run. fold down. destruct (is_file w down) eqn:Hf;
        [|reflexivity].
      cbn [fst]. unfold host.os_Remove. rewrite syscall_no_fault by apply Hnf.
      unfold is_file, host.IsFile, host.stat in Hf. cbn [fst] in Hf. simpl in Hf.
      destruct (fs w !! down); [reflexivity | discriminate]. }
    destruct (Hsucc Hok) as [_ Hagain]. rewrite Hagain, Hok. split; reflexivity.
Qed.

Lemma disable_once (d : Daemontools) (w : World) :
  let down := downFile d in
  let once := disable d w in
  (is_file w down = true -> once = (None, w))
  /\ (is_file w down = false ->
      log once.2 = log w ++ [{| ev_call := WriteFile down "" host.mode_0600;
                                ev_err := (host.os_WriteFile down "" host.mode_0600 w).1 |}])
  /\ (once.1 = None ->
      is_file once.2 down = true /\ disable d once.2 = (None, once.2))
  /\ (once.1 <> None -> fs once.2 = fs w)
  /\ ((forall n, io_fault (env w) n = None) ->
      (disable d once.2).1 = once.1 /\ fs (disable d once.2).2 = fs once.2).
Proof.
  intros down once.
  assert (Hsucc : once.1 = None ->
                  is_file once.2 down = true /\ disable d once.2 = (None, once.2)).
  { subst once. rewrite disable_run. fold down. destruct (is_file w down) eqn:Hf.
    - intros _. cbn [snd]. split; [exact Hf|]. rewrite disable_run. fold down.
      rewrite Hf. reflexivity.
    - cbn [fst snd].
      destruct (host.os_WriteFile down "" host.mode_0600 w).1 eqn:Hr; [discriminate|].
      intros _. destruct (WriteFile_present down "" host.mode_0600 w Hr) as [pm Hst].
      assert (Hnow : is_file (host.os_WriteFile down "" host.mode_0600 w).2 down = true).
      { unfold is_file, host.IsFile. cbn [fst]. rewrite Hst. reflexivity. }
      split; [exact Hnow|]. rewrite disable_run. fold down. rewrite Hnow. reflexivity. }
  assert (Hfail : once.1 <> None -> fs once.2 = fs w).
  { subst once. rewrite disable_run. fold down. destruct (is_file w down).
    - cbn [fst]. congruence.
    - cbn [fst snd].
      destruct (host.os_WriteFile down "" host.mode_0600 w).1 eqn:Hr; [|congruence].
      intros _. eapply WriteFile_failed. exact Hr. }
  split; [|split; [|split; [exact Hsucc|split; [exact Hfail|]]]].
  - intros Hf. subst once. rewrite disable_run. fold down. rewrite Hf. reflexivity.
  - intros Hf. subst once. rewrite disable_run. fold down. rewrite Hf. cbn [snd].
    unfold host.os_WriteFile. rewrite syscall_log. reflexivity.
  - intros Hnf. destruct (once.1) as [e|] eqn:Hres.
    + (* the first run failed: the second meets the same name space *)
      assert (Hfs : fs once.2 = fs w) by (apply Hfail; congruence).
      assert (Henv : env once.2 = env w).
      { subst once. rewrite disable_run. destruct (is_file w (downFile d));
          [reflexivity | apply WriteFile_env]. }
      assert (Hf : is_file w down = false).
      { subst once. rewrite disable_run in Hres. fold down in Hres.
        destruct (is_file w down); [discriminate | reflexivity]. }
      assert (Hfirst : once.1 = option_map Fatal
                         (option_map (PathError "open" down) (host.write_pre down (fs w)))).
      { subst once. rewrite disable_run. fold down. rewrite Hf. cbn [fst].
        unfold host.os_WriteFile. rewrite syscall_no_fault by apply Hnf.
        destruct (host.write_pre down (fs w)); reflexivity. }
      rewrite disable_run. fold down. rewrite (is_file_fs _ _ _ Hfs), Hf. cbn [fst snd].
      unfold host.os_WriteFile at 1.
      rewrite syscall_no_fault by (rewrite Henv; apply Hnf).
      rewrite Hfs. split.
      * rewrite <- Hres, Hfirst. destruct (host.write_pre down (fs w)); reflexivity.
      * unfold host.os_WriteFile. rewrite syscall_fs.
        rewrite syscall_no_fault by (rewrite Henv; apply Hnf). rewrite Hfs.
        rewrite Hres in Hfirst.
        destruct (host.write_pre down (fs w)); [reflexivity | discriminate].
    + destruct (Hsucc eq_refl) as [_ Hagain]. rewrite Hagain. split; reflexivity.
Qed.

(** C10. [enable] touches the host only when the [down] file is present, and
    then only by one [Remove] of it; [disable] only when it is absent, and
    then only by one [WriteFile] of an empty file of mode 0600.  After a
    successful [enable] the file is absent and after a successful [disable]
    it is present; a failed run leaves the name space as it was.  Running a
    helper again after a successful run succeeds and changes nothing; and on
    a host where no call fails for outside reasons, a second run always
    returns what the first returned and leaves the name space of the first. *)
Theorem sentinel_idempotent (d : Daemontools) (w : World) :
  let down := downFile d in
  (let once := enable d w in
   (is_file w down = false -> once = (None, w))
   /\ (is_file w down = true ->
       log once.2 = log w ++ [{| ev_call := Remove down;
                                 ev_err := (host.os_Remove down w).1 |}])
   /\ (once.1 = None ->
       is_file once.2 down = false /\ enable d once.2 = (None, once.2))
   /\ (once.1 <> None -> fs once.2 = fs w)
   /\ ((forall n, io_fault (env w) n = None) ->
       (enable d once.2).1 = once.1 /\ fs (enable d once.2).2 = fs once.2))
  /\
  (let once := disable d w in
   (is_file w down = true -> once = (None, w))
   /\ (is_file w down = false ->
       log once.2 = log w ++ [{| ev_call := WriteFile down "" host.mode_0600;
                                 ev_err := (host.os_WriteFile down "" host.mode_0600 w).1 |}])
   /\ (once.1 = None ->
       is_file once.2 down = true /\ disable d once.2 = (None, once.2))
   /\ (once.1 <> None -> fs once.2 = fs w)
   /\ ((forall n, io_fault (env w) n = None) ->
       (disable d once.2).1 = once.1 /\ fs (disable d once.2).2 = fs once.2)).
Proof.
  intros down. split; [apply enable_once | apply disable_once].
Qed.

End sentinel.

(** ** The log grows by appending *)

Create HintDb host_log.

Lemma extends_refl (w : World) : extends w w.
Proof. exists []. symmetry. apply app_nil_r. Qed.

Lemma extends_trans (w1 w2 w3 : World) : extends w1 w2 -> extends w2 w3 -> extends w1 w3.
Proof.
  intros [a Ha] [b Hb]. exists (a ++ b). rewrite Hb, Ha, app_assoc. reflexivity.
Qed.

Lemma syscall_extends (c : call) (op p : string) (pre : gmap string node -> option string)
    (eff : gmap string node -> gmap string node) (w : World) :
  extends w (host.syscall c op p pre eff w).2.
Proof. eexists. apply syscall_log. Qed.

Lemma read_extends (c : call) (p : string) (w : World) : extends w (host.read c p w).2.
Proof. eexists. reflexivity. Qed.

Lemma exec_extends (argv : list string) (w : World) : extends w (host.exec_Run argv w).2.
Proof. eexists. reflexivity. Qed.

Section host_extends.
Context `{Filepath}.

Lemma MkdirAll_extends (p : string) (perm : N) (w : World) :
  extends w (host.os_MkdirAll p perm w).2.
Proof. apply syscall_extends. Qed.

Lemma Mkdir_extends (p : string) (perm : N) (w : World) :
  extends w (host.os_Mkdir p perm w).2.
Proof. apply syscall_extends. Qed.

Lemma Chown_extends (p : string) (uid gid : Z) (w : World) :
  extends w (host.os_Chown p uid gid w).2.
Proof. apply syscall_extends. Qed.

Lemma WriteFile_extends (p data : string) (perm : N) (w : World) :
  extends w (host.os_WriteFile p data perm w).2.
Proof. apply syscall_extends. Qed.

Lemma OpenFile_extends (p : string) (perm : N) (w : World) :
  extends w (host.os_OpenFile p perm w).2.
Proof. apply syscall_extends. Qed.

Lemma Copy_extends (p src : string) (w : World) : extends w (host.io_Copy p src w).2.
Proof. unfold host.io_Copy. destruct (fs w !! src) as [[| |]|]; apply syscall_extends. Qed.

Lemma Open_extends (p : string) (w : World) : extends w (host.os_Open p w).2.
Proof. eexists. reflexivity. Qed.

End host_extends.

#[local] Hint Resolve extends_refl MkdirAll_extends Mkdir_extends Chown_extends
  WriteFile_extends OpenFile_extends Copy_extends Open_extends exec_extends : host_log.

(** From an equation [f w = (r, w')], that [w'] extends [w]. *)
Ltac extend_by E :=
  match type of E with
  | ?f ?w = (_, ?w') =>
      let X := fresh "Hext" in
      assert (X : extends w w')
        by (replace w' with (f w).2 by (rewrite E; reflexivity); auto with host_log)
  end.

(** ** The supervised-tree [Install] *)

Lemma stat_other (fuel : nat) (m : gmap string node) (k p : string) (x v : node) :
  m !! k = None ->
  host.stat_go fuel m p = Some v ->
  host.stat_go fuel (<[k := x]> m) p = Some v.
Proof.
  intros Hk. revert p. induction fuel as [|fuel IH]; intros p; simpl.
  - destruct (m !! p) as [n|] eqn:E; [|discriminate].
    assert (k <> p) by congruence.
    rewrite lookup_insert_ne, E by assumption. trivial.
  - destruct (m !! p) as [n|] eqn:E; [|discriminate].
    assert (k <> p) by congruence.
    rewrite lookup_insert_ne, E by assumption.
    destruct n; trivial. apply IH.
Qed.

Section daemontools_install.
Context `{Filepath}.
Variables runTemplate logTemplate : string.
Import Daemontools.

(** C9. When [Install] succeeds, the last two calls it made are, in this
    order, the write of the empty [down] file (mode 0600) in the control
    directory and the creation of the symbolic link from the supervision
    directory to the control directory, both successful; and when [Install]
    returns, [down] names a regular file with no content. *)
Theorem Install_down_sentinel (d : Daemontools) (w : World) :
  let down := Join [controlDir d; "down"] in
  let w' := (Install runTemplate logTemplate d w).2 in
  (Install runTemplate logTemplate d w).1 = None ->
  (exists pre,
     log w' = log w ++ pre
              ++ [{| ev_call := WriteFile down "" host.mode_0600; ev_err := None |};
                  {| ev_call := Symlink (controlDir d) (service d); ev_err := None |}])
  /\ (exists pm, host.stat (fs w') down = Some (RegFile "" pm)).
Proof.
  intros down w'. subst w'. unfold Install.
  destruct (strconv.Atoi (Gid d)) as [e|gid]; [discriminate|].
  fold (controlDir d). set (dir := controlDir d) in *.
  unfold bind, ret.
  destruct (host.os_MkdirAll "/var/svc.d" host.mode_0755 w) as [[e|] w1] eqn:E1;
    [discriminate|]. extend_by E1.
  destruct (host.os_MkdirAll (Join [dir; "log"]) host.mode_0750 w1) as [[e|] w2] eqn:E2;
    [discriminate|]. extend_by E2.
  destruct (host.os_Chown dir (-1) gid w2) as [[e|] w3] eqn:E3; [discriminate|].
  extend_by E3.
  destruct (host.os_WriteFile (Join [dir; "run"]) (templateData d runTemplate)
              host.mode_0700 w3) as [[e|] w4] eqn:E4; [discriminate|]. extend_by E4.
  destruct (host.os_WriteFile (Join [dir; "log"; "run"]) (templateData d logTemplate)
              host.mode_0700 w4) as [[e|] w5] eqn:E5; [discriminate|]. extend_by E5.
  destruct (host.os_Open (Executable d) w5) as [[e|ifp] w6] eqn:E6; [discriminate|].
  extend_by E6.
  destruct (host.os_OpenFile (serviceBin d) host.mode_0755 w6) as [[e|] w7] eqn:E7;
    [discriminate|]. extend_by E7.
  destruct (host.io_Copy (serviceBin d) ifp w7) as [[e|] w8] eqn:E8; [discriminate|].
  extend_by E8.
  destruct (host.IsDir (Join ["/var/log"; Name d]) w8) as [isdir w8'] eqn:E8'.
  assert (w8' = w8) by (unfold host.IsDir in E8'; congruence). subst w8'.
  set (step9 := if negb isdir
                then host.os_Mkdir (Join ["/var/log"; Name d]) host.mode_0770
                else (fun w => (None, w))).
  assert (E9 : extends w8 (step9 w8).2).
  { subst step9. destruct isdir; cbn [negb snd]; auto with host_log. }
  destruct (step9 w8) as [[e|] w9]; [discriminate|]. cbn [snd] in E9.
  fold down.
  pose proof (syscall_log (WriteFile down "" host.mode_0600) "open" down
                (host.write_pre down) (host.write_eff down "" host.mode_0600) w9) as Hlog10.
  pose proof (WriteFile_present down "" host.mode_0600 w9) as Hst10.
  fold (host.os_WriteFile down "" host.mode_0600) in Hlog10.
  destruct (host.os_WriteFile down "" host.mode_0600 w9) as [[e|] w10]; [discriminate|].
  cbn [fst snd] in Hlog10, Hst10. destruct (Hst10 eq_refl) as [pm Hdown].
  pose proof (syscall_run (Symlink dir (service d)) "symlink" (service d)
                (fun m => match m !! service d with
                          | Some _ => Some "file exists"
                          | None => None
                          end)
                (fun m => <[service d := Link dir]> m) w10) as Hsym.
  fold (host.os_Symlink dir (service d)) in Hsym. cbv zeta in Hsym.
  destruct (host.os_Symlink dir (service d) w10) as [[e|] w11]; [discriminate|].
  intros _. cbn [snd].
  injection Hsym as Herr Hw11.
  destruct (io_fault (env w10) (length (log w10))); [discriminate|].
  destruct (fs w10 !! service d) eqn:Hfree; [discriminate|].
  subst w11. cbn [log fs]. split.
  - pose proof (extends_trans _ _ _ Hext (extends_trans _ _ _ Hext0
                 (extends_trans _ _ _ Hext1 (extends_trans _ _ _ Hext2
                 (extends_trans _ _ _ Hext3 (extends_trans _ _ _ Hext4
                 (extends_trans _ _ _ Hext5 (extends_trans _ _ _ Hext6 E9))))))))
      as [pre Hpre].
    exists pre. rewrite Hlog10, Hpre. rewrite <- !app_assoc. reflexivity.
  - exists pm. apply stat_other; assumption.
Qed.

End daemontools_install.

(** ** What the three backends render *)

Lemma scan_brace_empty (rest : string) :
  os.scan_brace rest = Some "" -> exists r, rest = String "}" r.
Proof.
  destruct rest as [|a rest]; cbn [os.scan_brace]; [discriminate|].
  destruct (Ascii.eqb_spec a "}") as [->|_]; [eauto|].
  destruct (os.scan_brace rest); discriminate.
Qed.

(** [getShellName] consumes bytes without finding a name in two cases only:
    an empty pair of braces, and an opening brace that is never closed. *)
Lemma getShellName_empty (s : string) (w : nat) :
  os.getShellName s = ("", w) -> (0 < w)%nat ->
  String.substring 0 w s = "{}" \/ String.substring 0 w s = "{".
Proof.
  destruct s as [|c0 rest]; cbn [os.getShellName]; [intros [= <-]; lia|].
  destruct (Ascii.eqb_spec c0 "{") as [->|_].
  - set (scan := match os.scan_brace rest with
                 | Some EmptyString => (EmptyString, 2%nat)
                 | Some name => (name, (String.length name + 2)%nat)
                 | None => (EmptyString, 1%nat)
                 end).
    assert (Hscan : scan = ("", w) -> (0 < w)%nat ->
                    String.substring 0 w (String "{" rest) = "{}"
                    \/ String.substring 0 w (String "{" rest) = "{").
    { subst scan. destruct (os.scan_brace rest) as [[|c n]|] eqn:E.
      - intros [= <-] _. apply scan_brace_empty in E as [r ->]. left.
        destruct r; reflexivity.
      - intros [=].
      - intros [= <-] _. right. destruct rest; reflexivity. }
    destruct rest as [|c1 [|c2 r2]]; try exact Hscan.
    destruct (os.isShellSpecialVar c1 && Ascii.eqb c2 "}"); [discriminate | exact Hscan].
  - destruct (os.isShellSpecialVar c0); [discriminate|].
    intros [= Hname <-] Hw. rewrite Hname in Hw. cbn in Hw. lia.
Qed.

Lemma pieces_dropped (fuel : nat) (s raw : string) :
  In (Dropped raw) (pieces_go fuel s) -> raw = "${}" \/ raw = "${".
Proof.
  revert s. induction fuel as [|fuel IH]; intros [|c s]; simpl; try tauto.
  destruct (Ascii.eqb c "$" && negb (String.eqb s "")) eqn:Href.
  - destruct (os.getShellName s) as [n w] eqn:Hn.
    intros [Hhd|Htl]; [|eapply IH; eassumption].
    apply andb_true_iff in Href as [Hc _]. apply Ascii.eqb_eq in Hc. subst c.
    destruct (String.eqb_spec n "") as [->|]; [|discriminate].
    destruct (Nat.ltb_spec 0 w) as [Hw|]; [|discriminate].
    injection Hhd as <-.
    destruct (getShellName_empty s w Hn Hw) as [-> | ->]; auto.
  - intros [Hhd|Htl]; [discriminate | eapply IH; eassumption].
Qed.

Section rendered_templates.
Context `{Filepath}.

Lemma write_rc_ok (rcTemplate : string) (d : RCDaemon.RCDaemon) (w : World) :
  let rcFile := Join ["/etc/rc.d"; RCDaemon.Name d] in
  let rcData := os.Expand rcTemplate (RCDaemon.Install_mapping d) in
  let r := (let* err := host.os_WriteFile rcFile rcData host.mode_0700 in
            match err with
            | Some e => ret (Some (Fatal e))
            | None => ret None
            end) w in
  r.1 = None ->
  (exists pm, host.stat (fs r.2) rcFile = Some (RegFile rcData pm))
  /\ log r.2 = log w ++ [{| ev_call := WriteFile rcFile rcData host.mode_0700;
                            ev_err := None |}].
Proof.
  cbv zeta. rewrite bind_run.
  pose proof (WriteFile_present (Join ["/etc/rc.d"; RCDaemon.Name d])
                (os.Expand rcTemplate (RCDaemon.Install_mapping d)) host.mode_0700 w) as Hst.
  pose proof (syscall_ok (WriteFile (Join ["/etc/rc.d"; RCDaemon.Name d])
                            (os.Expand rcTemplate (RCDaemon.Install_mapping d)) host.mode_0700)
                "open" (Join ["/etc/rc.d"; RCDaemon.Name d])
                (host.write_pre (Join ["/etc/rc.d"; RCDaemon.Name d]))
                (host.write_eff (Join ["/etc/rc.d"; RCDaemon.Name d])
                   (os.Expand rcTemplate (RCDaemon.Install_mapping d)) host.mode_0700) w) as Hw.
  fold (host.os_WriteFile (Join ["/etc/rc.d"; RCDaemon.Name d])
          (os.Expand rcTemplate (RCDaemon.Install_mapping d)) host.mode_0700) in Hw.
  destruct (host.os_WriteFile _ _ _ w) as [[e|] w1]; cbn [fst snd ret] in *;
    [discriminate|].
  intros _. split; [exact (Hst eq_refl)|]. rewrite (Hw eq_refl). reflexivity.
Qed.

(** A successful [Install] of the rc-script backend leaves the rendering in
    the rc script. *)
Lemma Install_script_written (rcTemplate : string) (d : RCDaemon.RCDaemon) (w : World) :
  (RCDaemon.Install rcTemplate d w).1 = None ->
  exists pm,
    host.stat (fs (RCDaemon.Install rcTemplate d w).2) (Join ["/etc/rc.d"; RCDaemon.Name d])
    = Some (RegFile (os.Expand rcTemplate (RCDaemon.Install_mapping d)) pm).
Proof.
  unfold RCDaemon.Install.
  destruct (negb (String.eqb (RCDaemon.Executable d) (RCDaemon.serviceBin d))).
  - rewrite bind_run.
    destruct (host.os_Open (RCDaemon.Executable d) w) as [[e|src] w1];
      cbn [fst snd ret]; [discriminate|].
    rewrite bind_run.
    destruct (host.os_OpenFile (RCDaemon.serviceBin d) host.mode_0755 w1) as [[e|] w2];
      cbn [fst snd ret]; [discriminate|].
    rewrite bind_run.
    destruct (host.io_Copy (RCDaemon.serviceBin d) src w2) as [[e|] w3];
      cbn [fst snd ret]; [discriminate|].
    intros Hok. exact (proj1 (write_rc_ok rcTemplate d w3 Hok)).
  - intros Hok. exact (proj1 (write_rc_ok rcTemplate d w Hok)).
Qed.

(** Once its temporary directory exists, the first thing [Install] of the
    Windows backend does is to write the rendering to [task.xml]. *)
Lemma Install_xml_written (xmlTemplate : string) (t : WindowsTask.WindowsTask) (w : World)
    (tempDir : string) :
  (host.os_MkdirTemp "" "task-create-*" w).1 = inr tempDir ->
  exists werr rest,
    log (WindowsTask.Install xmlTemplate t w).2
    = log w ++ [{| ev_call := MkdirTemp "" "task-create-*" tempDir; ev_err := None |};
                {| ev_call := WriteFile (Join [tempDir; "task.xml"])
                                (os.Expand xmlTemplate (WindowsTask.Install_mapping t))
                                host.mode_0600;
                   ev_err := werr |}] ++ rest.
Proof.
  intros Htemp. destruct (MkdirTemp_fresh "" "task-create-*" w tempDir Htemp)
    as (_ & _ & Hlog1).
  unfold WindowsTask.Install, defer. rewrite bind_run.
  destruct (host.os_MkdirTemp "" "task-create-*" w) as [r w1]. cbn [fst snd] in *.
  subst r. rewrite !bind_run.
  set (xmlFile := Join [tempDir; "task.xml"]).
  set (xmlData := os.Expand xmlTemplate (WindowsTask.Install_mapping t)).
  pose proof (syscall_log (WriteFile xmlFile xmlData host.mode_0600) "open" xmlFile
                (host.write_pre xmlFile) (host.write_eff xmlFile xmlData host.mode_0600) w1)
    as Hlog2.
  fold (host.os_WriteFile xmlFile xmlData host.mode_0600) in Hlog2.
  destruct (host.os_WriteFile xmlFile xmlData host.mode_0600 w1) as [werr w2].
  cbn [fst snd] in *.
  assert (Hbody : forall body : M (option error),
             extends w2 (body w2).2 ->
             exists rest,
               log (host.os_RemoveAll tempDir (body w2).2).2
               = log w ++ [{| ev_call := MkdirTemp "" "task-create-*" tempDir;
                              ev_err := None |};
                           {| ev_call := WriteFile xmlFile xmlData host.mode_0600;
                              ev_err := werr |}] ++ rest).
  { intros body [evs Hevs].
    destruct (syscall_extends (RemoveAll tempDir) "unlinkat" tempDir (fun _ => None)
                (fun m => filter (fun kv => filepath.within tempDir kv.1 = false)
                            (delete tempDir m)) (body w2).2) as [evs' Hevs'].
    fold (host.os_RemoveAll tempDir) in Hevs'.
    exists (evs ++ evs'). rewrite Hevs', Hevs, Hlog2, Hlog1, <- !app_assoc. reflexivity. }
  exists werr. destruct werr as [e|].
  - cbn [ret fst snd]. apply (Hbody (fun w => (Some (Fatal e), w))). apply extends_refl.
  - rewrite bind_run.
    pose proof (taskScheduler_run t "CREATE" ["/XML"; xmlFile] w2) as Hts. cbv zeta in Hts.
    assert (Hext : extends w2 (WindowsTask.taskScheduler t "CREATE" ["/XML"; xmlFile] w2).2).
    { rewrite Hts. cbn [snd]. apply exec_extends. }
    destruct (WindowsTask.taskScheduler t "CREATE" ["/XML"; xmlFile] w2)
      as [[[c o] [e|]] w3]; cbn [fst snd ret] in *.
    + apply (Hbody (fun _ => (Some (Fatal e), w3))). exact Hext.
    + apply (Hbody (fun _ => (None, w3))). exact Hext.
Qed.

(** C4, as the code has it.  In each backend what is written is the pieces
    of the template rendered in order: [templateData] returns that text, the
    rc script holds it after a successful [Install], and the Windows
    [Install] writes it to [task.xml] as soon as its temporary directory
    exists.  The pieces cover the template.  A reference [$NAME] or
    [${NAME}] to a recognized name is rendered as the configured value, and a
    reference to any other name as a marker that is not empty and contains
    the name ([UNEXPANDED_XML_PARAM_NAME] in the task XML, [${NAME}] in the
    scripts).  What is dropped without a trace is malformed syntax: an
    empty pair of braces after the dollar sign, and the opening of a brace
    that is never closed. *)
Theorem template_rendering (template : string) (t : WindowsTask.WindowsTask)
    (r : RCDaemon.RCDaemon) (d : Daemontools.Daemontools) (w : World) :
  let rendered (mapping : string -> string) :=
    String.concat "" (map (render mapping) (pieces template)) in
  Daemontools.templateData d template = rendered (Daemontools.templateData_mapping d)
  /\ ((RCDaemon.Install template r w).1 = None ->
      exists pm,
        host.stat (fs (RCDaemon.Install template r w).2)
          (Join ["/etc/rc.d"; RCDaemon.Name r])
        = Some (RegFile (rendered (RCDaemon.Install_mapping r)) pm))
  /\ (forall tempDir,
        (host.os_MkdirTemp "" "task-create-*" w).1 = inr tempDir ->
        exists werr rest,
          log (WindowsTask.Install template t w).2
          = log w ++ [{| ev_call := MkdirTemp "" "task-create-*" tempDir; ev_err := None |};
                      {| ev_call := WriteFile (Join [tempDir; "task.xml"])
                                      (rendered (WindowsTask.Install_mapping t))
                                      host.mode_0600;
                         ev_err := werr |}] ++ rest)
  /\ renders_all template (WindowsTask.Install_mapping t) (windows_table t)
       (fun name => "UNEXPANDED_XML_PARAM_" +:+ name)
  /\ renders_all template (RCDaemon.Install_mapping r) (rc_table r)
       (fun name => "${" +:+ name +:+ "}")
  /\ renders_all template (Daemontools.templateData_mapping d) (daemontools_table d)
       (fun name => "${" +:+ name +:+ "}")
  /\ (forall raw, In (Dropped raw) (pieces template) -> raw = "${}" \/ raw = "${").
Proof.
  cbv zeta.
  assert (Hexp : forall mapping,
             os.Expand template mapping
             = String.concat "" (map (render mapping) (pieces template)))
    by (intros mapping; apply expand_pieces; lia).
  split; [apply Hexp|].
  split; [rewrite <- Hexp; apply Install_script_written|].
  split; [intros tempDir Htemp; rewrite <- Hexp; apply Install_xml_written, Htemp|].
  split; [|split; [|split]]; try (intros raw; apply pieces_dropped);
    apply renders_all_intro; try exact xml_marker; try exact brace_marker; intros name.
  - unfold WindowsTask.Install_mapping, windows_table, assoc.
    repeat (destruct (String.eqb name _); [reflexivity|]). reflexivity.
  - unfold RCDaemon.Install_mapping, rc_table, assoc.
    repeat (destruct (String.eqb name _); [reflexivity|]). reflexivity.
  - unfold Daemontools.templateData_mapping, daemontools_table, assoc.
    repeat (destruct (String.eqb name _); [reflexivity|]). reflexivity.
Qed.

End rendered_templates.

(** ** [Delete] *)

Lemma exec_Run_log (argv : list string) (w : World) :
  log (host.exec_Run argv w).2
  = log w ++ [{| ev_call := Exec argv;
                 ev_err := run_err (exec_outcome (env w) (length (log w)) argv) |}].
Proof. reflexivity. Qed.

Lemma exec_Run_env (argv : list string) (w : World) : env (host.exec_Run argv w).2 = env w.
Proof. reflexivity. Qed.

Section delete_windows.
Context `{Filepath}.
Import WindowsTask.

Lemma taskScheduler_err (t : WindowsTask) (cmd : string) (args : list string) (w : World) :
  let o := exec_outcome (env w) (length (log w)) (schtasks_argv t cmd args) in
  ((taskScheduler t cmd args w).1.2 = None <-> run_err o = None)
  /\ (taskScheduler t cmd args w).2 = (host.exec_Run (schtasks_argv t cmd args) w).2.
Proof.
  intros o. rewrite taskScheduler_run. fold o. cbn [fst snd]. split; [|reflexivity].
  destruct (run_err o) as [e|]; [|tauto].
  destruct (negb _); cbn [snd]; split; discriminate.
Qed.

Lemma Delete_run (t : WindowsTask) (w : World) :
  let o1 := exec_outcome (env w) (length (log w)) (schtasks_argv t "END" []) in
  let o2 := exec_outcome (env w) (S (length (log w))) (schtasks_argv t "DELETE" ["/F"]) in
  let ev1 := {| ev_call := Exec (schtasks_argv t "END" []); ev_err := run_err o1 |} in
  let ev2 := {| ev_call := Exec (schtasks_argv t "DELETE" ["/F"]); ev_err := run_err o2 |} in
  (run_err o1 <> None ->
     (exists e, (Delete t w).1 = Some (Fatal e)) /\ log (Delete t w).2 = log w ++ [ev1])
  /\ (run_err o1 = None ->
      log (Delete t w).2 = log w ++ [ev1; ev2]
      /\ ((Delete t w).1 = None <-> run_err o2 = None)).
Proof.
  intros o1 o2 ev1 ev2. unfold Delete. rewrite bind_run.
  pose proof (taskScheduler_err t "END" [] w) as [Herr1 Hw1]. cbv zeta in Herr1.
  fold o1 in Herr1.
  destruct (taskScheduler t "END" [] w) as [[[c1 out1] err1] w1]. cbn [fst snd] in *.
  subst w1. split.
  - intros Hfail. destruct err1 as [e|]; [|tauto]. cbn [ret fst snd].
    split; [eexists; reflexivity | reflexivity].
  - intros Hok. destruct err1 as [e|]; [apply Herr1 in Hok; discriminate|].
    rewrite bind_run.
    pose proof (taskScheduler_err t "DELETE" ["/F"]
                  (host.exec_Run (schtasks_argv t "END" []) w).2) as [Herr2 Hw2].
    cbv zeta in Herr2. rewrite exec_Run_env, exec_Run_log, length_app in Herr2.
    cbn [length] in Herr2. rewrite Nat.add_1_r in Herr2. fold o2 in Herr2.
    destruct (taskScheduler t "DELETE" ["/F"] _) as [[[c2 out2] err2] w2].
    cbn [fst snd] in *. subst w2. split.
    + destruct err2; cbn [ret snd]; rewrite exec_Run_log, exec_Run_env, !exec_Run_log,
        length_app; cbn [length]; rewrite Nat.add_1_r, <- app_assoc; reflexivity.
    + rewrite <- Herr2. destruct err2; cbn [ret fst]; split; congruence.
Qed.

End delete_windows.

Section delete_rc.
Context `{Filepath}.
Import RCDaemon.

Lemma rcctl_run (d : RCDaemon) (command : string) (w : World) :
  rcctl d command w =
  (run_err (exec_outcome (env w) (length (log w)) ["rcctl"; command; Name d]),
   (host.exec_Run ["rcctl"; command; Name d] w).2).
Proof. reflexivity. Qed.

Lemma Delete_rc_run (d : RCDaemon) (w : World) :
  let rcFile := Join ["/etc/rc.d"; Name d] in
  let o1 := exec_outcome (env w) (length (log w)) ["rcctl"; "stop"; Name d] in
  let o2 := exec_outcome (env w) (S (length (log w))) ["rcctl"; "disable"; Name d] in
  let ev1 := {| ev_call := Exec ["rcctl"; "stop"; Name d]; ev_err := run_err o1 |} in
  let ev2 := {| ev_call := Exec ["rcctl"; "disable"; Name d]; ev_err := run_err o2 |} in
  (run_err o1 <> None ->
     (exists e, (Delete d w).1 = Some (Fatal e)) /\ log (Delete d w).2 = log w ++ [ev1])
  /\ (run_err o1 = None -> run_err o2 <> None ->
      (exists e, (Delete d w).1 = Some (Fatal e)) /\ log (Delete d w).2 = log w ++ [ev1; ev2])
  /\ (run_err o1 = None -> run_err o2 = None ->
      (exists rerr,
         log (Delete d w).2
         = log w ++ [ev1; ev2; {| ev_call := Remove rcFile; ev_err := rerr |}]
         /\ (Delete d w).1 = option_map Fatal rerr)
      /\ ((Delete d w).1 = None -> fs (Delete d w).2 !! rcFile = None)).
Proof.
  intros rcFile o1 o2 ev1 ev2. unfold Delete. rewrite bind_run, rcctl_run. cbn [fst snd].
  fold o1. split; [|split].
  - intros Hf. destruct (run_err o1) as [e|] eqn:E1; [|tauto]. cbn [ret fst snd].
    split; [eexists; reflexivity|]. rewrite exec_Run_log. fold o1. rewrite E1. reflexivity.
  - intros Hok Hf. rewrite Hok. rewrite bind_run, rcctl_run. cbn [fst snd].
    rewrite exec_Run_env, exec_Run_log, length_app. cbn [length]. rewrite Nat.add_1_r.
    fold o1 o2. destruct (run_err o2) as [e|] eqn:E2; [|tauto]. cbn [ret fst snd].
    split; [eexists; reflexivity|].
    rewrite !exec_Run_log, exec_Run_env, length_app. cbn [length]. rewrite Nat.add_1_r.
    fold o1 o2. subst ev1 ev2. rewrite ?Hok, ?E2, <- app_assoc. reflexivity.
  - intros Hok1 Hok2. rewrite Hok1. rewrite bind_run, rcctl_run. cbn [fst snd].
    rewrite exec_Run_env, exec_Run_log, length_app. cbn [length]. rewrite Nat.add_1_r.
    fold o1 o2. rewrite Hok2. rewrite bind_run. fold rcFile.
    set (w2 := (host.exec_Run ["rcctl"; "disable"; Name d]
                  (host.exec_Run ["rcctl"; "stop"; Name d] w).2).2).
    assert (Hlog2 : log w2 = log w ++ [ev1; ev2]).
    { subst w2. rewrite !exec_Run_log, exec_Run_env, length_app. cbn [length].
      rewrite Nat.add_1_r. fold o1 o2. rewrite <- app_assoc. reflexivity. }
    pose proof (syscall_log (Remove rcFile) "remove" rcFile
                  (fun m => match m !! rcFile with
                            | None => Some "no such file or directory"
                            | Some _ => None
                            end) (fun m => delete rcFile m) w2) as Hlog3.
    pose proof (syscall_fs (Remove rcFile) "remove" rcFile
                  (fun m => match m !! rcFile with
                            | None => Some "no such file or directory"
                            | Some _ => None
                            end) (fun m => delete rcFile m) w2) as Hfs3.
    fold (host.os_Remove rcFile) in Hlog3, Hfs3.
    destruct (host.os_Remove rcFile w2) as [rerr w3]. cbn [fst snd] in *. split.
    + exists rerr. destruct rerr; cbn [ret fst snd option_map];
        (split; [|reflexivity]); rewrite Hlog3, Hlog2, <- app_assoc; reflexivity.
    + destruct rerr; cbn [ret fst snd]; [discriminate|]. intros _.
      rewrite Hfs3. apply lookup_delete_eq.
Qed.

End delete_rc.

Section delete_daemontools.
Context `{Filepath}.
Import Daemontools.

Lemma only_calls_refl (P : call -> Prop) (w : World) : only_calls P w w.
Proof. exists []. split; [symmetry; apply app_nil_r | constructor]. Qed.

Lemma only_calls_step (P : call -> Prop) (w w1 w2 : World) (ev : event) :
  only_calls P w w1 -> log w2 = log w1 ++ [ev] -> P (ev_call ev) -> only_calls P w w2.
Proof.
  intros (rest & Hlog & Hall) Hstep Hev. exists (rest ++ [ev]). split.
  - rewrite Hstep, Hlog, app_assoc. reflexivity.
  - apply Forall_app. split; [exact Hall | repeat constructor; exact Hev].
Qed.

Lemma RemoveAll_keeps_absent (p k : string) (w : World) :
  fs w !! k = None -> fs (host.os_RemoveAll p w).2 !! k = None.
Proof.
  intros Hk. unfold host.os_RemoveAll. rewrite syscall_fs.
  destruct (host.syscall _ _ _ _ _ w).1; [exact Hk|].
  apply map_lookup_filter_None. left.
  destruct (decide (p = k)) as [->|Hne];
    [apply lookup_delete_eq | rewrite lookup_delete_ne by exact Hne; exact Hk].
Qed.

Lemma Delete_cases (d : Daemontools) (w : World) :
  Delete d w =
  match svstat d (service d) w with
  | (_, Some e, w1) => (Some (Fatal e), w1)
  | (false, None, w1) => Delete_tail d w1
  | (true, None, w1) =>
      match Stop d w1 with
      | (Some e, w2) => (Some (Fatal e), w2)
      | (None, w2) => Delete_tail d w2
      end
  end.
Proof.
  unfold Delete, Delete_tail. unfold bind at 1.
  destruct (svstat d (service d) w) as [[running [e|]] w1];
    [destruct running; reflexivity|].
  destruct running.
  - unfold bind at 1. unfold bind at 1.
    destruct (Stop d w1) as [[e|] w2]; reflexivity.
  - reflexivity.
Qed.

Lemma Stop_run (d : Daemontools) (w : World) :
  let o := exec_outcome (env w) (length (log w)) ["svc"; "-d"; service d] in
  Stop d w = (option_map Fatal (run_err o), (host.exec_Run ["svc"; "-d"; service d] w).2).
Proof.
  unfold Stop, bind, ret, host.exec_Run. cbn beta iota zeta.
  destruct (run_err _); reflexivity.
Qed.

Lemma Delete_tail_run (d : Daemontools) (w1 : World) :
  only_calls (after_probe_call d) w1 (Delete_tail d w1).2
  /\ ((Delete_tail d w1).1 = None ->
      fs (Delete_tail d w1).2 !! service d = None
      /\ fs (Delete_tail d w1).2 !! controlDir d = None).
Proof.
  unfold Delete_tail. rewrite bind_run.
  set (logDir := Join [service d; "log"]).
  assert (Hw2 : (svstat d logDir w1).2 = (host.exec_Run ["svstat"; logDir] w1).2)
    by (rewrite svstat_run; reflexivity).
  assert (H2 : only_calls (after_probe_call d) w1 (svstat d logDir w1).2).
  { eapply only_calls_step; [apply only_calls_refl | rewrite Hw2; apply exec_Run_log|].
    left. reflexivity. }
  destruct (svstat d logDir w1) as [[logRunning [e|]] w2]; cbn [fst snd] in *;
    [split; [exact H2 | discriminate]|].
  rewrite bind_run.
  set (stoplog := if logRunning
                  then (let* cmd := host.exec_Run ["svc"; "-d"; logDir] in
                        match run_err cmd with
                        | Some e => ret (Some (Fatal e))
                        | None => ret None
                        end)
                  else ret None).
  assert (H3 : only_calls (after_probe_call d) w1 (stoplog w2).2).
  { subst stoplog. destruct logRunning; [|exact H2].
    rewrite bind_run.
    apply (only_calls_step _ w1 w2 _
             {| ev_call := Exec ["svc"; "-d"; logDir];
                ev_err := run_err (exec_outcome (env w2) (length (log w2))
                                     ["svc"; "-d"; logDir]) |});
      [exact H2 | | right; left; reflexivity].
    destruct (run_err (host.exec_Run _ w2).1); cbn [ret snd]; apply exec_Run_log. }
  destruct (stoplog w2) as [[e|] w3]; cbn [fst snd] in *;
    [split; [exact H3 | discriminate]|].
  rewrite bind_run.
  assert (H4 : only_calls (after_probe_call d) w1 (host.os_RemoveAll (service d) w3).2).
  { eapply only_calls_step; [exact H3 | apply syscall_log|]. right; right; left. reflexivity. }
  pose proof (RemoveAll_gone (service d) w3) as Hgone4.
  destruct (host.os_RemoveAll (service d) w3) as [[e|] w4]; cbn [fst snd] in *;
    [split; [exact H4 | discriminate]|].
  rewrite bind_run. fold (controlDir d).
  assert (H5 : only_calls (after_probe_call d) w1 (host.os_RemoveAll (controlDir d) w4).2).
  { eapply only_calls_step; [exact H4 | apply syscall_log|]. right; right; right. reflexivity. }
  pose proof (RemoveAll_gone (controlDir d) w4) as Hgone5.
  pose proof (RemoveAll_keeps_absent (controlDir d) (service d) w4
                (proj1 (Hgone4 eq_refl))) as Hkeep.
  destruct (host.os_RemoveAll (controlDir d) w4) as [[e|] w5]; cbn [fst snd ret] in *;
    [split; [exact H5 | discriminate]|].
  split; [exact H5|]. intros _. split; [exact Hkeep | exact (proj1 (Hgone5 eq_refl))].
Qed.

End delete_daemontools.

(** The steps of the supervised-tree [Delete] that follow the stop of the
    service, from the world [w1] it is in then: each step that fails ends
    it with that error, in the world that step left; when all succeed the
    two trees are gone. *)
Lemma Delete_tail_steps `{Filepath} (d : Daemontools.Daemontools) (w1 : World) :
  let service := Daemontools.service d in
  let logDir := Join [service; "log"] in
  let logProbe := Daemontools.svstat d logDir w1 in
  (forall logRunning e, logProbe.1 = (logRunning, Some e) ->
     Delete_tail d w1 = (Some (Fatal e), logProbe.2))
  /\ (forall logRunning, logProbe.1 = (logRunning, None) ->
      let logStopped :=
        if logRunning : bool
        then (run_err (host.exec_Run ["svc"; "-d"; logDir] logProbe.2).1,
              (host.exec_Run ["svc"; "-d"; logDir] logProbe.2).2)
        else (None, logProbe.2) in
      (forall e, logStopped.1 = Some e -> Delete_tail d w1 = (Some (Fatal e), logStopped.2))
      /\ (logStopped.1 = None ->
          let rm1 := host.os_RemoveAll service logStopped.2 in
          (forall e, rm1.1 = Some e -> Delete_tail d w1 = (Some (Fatal e), rm1.2))
          /\ (rm1.1 = None ->
              let rm2 := host.os_RemoveAll (controlDir d) rm1.2 in
              Delete_tail d w1 = (option_map Fatal rm2.1, rm2.2)
              /\ (rm2.1 = None ->
                  fs rm2.2 !! service = None
                  /\ fs rm2.2 !! controlDir d = None
                  /\ forall k, filepath.within service k = true
                               \/ filepath.within (controlDir d) k = true ->
                               fs rm2.2 !! k = None)))).
Proof.
  cbv zeta. unfold Delete_tail. rewrite bind_run.
  destruct (Daemontools.svstat d (Join [Daemontools.service d; "log"]) w1)
    as [[logRunning err] w2]. cbn [fst snd]. split.
  - intros b e [= -> ->]. reflexivity.
  - intros b [= -> ->]. rewrite bind_run.
    assert (Hstop : (if b
                     then (let* cmd := host.exec_Run
                                         ["svc"; "-d"; Join [Daemontools.service d; "log"]] in
                           match run_err cmd with
                           | Some e => ret (Some (Fatal e))
                           | None => ret None
                           end)
                     else ret None) w2
                    = (option_map Fatal
                         (if b
                          then (run_err (host.exec_Run
                                           ["svc"; "-d"; Join [Daemontools.service d; "log"]]
                                           w2).1,
                                (host.exec_Run
                                   ["svc"; "-d"; Join [Daemontools.service d; "log"]] w2).2)
                          else (None, w2)).1,
                       (if b
                        then (run_err (host.exec_Run
                                         ["svc"; "-d"; Join [Daemontools.service d; "log"]]
                                         w2).1,
                              (host.exec_Run
                                 ["svc"; "-d"; Join [Daemontools.service d; "log"]] w2).2)
                        else (None, w2)).2)).
    { destruct b; [|reflexivity]. rewrite bind_run. cbn [fst snd].
      destruct (run_err _); reflexivity. }
    rewrite Hstop. clear Hstop.
    destruct (if b
              then (run_err (host.exec_Run
                               ["svc"; "-d"; Join [Daemontools.service d; "log"]] w2).1,
                    (host.exec_Run
                       ["svc"; "-d"; Join [Daemontools.service d; "log"]] w2).2)
              else (None, w2)) as [serr w3]. cbn [fst snd]. split.
    + intros e ->. reflexivity.
    + intros ->. cbn [option_map]. rewrite bind_run.
      pose proof (RemoveAll_gone (Daemontools.service d) w3) as Hgone1.
      destruct (host.os_RemoveAll (Daemontools.service d) w3) as [rerr1 w4].
      cbn [fst snd] in *. split.
      * intros e ->. reflexivity.
      * intros ->. rewrite bind_run. fold (controlDir d).
        pose proof (RemoveAll_gone (controlDir d) w4) as Hgone2.
        pose proof (fun k => RemoveAll_keeps_absent (controlDir d) k w4) as Hkeep.
        destruct (host.os_RemoveAll (controlDir d) w4) as [rerr2 w5].
        cbn [fst snd] in *. split.
        -- destruct rerr2; reflexivity.
        -- intros ->. destruct (Hgone1 eq_refl) as [Hs Hsw].
           destruct (Hgone2 eq_refl) as [Hc Hcw].
           split; [apply Hkeep, Hs|]. split; [exact Hc|].
           intros k [Hk|Hk]; [apply Hkeep, Hsw, Hk | apply Hcw, Hk].
Qed.

(** C5, as the code has it.  In the Windows and rc-script backends [Delete]
    always issues the stop verb first ([schtasks /END], [rcctl stop]),
    whatever the state of the service; in the supervised-tree backend it
    probes the state and makes the stop call [svc -d] for the service
    exactly when the probe answers "running".  In every backend a failing
    step, the stop included, ends [Delete] with that error and the later
    steps are not run; when all steps succeed the registration artifacts
    are removed. *)
Theorem Delete_stop_then_remove `{Filepath} (t : WindowsTask.WindowsTask)
    (r : RCDaemon.RCDaemon) (d : Daemontools.Daemontools) (w : World) :
  (let o1 := exec_outcome (env w) (length (log w)) (schtasks_argv t "END" []) in
   let o2 := exec_outcome (env w) (S (length (log w))) (schtasks_argv t "DELETE" ["/F"]) in
   let ev1 := {| ev_call := Exec (schtasks_argv t "END" []); ev_err := run_err o1 |} in
   let ev2 := {| ev_call := Exec (schtasks_argv t "DELETE" ["/F"]); ev_err := run_err o2 |} in
   (run_err o1 <> None ->
      (exists e, (WindowsTask.Delete t w).1 = Some (Fatal e))
      /\ log (WindowsTask.Delete t w).2 = log w ++ [ev1])
   /\ (run_err o1 = None ->
       log (WindowsTask.Delete t w).2 = log w ++ [ev1; ev2]
       /\ ((WindowsTask.Delete t w).1 = None <-> run_err o2 = None)))
  /\
  (let rcFile := Join ["/etc/rc.d"; RCDaemon.Name r] in
   let o1 := exec_outcome (env w) (length (log w)) ["rcctl"; "stop"; RCDaemon.Name r] in
   let o2 := exec_outcome (env w) (S (length (log w)))
               ["rcctl"; "disable"; RCDaemon.Name r] in
   let ev1 := {| ev_call := Exec ["rcctl"; "stop"; RCDaemon.Name r];
                 ev_err := run_err o1 |} in
   let ev2 := {| ev_call := Exec ["rcctl"; "disable"; RCDaemon.Name r];
                 ev_err := run_err o2 |} in
   (run_err o1 <> None ->
      (exists e, (RCDaemon.Delete r w).1 = Some (Fatal e))
      /\ log (RCDaemon.Delete r w).2 = log w ++ [ev1])
   /\ (run_err o1 = None -> run_err o2 <> None ->
       (exists e, (RCDaemon.Delete r w).1 = Some (Fatal e))
       /\ log (RCDaemon.Delete r w).2 = log w ++ [ev1; ev2])
   /\ (run_err o1 = None -> run_err o2 = None ->
       (exists rerr,
          log (RCDaemon.Delete r w).2
          = log w ++ [ev1; ev2; {| ev_call := Remove rcFile; ev_err := rerr |}]
          /\ (RCDaemon.Delete r w).1 = option_map Fatal rerr)
       /\ ((RCDaemon.Delete r w).1 = None -> fs (RCDaemon.Delete r w).2 !! rcFile = None)))
  /\
  (let service := Daemontools.service d in
   let logDir := Join [service; "log"] in
   let probe := Daemontools.svstat d service w in
   (forall running e, probe.1 = (running, Some e) ->
      Daemontools.Delete d w = (Some (Fatal e), probe.2))
   /\ (forall running, probe.1 = (running, None) ->
       let stopped :=
         if running : bool then Daemontools.Stop d probe.2 else (None, probe.2) in
       (running = true ->
        exists err,
          log stopped.2
          = log probe.2 ++ [{| ev_call := Exec ["svc"; "-d"; service]; ev_err := err |}])
       /\ (forall e, stopped.1 = Some e ->
             Daemontools.Delete d w = (Some (Fatal e), stopped.2))
       /\ (stopped.1 = None ->
           only_calls (after_probe_call d) stopped.2 (Daemontools.Delete d w).2
           /\
           let logProbe := Daemontools.svstat d logDir stopped.2 in
           (forall logRunning e, logProbe.1 = (logRunning, Some e) ->
              Daemontools.Delete d w = (Some (Fatal e), logProbe.2))
           /\ (forall logRunning, logProbe.1 = (logRunning, None) ->
               let logStopped :=
                 if logRunning : bool
                 then (run_err (host.exec_Run ["svc"; "-d"; logDir] logProbe.2).1,
                       (host.exec_Run ["svc"; "-d"; logDir] logProbe.2).2)
                 else (None, logProbe.2) in
               (forall e, logStopped.1 = Some e ->
                  Daemontools.Delete d w = (Some (Fatal e), logStopped.2))
               /\ (logStopped.1 = None ->
                   let rm1 := host.os_RemoveAll service logStopped.2 in
                   (forall e, rm1.1 = Some e ->
                      Daemontools.Delete d w = (Some (Fatal e), rm1.2))
                   /\ (rm1.1 = None ->
                       let rm2 := host.os_RemoveAll (controlDir d) rm1.2 in
                       Daemontools.Delete d w = (option_map Fatal rm2.1, rm2.2)
                       /\ (rm2.1 = None ->
                           fs rm2.2 !! service = None
                           /\ fs rm2.2 !! controlDir d = None
                           /\ forall k, filepath.within service k = true
                                        \/ filepath.within (controlDir d) k = true ->
                                        fs rm2.2 !! k = None))))))).
Proof.
  split; [apply Delete_run | split; [apply Delete_rc_run|]].
  cbv zeta. rewrite Delete_cases.
  destruct (Daemontools.svstat d (Daemontools.service d) w) as [[running err] w1].
  cbn [fst snd]. split.
  - intros b e [= -> ->]. destruct b; reflexivity.
  - intros b [= -> ->]. split; [|split].
    + intros ->. rewrite Stop_run. cbn [snd]. eexists. apply exec_Run_log.
    + destruct b; [|discriminate].
      intros e He. destruct (Daemontools.Stop d w1) as [res w2]. cbn [fst snd] in *.
      subst res. reflexivity.
    + assert (Htail : forall w2,
                 only_calls (after_probe_call d) w2 (Delete_tail d w2).2
                 /\ _) by (intros w2; split;
                             [apply Delete_tail_run | exact (Delete_tail_steps d w2)]).
      destruct b.
      * intros Hs. destruct (Daemontools.Stop d w1) as [res w2]. cbn [fst snd] in *.
        subst res. apply Htail.
      * intros _. apply Htail.
Qed.

(** ** Examples on concrete hosts *)

Section examples.
#[local] Existing Instance filepath.unix.

Example Split_csv :
  strings.Split "a,b,,c" "," = ["a"; "b"; ""; "c"].
Proof. reflexivity. Qed.

Example Fields_svstat :
  strings.Fields "/etc/service/x: up (pid 123) 5s" =
  ["/etc/service/x:"; "up"; "(pid"; "123)"; "5s"].
Proof. vm_compute. reflexivity. Qed.

Example TrimSpace_crlf :
  strings.TrimSpace (String "009" " ok" +:+ crlf) = "ok".
Proof. vm_compute. reflexivity. Qed.

(* NBSP is C2 A0, IDEOGRAPHIC SPACE is E3 80 80 *)
Example Fields_unicode :
  strings.Fields ("a" +:+ String "194" (String "160" "") +:+ "b"
                  +:+ String "227" (String "128" (String "128" "")) +:+ "c")
  = ["a"; "b"; "c"].
Proof. vm_compute. reflexivity. Qed.

Example Expand_sample :
  os.Expand "a $X ${Y} ${} $$ ${Z" (fun k => "<" +:+ k +:+ ">") = "a <X> <Y>  <$> Z".
Proof. vm_compute. reflexivity. Qed.

Example Join_sample :
  Join ["/var/svc.d"; "netboot"; "log"] = "/var/svc.d/netboot/log"
  /\ Join ["/etc/service"; "../x"] = "/etc/x"
  /\ Split "/usr/local/bin/netbootd" = ("/usr/local/bin/", "netbootd").
Proof. vm_compute. auto. Qed.

Example Atoi_sample :
  strconv.Atoi "1001" = inr 1001 /\ strconv.Atoi "-7" = inr (-7)
  /\ strconv.Atoi "x1" = inl (NumError "Atoi" "x1").
Proof. vm_compute. auto. Qed.

(** C5 fails on the code as stated.  On hosts where the service is
    installed and not running and the utilities accept every request, the
    rc-script and the Windows [Delete] stop the service without having looked
    at its state: the stop verb is their first call, where the
    supervised-tree [Delete] on such a host makes no stop call.  And the stop
    is no best effort: where the stop verb fails, the case of which the claim
    speaks, [Delete] returns that failure to the caller after this one call
    and leaves the registration in place. *)
Lemma Delete_stops_without_looking :
  ((RCDaemon.Query netboot_rc idle_rc_world).1 = (false, None)
   /\ map ev_call (log (RCDaemon.Delete netboot_rc idle_rc_world).2)
      = [Exec ["rcctl"; "stop"; "netboot"]; Exec ["rcctl"; "disable"; "netboot"];
         Remove "/etc/rc.d/netboot"]
   /\ (WindowsTask.Query netboot_task idle_task_world).1 = (false, None)
   /\ map ev_call (log (WindowsTask.Delete netboot_task idle_task_world).2)
      = [Exec ["schtasks.exe"; "/END"; "/TN"; "netboot"];
         Exec ["schtasks.exe"; "/DELETE"; "/TN"; "netboot"; "/F"]]
   /\ (Daemontools.Query netboot_svc down_svc_world).1 = (false, None)
   /\ map ev_call (log (Daemontools.Delete netboot_svc down_svc_world).2)
      = [Exec ["svstat"; "/etc/service/netboot"];
         Exec ["svstat"; "/etc/service/netboot/log"];
         RemoveAll "/etc/service/netboot"; RemoveAll "/var/svc.d/netboot"])
  /\ ((WindowsTask.Query netboot_task stopped_task_world).1 = (false, None)
      /\ (WindowsTask.Delete netboot_task stopped_task_world).1
         = Some (Fatal (Errorf "ERROR: The request could not be completed."))
      /\ map ev_call (log (WindowsTask.Delete netboot_task stopped_task_world).2)
         = [Exec ["schtasks.exe"; "/END"; "/TN"; "netboot"]]
      /\ (RCDaemon.Query netboot_rc stopped_rc_world).1 = (false, None)
      /\ (RCDaemon.Delete netboot_rc stopped_rc_world).1 = Some (Fatal (ExitError 1))
      /\ map ev_call (log (RCDaemon.Delete netboot_rc stopped_rc_world).2)
         = [Exec ["rcctl"; "stop"; "netboot"]]
      /\ fs (RCDaemon.Delete netboot_rc stopped_rc_world).2 !! "/etc/rc.d/netboot"
         = Some (RegFile "#!/bin/ksh" 448)).
Proof. vm_compute. repeat split. Qed.

(** C4 fails on the code as stated: a dollar sign followed by an empty pair
    of braces is a placeholder without a name, and it is rendered as the
    empty string in the three backends; and of a brace that is never closed
    the opening is dropped. *)
Lemma template_drops_malformed :
  Daemontools.templateData netboot_svc "user=${} bin=${TASK_BIN}"
  = "user= bin=/usr/local/bin/netbootd"
  /\ Daemontools.templateData netboot_svc "${}" = ""
  /\ Daemontools.templateData netboot_svc "${TASK_USER" = "TASK_USER"
  /\ host.stat (fs (RCDaemon.Install "flags=${}" netboot_rc stopped_rc_world).2)
       "/etc/rc.d/netboot"
     = Some (RegFile "flags=" 448)
  /\ nth_error (map ev_call (log (WindowsTask.Install "<UserId>${}</UserId>" netboot_task
                                    running_task_world).2)) 1
     = Some (WriteFile "/tmp/task-create-2041597263/task.xml" "<UserId></UserId>" 384).
Proof. vm_compute. repeat split. Qed.

Lemma Query_csv_contract_witness :
  (WindowsTask.taskScheduler netboot_task "QUERY" ["/FO"; "csv"; "/NH"]
     running_task_world).1
  = (0, quoted_task "netboot" +:+ "," +:+ dquote +:+ "Ready" +:+ dquote +:+ ","
        +:+ running_literal, None)
  /\ (WindowsTask.Query netboot_task running_task_world).1 = (true, None).
Proof.
  split; [vm_compute; reflexivity|].
  destruct (Query_csv_contract netboot_task running_task_world 0
              (quoted_task "netboot" +:+ "," +:+ dquote +:+ "Ready" +:+ dquote +:+ ","
               +:+ running_literal) None) as [[_ Hrun] _];
    [vm_compute; reflexivity|].
  rewrite Hrun; vm_compute; reflexivity.
Defined.

(** The answer of the status query on two lines is a fatal error. *)
Example Query_two_lines :
  (WindowsTask.Query netboot_task
     (sample_world "windows"
        (fun _ => Exited 0 (quoted_task "netboot" +:+ "," +:+ dquote +:+ "Ready" +:+ dquote
                            +:+ "," +:+ running_literal +:+ crlf
                            +:+ quoted_task "other" +:+ "," +:+ dquote +:+ "N/A" +:+ dquote
                            +:+ "," +:+ running_literal) "")
        no_fault)).1.2
  <> None.
Proof. vm_compute. discriminate. Qed.

Lemma svstat_contract_witness :
  run_err (up_svc_answer ["svstat"; "/etc/service/netboot"]) = None
  /\ (Daemontools.svstat netboot_svc "/etc/service/netboot" up_svc_world).1 = (true, None)
  /\ (Daemontools.Query netboot_svc up_svc_world).1 = (true, None).
Proof.
  split; [reflexivity|].
  destruct (svstat_contract netboot_svc "/etc/service/netboot" up_svc_world)
    as (_ & Hup & _ & Hq); [reflexivity|].
  assert (Hs : (Daemontools.svstat netboot_svc "/etc/service/netboot" up_svc_world).1
               = (true, None)).
  { rewrite Hup; vm_compute; [reflexivity | lia | reflexivity]. }
  split; [exact Hs|]. rewrite (Hq eq_refl), Hs. reflexivity.
Defined.

Lemma Query_check_exit_witness :
  (RCDaemon.Query netboot_rc stopped_rc_world).1 = (false, None).
Proof.
  destruct (Query_check_exit netboot_rc stopped_rc_world) as (Hexit & _ & _).
  exact (Hexit 1 "" "" eq_refl).
Defined.

(** A template with a recognized and an unrecognized placeholder. *)
Lemma template_rendering_witness :
  Daemontools.templateData netboot_svc "${TASK_BIN} ${TASK_COLOR}"
  = "/usr/local/bin/netbootd ${TASK_COLOR}"
  /\ os.Expand "${TASK_BIN} ${TASK_COLOR}" (WindowsTask.Install_mapping netboot_task)
     = "/usr/local/bin/netbootd UNEXPANDED_XML_PARAM_TASK_COLOR"
  /\ exists pm,
       host.stat (fs (RCDaemon.Install "${TASK_BIN} ${TASK_COLOR}" netboot_rc
                        stopped_rc_world).2) "/etc/rc.d/netboot"
       = Some (RegFile "/usr/local/bin/netbootd ${TASK_COLOR}" pm).
Proof.
  destruct (template_rendering "${TASK_BIN} ${TASK_COLOR}" netboot_task netboot_rc
              netboot_svc stopped_rc_world)
    as (Hd & Hrc & _ & (Hw & _) & _).
  split; [rewrite Hd; vm_compute; reflexivity|].
  split; [rewrite Hw; vm_compute; reflexivity|].
  apply Hrc. vm_compute. reflexivity.
Defined.

Lemma Delete_stop_then_remove_witness :
  (Daemontools.svstat netboot_svc "/etc/service/netboot" down_svc_world).1 = (false, None)
  /\ (Daemontools.Delete netboot_svc down_svc_world).1 = None
  /\ fs (Daemontools.Delete netboot_svc down_svc_world).2 !! "/etc/service/netboot" = None
  /\ fs (Daemontools.Delete netboot_svc down_svc_world).2 !! "/var/svc.d/netboot" = None.
Proof.
  assert (Hp : (Daemontools.svstat netboot_svc "/etc/service/netboot" down_svc_world).1
               = (false, None)) by (vm_compute; reflexivity).
  destruct (Delete_stop_then_remove netboot_task netboot_rc netboot_svc down_svc_world)
    as (_ & _ & _ & Hsvc).
  destruct (Hsvc false Hp) as (_ & _ & Hrest).
  destruct (Hrest eq_refl) as (_ & _ & Hlog).
  destruct (Hlog false) as (_ & Hrm); [vm_compute; reflexivity|].
  destruct (Hrm eq_refl) as (_ & Hrm1).
  destruct Hrm1 as (Heq & Hgone); [vm_compute; reflexivity|].
  destruct Hgone as (H1 & H2 & _); [vm_compute; reflexivity|].
  split; [exact Hp|]. rewrite Heq. cbn [fst snd].
  split; [vm_compute; reflexivity|]. split; [exact H1 | exact H2].
Defined.

Lemma taskScheduler_result_witness :
  (WindowsTask.taskScheduler netboot_task "RUN" [] denied_world).1
  = (1, "", Some (Errorf "ERROR: Access is denied.")).
Proof.
  destruct (taskScheduler_result netboot_task "RUN" [] denied_world) as (_ & Herr & _).
  destruct (Herr (ExitError 1)) as [Hr _]; [reflexivity | vm_compute; discriminate|].
  rewrite Hr. vm_compute. reflexivity.
Defined.

Lemma NewDaemon_fails_witness :
  (NewDaemon "netboot" "svc" "" "/usr/local/bin/netbootd" ["server"] plan9_world).1
  = inl (Fatalf "unsuported os: plan9")
  /\ (NewDaemon "netboot" "svc" "/nowhere" "/usr/local/bin/netbootd" ["server"]
        plan9_world).1
     = inl (Fatalf "not directory: /nowhere").
Proof.
  split.
  - destruct (NewDaemon_fails "netboot" "svc" "" "/usr/local/bin/netbootd" ["server"]
                plan9_world) as (_ & _ & Hos).
    destruct (Hos eq_refl) as [_ Hname].
    destruct (Hname svc eq_refl) as [Hr _]; [vm_compute; reflexivity|].
    rewrite Hr. reflexivity.
  - destruct (NewDaemon_fails "netboot" "svc" "/nowhere" "/usr/local/bin/netbootd"
                ["server"] plan9_world) as (_ & Hdir & _).
    rewrite (Hdir svc eq_refl); [reflexivity | vm_compute; reflexivity].
Defined.

(** [schtasks /CREATE] is refused: [Install] fails, and the temporary
    directory is gone all the same. *)
Lemma Install_temp_dir_witness :
  (WindowsTask.Install "<Task>${TASK_BIN}</Task>" netboot_task denied_world).1 <> None
  /\ fs (WindowsTask.Install "<Task>${TASK_BIN}</Task>" netboot_task denied_world).2
       !! "/tmp/task-create-2041597263" = None.
Proof.
  split; [vm_compute; discriminate|].
  pose proof (Install_temp_dir "<Task>${TASK_BIN}</Task>" netboot_task denied_world) as Hi.
  assert (Ht : (host.os_MkdirTemp "" "task-create-*" denied_world).1
               = inr "/tmp/task-create-2041597263") by (vm_compute; reflexivity).
  rewrite Ht in Hi. destruct Hi as (_ & _ & werr & mid & rerr & Hlog & Hgone).
  assert (Hr : rerr = None).
  { apply (f_equal (fun l => option_map ev_err (last l))) in Hlog.
    rewrite !app_assoc, last_snoc in Hlog. cbn [option_map ev_err] in Hlog.
    vm_compute in Hlog. congruence. }
  exact (proj1 (Hgone Hr)).
Defined.

Lemma Install_down_sentinel_witness :
  (Daemontools.Install sample_run_template sample_log_template netboot_new
     fresh_linux_world).1 = None
  /\ exists pm,
       host.stat (fs (Daemontools.Install sample_run_template sample_log_template
                        netboot_new fresh_linux_world).2) "/var/svc.d/netboot/down"
       = Some (RegFile "" pm).
Proof.
  assert (Hok : (Daemontools.Install sample_run_template sample_log_template netboot_new
                   fresh_linux_world).1 = None) by (vm_compute; reflexivity).
  split; [exact Hok|].
  exact (proj2 (Install_down_sentinel sample_run_template sample_log_template netboot_new
                  fresh_linux_world Hok)).
Defined.

Lemma sentinel_idempotent_witness :
  (Daemontools.enable netboot_svc down_svc_world).1 = None
  /\ is_file (Daemontools.enable netboot_svc down_svc_world).2 "/etc/service/netboot/down"
     = false
  /\ Daemontools.enable netboot_svc (Daemontools.enable netboot_svc down_svc_world).2
     = (None, (Daemontools.enable netboot_svc down_svc_world).2).
Proof.
  assert (Hok : (Daemontools.enable netboot_svc down_svc_world).1 = None)
    by (vm_compute; reflexivity).
  split; [exact Hok|].
  destruct (sentinel_idempotent netboot_svc down_svc_world) as [(_ & _ & Hen & _) _].
  exact (Hen Hok).
Defined.

End examples.

(** * Further properties of the package *)

(** ** Fields never hold their separator *)

Lemma count_append (c : ascii) (a b : string) :
  count c (a +:+ b) = (count c a + count c b)%nat.
Proof. induction a as [|x a IH]; simpl; [reflexivity | rewrite IH; lia]. Qed.

Lemma Split_fields_free (s : string) (sep : ascii) :
  Forall (fun f => count sep f = 0%nat) (strings.Split s sep).
Proof.
  induction s as [|c s IH]; simpl; [repeat constructor|].
  destruct (Ascii.eqb c sep) eqn:E; [constructor; [reflexivity | exact IH]|].
  pose proof (Split_nonempty s sep) as Hne.
  destruct (strings.Split s sep) as [|f fs]; [congruence|].
  inversion IH as [|? ? Hf Hfs]; subst. constructor; [|exact Hfs].
  simpl. rewrite E, Hf. reflexivity.
Qed.

Lemma Split_fields_within (s : string) (sep c : ascii) :
  Forall (fun f => (count c f <= count c s)%nat) (strings.Split s sep).
Proof.
  induction s as [|x s IH]; simpl; [repeat constructor|].
  destruct (Ascii.eqb x sep) eqn:E.
  - constructor; [simpl; lia|].
    eapply Forall_impl; [exact IH|]. cbn. intros f Hf. lia.
  - pose proof (Split_nonempty s sep) as Hne.
    destruct (strings.Split s sep) as [|f fs]; [congruence|].
    inversion IH as [|? ? Hf Hfs]; subst. constructor.
    + simpl. lia.
    + eapply Forall_impl; [exact Hfs|]. cbn. intros g Hg. lia.
Qed.

Lemma concat_two (sep x y : string) (l : list string) :
  String.concat sep (x :: y :: l) = x +:+ sep +:+ String.concat sep (y :: l).
Proof. reflexivity. Qed.

Lemma Split_concat (s : string) (sep : ascii) :
  String.concat (String sep "") (strings.Split s sep) = s.
Proof.
  induction s as [|c s IH]; [reflexivity|].
  cbn [strings.Split]. pose proof (Split_nonempty s sep) as Hn.
  destruct (strings.Split s sep) as [|f fs] eqn:E; [congruence|].
  destruct (Ascii.eqb_spec c sep) as [->|Hne].
  - rewrite concat_two, IH. reflexivity.
  - destruct fs as [|g fs].
    + cbn [String.concat] in *. rewrite IH. reflexivity.
    + rewrite concat_two. rewrite concat_two in IH.
      change (String c (f +:+ String sep "" +:+ String.concat (String sep "") (g :: fs))
              = String c s).
      f_equal. exact IH.
Qed.

Lemma concat_Split (l : list string) (sep : ascii) :
  l <> [] -> Forall (fun f => count sep f = 0%nat) l ->
  strings.Split (String.concat (String sep "") l) sep = l.
Proof.
  intros Hne Hall. induction Hall as [|f l Hf Hl IH]; [congruence|].
  clear Hne. destruct l as [|g l].
  - cbn [String.concat]. clear IH Hl. induction f as [|c f IHf]; [reflexivity|].
    simpl in Hf. cbn [strings.Split]. destruct (Ascii.eqb c sep); [discriminate|].
    rewrite IHf by exact Hf. reflexivity.
  - rewrite concat_two. specialize (IH ltac:(discriminate)). clear Hl.
    induction f as [|c f IHf].
    + change ("" +:+ String sep "" +:+ String.concat (String sep "") (g :: l))
        with (String sep (String.concat (String sep "") (g :: l))).
      cbn [strings.Split]. rewrite Ascii.eqb_refl, IH. reflexivity.
    + simpl in Hf.
      change (String c f +:+ String sep "" +:+ String.concat (String sep "") (g :: l))
        with (String c (f +:+ String sep "" +:+ String.concat (String sep "") (g :: l))).
      cbn [strings.Split]. destruct (Ascii.eqb c sep); [discriminate|].
      rewrite IHf by exact Hf. reflexivity.
Qed.

Section windows_names.
Context `{Filepath}.
Import WindowsTask.

Lemma Query_run (t : WindowsTask) (w : World) :
  let ts := taskScheduler t "QUERY" ["/FO"; "csv"; "/NH"] w in
  let out := ts.1.1.2 in
  let lines := strings.Split out "010" in
  let fields := if (length lines =? 1)%nat then strings.Split (nth 0 lines "") "," else [] in
  Query t w =
  (match ts.1.2 with
   | Some e => (false, Some (Fatal e))
   | None =>
       if negb (length lines =? 1)%nat || negb (length fields =? 3)%nat
       then (false, Some (Fatalf ("unexpected output: " +:+ out)))
       else if negb (String.eqb (nth 0 fields "") (quoted_task (Name t)))
       then (false, Some (Fatalf ("unexpected task name: " +:+ nth 0 fields "")))
       else (String.eqb (nth 2 fields "") running_literal, None)
   end, ts.2).
Proof.
  cbv zeta. unfold Query. rewrite bind_run.
  destruct (taskScheduler t "QUERY" ["/FO"; "csv"; "/NH"] w) as [[[c out] [e|]] w1];
    cbn [fst snd]; [reflexivity|].
  fold (quoted_task (Name t)). fold running_literal.
  destruct (negb _ || negb _); [reflexivity|].
  destruct (negb (String.eqb _ (quoted_task (Name t)))); [reflexivity|].
  destruct (String.eqb _ running_literal); reflexivity.
Qed.

(** X1. A task whose name holds a comma or a line feed can never be queried:
    whatever the scheduler answers, [Query] returns an error, because a field
    of the answer never holds the separator it was cut at. *)
Theorem Query_separator_in_name (t : WindowsTask) (w : World) :
  (count "," (Name t) <> 0 \/ count "010" (Name t) <> 0)%nat ->
  exists e, (Query t w).1 = (false, Some e).
Proof.
  intros Hsep. rewrite Query_run. cbv zeta. cbn [fst].
  destruct (taskScheduler t "QUERY" ["/FO"; "csv"; "/NH"] w) as [[[c out] [e|]] w1];
    cbn [fst snd]; [eexists; reflexivity|].
  destruct (Nat.eqb_spec (length (strings.Split out "010")) 1) as [E1|E1];
    cbn [negb orb]; [|eexists; reflexivity].
  rewrite (Split_single _ _ E1). cbn [nth].
  destruct (Nat.eqb_spec (length (strings.Split out ",")) 3) as [E3|E3];
    cbn [negb]; [|eexists; reflexivity].
  destruct (String.eqb_spec (nth 0 (strings.Split out ",") "") (quoted_task (Name t)))
    as [E0|E0]; cbn [negb]; [|eexists; reflexivity].
  exfalso.
  assert (Hin : In (nth 0 (strings.Split out ",") "") (strings.Split out ","))
    by (apply nth_In; lia).
  assert (Hq : forall c, count c (quoted_task (Name t)) = (count c dquote + count c "\"
                           + count c (Name t) + count c dquote)%nat).
  { intros c0. unfold quoted_task. rewrite !count_append. lia. }
  destruct Hsep as [Hc|Hn].
  - pose proof (Split_fields_free out ",") as Hfree.
    rewrite List.Forall_forall in Hfree. specialize (Hfree _ Hin).
    rewrite E0, Hq in Hfree. lia.
  - pose proof (Split_fields_within out "," "010") as Hwithin.
    rewrite List.Forall_forall in Hwithin. specialize (Hwithin _ Hin).
    rewrite Split_length in E1. rewrite E0, Hq in Hwithin. lia.
Qed.

End windows_names.

(** ** Fields never hold a blank *)

Lemma high_byte_not_blank (c : ascii) :
  (0x80 <= N_of_ascii c)%N -> Ascii.eqb c " " = false.
Proof.
  intros Hc. destruct (Ascii.eqb_spec c " ") as [->|]; [|reflexivity].
  cbn in Hc. lia.
Qed.

Lemma byte_in_not_blank (lo hi : N) (c : ascii) :
  (0x80 <= lo)%N -> strings.byte_in lo hi c = true -> Ascii.eqb c " " = false.
Proof.
  unfold strings.byte_in. intros Hlo Hin. apply andb_true_iff in Hin as [Hl _].
  apply N.leb_le in Hl. apply high_byte_not_blank. lia.
Qed.

Lemma lead_range (b0 : ascii) (sz : nat) (lo hi : N) :
  strings.lead b0 = Some (sz, lo, hi) -> (0x80 <= lo)%N.
Proof.
  unfold strings.lead. cbv zeta.
  repeat match goal with
         | |- context [if ?b then _ else _] => destruct b
         end; intros [= <- <- <-]; lia.
Qed.

Lemma substring_zero (s : string) : String.substring 0 0 s = "".
Proof. destruct s; reflexivity. Qed.

Lemma rune_bytes_free (s : string) :
  s <> "" ->
  strings.IsSpace (strings.DecodeRuneInString s).1 = false ->
  count " " (String.substring 0 (strings.DecodeRuneInString s).2 s) = 0%nat.
Proof.
  destruct s as [|b0 r0]; [congruence|]. intros _.
  unfold strings.DecodeRuneInString.
  destruct (N_of_ascii b0 <? 0x80)%N eqn:Hascii.
  - cbn [fst snd String.substring]. rewrite substring_zero. cbn [count].
    destruct (Ascii.eqb_spec b0 " ") as [->|]; [|reflexivity].
    vm_compute. discriminate.
  - intros _. apply N.ltb_ge in Hascii.
    pose proof (high_byte_not_blank b0 Hascii) as H0.
    assert (Hone : count " " (String.substring 0 1 (String b0 r0)) = 0%nat).
    { cbn [String.substring]. rewrite substring_zero. cbn [count]. rewrite H0. reflexivity. }
    destruct (strings.lead b0) as [[[sz lo] hi]|] eqn:Hlead; [|destruct r0; exact Hone].
    pose proof (lead_range _ _ _ _ Hlead) as Hlo.
    destruct r0 as [|b1 r1]; [exact Hone|].
    destruct (strings.byte_in lo hi b1) eqn:H1; cbn [negb]; [|exact Hone].
    pose proof (byte_in_not_blank _ _ _ Hlo H1) as Hb1.
    destruct (sz =? 2)%nat.
    { cbn [fst snd String.substring]. rewrite substring_zero. cbn [count].
      rewrite H0, Hb1. reflexivity. }
    destruct r1 as [|b2 r2]; [exact Hone|].
    destruct (strings.byte_in 128 191 b2) eqn:H2; cbn [negb]; [|exact Hone].
    pose proof (byte_in_not_blank 128 191 b2 ltac:(lia) H2) as Hb2.
    destruct (sz =? 3)%nat.
    { cbn [fst snd String.substring]. rewrite substring_zero. cbn [count].
      rewrite H0, Hb1, Hb2. reflexivity. }
    destruct r2 as [|b3 r3]; [exact Hone|].
    destruct (strings.byte_in 128 191 b3) eqn:H3; cbn [negb]; [|exact Hone].
    pose proof (byte_in_not_blank 128 191 b3 ltac:(lia) H3) as Hb3.
    cbn [fst snd String.substring]. rewrite substring_zero. cbn [count].
    rewrite H0, Hb1, Hb2, Hb3. reflexivity.
Qed.

Lemma runes_go_free (fuel : nat) (s : string) :
  Forall (fun rb : Z * string => strings.IsSpace rb.1 = false -> count " " rb.2 = 0%nat)
    (strings.runes_go fuel s).
Proof.
  revert s. induction fuel as [|fuel IH]; intros s; [constructor|].
  destruct s as [|c s]; [constructor|]. cbn [strings.runes_go].
  pose proof (rune_bytes_free (String c s) ltac:(discriminate)) as Hfree.
  destruct (strings.DecodeRuneInString (String c s)) as [r w].
  constructor; [exact Hfree | apply IH].
Qed.

Lemma fields_go_free (cur : option string) (rs : list (Z * string)) :
  Forall (fun rb : Z * string => strings.IsSpace rb.1 = false -> count " " rb.2 = 0%nat) rs ->
  (forall f, cur = Some f -> count " " f = 0%nat) ->
  Forall (fun f => count " " f = 0%nat) (strings.fields_go cur rs).
Proof.
  intros Hrs. revert cur. induction Hrs as [|[r bs] rs Hr Hrs IH]; intros cur Hcur.
  - cbn. destruct cur; constructor; auto.
  - cbn [strings.fields_go]. cbn [fst snd] in Hr. destruct (strings.IsSpace r).
    + destruct cur as [f|]; [constructor; [auto|]|]; apply IH; discriminate.
    + apply IH. intros f [= <-]. destruct cur as [g|]; [|auto].
      rewrite count_append, (Hcur g eq_refl), Hr by reflexivity. reflexivity.
Qed.

Lemma Fields_free (s : string) : Forall (fun f => count " " f = 0%nat) (strings.Fields s).
Proof. apply fields_go_free; [apply runes_go_free | discriminate]. Qed.

Section daemontools_names.
Context `{Filepath}.
Import Daemontools.

(** X2. A supervision directory whose name holds a blank can never be
    probed: whatever [svstat] answers, the probe returns an error, because
    no field of the answer holds a blank; so [Query] fails as well. *)
Theorem svstat_blank_in_directory (d : Daemontools) (serviceDir : string) (w : World) :
  count " " serviceDir <> 0%nat ->
  (exists e, (svstat d serviceDir w).1 = (false, Some e))
  /\ (serviceDir = service d -> exists e, (Query d w).1 = (false, Some e)).
Proof.
  intros Hblank.
  assert (Hp : exists e, (svstat d serviceDir w).1 = (false, Some e)).
  { rewrite svstat_run. cbv zeta. cbn [fst].
    destruct (run_err _); [eexists; reflexivity|].
    set (fields := strings.Fields _).
    destruct (Nat.ltb_spec (length fields) 2); [eexists; reflexivity|].
    destruct (String.eqb_spec (nth 0 fields "") (serviceDir +:+ ":")) as [E|E];
      cbn [negb]; [|eexists; reflexivity].
    exfalso. pose proof (Fields_free (strings.TrimSpace
               (Stdout (exec_outcome (env w) (length (log w)) ["svstat"; serviceDir]))))
      as Hfree.
    fold fields in Hfree. rewrite List.Forall_forall in Hfree.
    specialize (Hfree (nth 0 fields "") ltac:(apply nth_In; lia)).
    rewrite E, count_append in Hfree. lia. }
  split; [exact Hp|]. intros ->. destruct Hp as [e He].
  unfold Query. rewrite bind_run, He. eexists. reflexivity.
Qed.

End daemontools_names.

(** ** What the operations leave alone *)

Lemma only_calls_trans (P : call -> Prop) (w1 w2 w3 : World) :
  only_calls P w1 w2 -> only_calls P w2 w3 -> only_calls P w1 w3.
Proof.
  intros (a & Ha & HPa) (b & Hb & HPb). exists (a ++ b). split.
  - rewrite Hb, Ha, app_assoc. reflexivity.
  - apply Forall_app. split; assumption.
Qed.

Lemma only_calls_exec (P : call -> Prop) (argv : list string) (w : World) :
  P (Exec argv) -> only_calls P w (host.exec_Run argv w).2.
Proof.
  intros HP. eexists. split; [reflexivity|]. repeat constructor. exact HP.
Qed.

Section windows_frame.
Context `{Filepath}.
Import WindowsTask.

Lemma taskScheduler_frame (t : WindowsTask) (cmd : string) (args : list string) (w : World) :
  fs (taskScheduler t cmd args w).2 = fs w
  /\ only_calls (schtasks_call t) w (taskScheduler t cmd args w).2.
Proof.
  rewrite taskScheduler_run. cbv zeta. cbn [snd]. split; [reflexivity|].
  apply only_calls_exec. exists cmd, args. reflexivity.
Qed.

(** X3. Outside [Install] the Windows backend works through the scheduler
    alone: [Delete], [Start], [Stop], [GetConfig] and [Query] leave the file
    system as it is, and every call they make is [schtasks.exe] with a verb
    and the name of the task. *)
Theorem WindowsTask_frame (t : WindowsTask) (w : World) :
  let quiet (w' : World) := fs w' = fs w /\ only_calls (schtasks_call t) w w' in
  quiet (Delete t w).2 /\ quiet (Start t w).2 /\ quiet (Stop t w).2
  /\ quiet (GetConfig t w).2 /\ quiet (Query t w).2.
Proof.
  cbv zeta.
  split; [|split; [|split; [|split]]].
  - unfold Delete. rewrite bind_run.
    destruct (taskScheduler_frame t "END" [] w) as [Hf1 Hc1].
    destruct (taskScheduler t "END" [] w) as [[[c o] [e|]] w1]; cbn [fst snd ret] in *;
      [split; assumption|].
    rewrite bind_run. destruct (taskScheduler_frame t "DELETE" ["/F"] w1) as [Hf2 Hc2].
    assert (Hboth : fs (taskScheduler t "DELETE" ["/F"] w1).2 = fs w
                    /\ only_calls (schtasks_call t) w (taskScheduler t "DELETE" ["/F"] w1).2)
      by (split; [congruence | eapply only_calls_trans; eassumption]).
    destruct (taskScheduler t "DELETE" ["/F"] w1) as [[[c2 o2] [e|]] w2];
      cbn [fst snd ret] in *; exact Hboth.
  - unfold Start. rewrite bind_run.
    pose proof (taskScheduler_frame t "RUN" [] w) as Hfr.
    destruct (taskScheduler t "RUN" [] w) as [[[c o] [e|]] w1]; exact Hfr.
  - unfold Stop. rewrite bind_run.
    pose proof (taskScheduler_frame t "END" [] w) as Hfr.
    destruct (taskScheduler t "END" [] w) as [[[c o] [e|]] w1]; exact Hfr.
  - unfold GetConfig. rewrite bind_run.
    pose proof (taskScheduler_frame t "QUERY" ["/XML"; "ONE"] w) as Hfr.
    destruct (taskScheduler t "QUERY" ["/XML"; "ONE"] w) as [[[c o] [e|]] w1]; exact Hfr.
  - rewrite Query_run. cbn [snd]. apply taskScheduler_frame.
Qed.

End windows_frame.

Section rc_frame.
Context `{Filepath}.
Import RCDaemon.

Lemma rcctl_calls (d : RCDaemon) (command : string) (w : World) :
  only_calls (rcctl_call d) w (rcctl d command w).2.
Proof.
  rewrite rcctl_run. cbn [snd]. apply only_calls_exec. exists command. reflexivity.
Qed.

(** X4. [Start] of the rc-script backend enables the daemon and then starts
    it: [rcctl start] is run only after [rcctl enable] succeeded, a failure
    of either is returned, and [Start] succeeds exactly when both do. *)
Theorem RCDaemon_Start_order (d : RCDaemon) (w : World) :
  let o1 := exec_outcome (env w) (length (log w)) ["rcctl"; "enable"; Name d] in
  let o2 := exec_outcome (env w) (S (length (log w))) ["rcctl"; "start"; Name d] in
  let ev1 := {| ev_call := Exec ["rcctl"; "enable"; Name d]; ev_err := run_err o1 |} in
  let ev2 := {| ev_call := Exec ["rcctl"; "start"; Name d]; ev_err := run_err o2 |} in
  (forall e, run_err o1 = Some e ->
     (Start d w).1 = Some (Fatal e) /\ log (Start d w).2 = log w ++ [ev1])
  /\ (run_err o1 = None ->
      log (Start d w).2 = log w ++ [ev1; ev2]
      /\ (Start d w).1 = option_map Fatal (run_err o2)).
Proof.
  intros o1 o2 ev1 ev2. unfold Start. rewrite bind_run, rcctl_run. cbn [fst snd].
  fold o1. split.
  - intros e He. rewrite He. cbn [ret fst snd]. split; [reflexivity|].
    rewrite exec_Run_log. fold o1. subst ev1. rewrite He. reflexivity.
  - intros Hok. rewrite Hok. rewrite bind_run, rcctl_run. cbn [fst snd].
    rewrite exec_Run_env, exec_Run_log, length_app. cbn [length]. rewrite Nat.add_1_r.
    fold o1 o2.
    assert (Hlog : log (host.exec_Run ["rcctl"; "start"; Name d]
                          (host.exec_Run ["rcctl"; "enable"; Name d] w).2).2
                   = log w ++ [ev1; ev2]).
    { rewrite !exec_Run_log, exec_Run_env, length_app. cbn [length].
      rewrite Nat.add_1_r, <- app_assoc. reflexivity. }
    destruct (run_err o2); cbn [ret fst snd option_map]; split; auto.
Qed.

(** X5. The calls of the rc-script backend outside [Install].  [Start],
    [Stop], [GetConfig] and [Query] call nothing but [rcctl] with a verb and
    the daemon name: they make no file-system call of their own.  [Delete]
    makes, besides its [rcctl] calls, at most one file-system call, the
    removal of the rc script, and that as its last call. *)
Theorem RCDaemon_frame (d : RCDaemon) (w : World) :
  only_calls (rcctl_call d) w (Start d w).2
  /\ only_calls (rcctl_call d) w (Stop d w).2
  /\ only_calls (rcctl_call d) w (GetConfig d w).2
  /\ only_calls (rcctl_call d) w (Query d w).2
  /\ (exists w1,
        only_calls (rcctl_call d) w w1
        /\ (log (Delete d w).2 = log w1
            \/ exists err,
                 log (Delete d w).2
                 = log w1 ++ [{| ev_call := Remove (Join ["/etc/rc.d"; Name d]);
                                 ev_err := err |}])).
Proof.
  split; [|split; [|split; [|split]]].
  - unfold Start. rewrite bind_run.
    pose proof (rcctl_calls d "enable" w) as Hc1.
    destruct (rcctl d "enable" w) as [[e|] w1]; cbn [fst snd ret] in *; [exact Hc1|].
    rewrite bind_run. pose proof (rcctl_calls d "start" w1) as Hc2.
    assert (Hboth : only_calls (rcctl_call d) w (rcctl d "start" w1).2)
      by (eapply only_calls_trans; eassumption).
    destruct (rcctl d "start" w1) as [[e|] w2]; exact Hboth.
  - unfold Stop. rewrite bind_run. pose proof (rcctl_calls d "stop" w) as Hfr.
    destruct (rcctl d "stop" w) as [[e|] w1]; exact Hfr.
  - unfold GetConfig. rewrite bind_run.
    assert (Hfr : only_calls (rcctl_call d) w (host.exec_Run ["rcctl"; "get"; Name d] w).2)
      by (apply only_calls_exec; exists "get"; reflexivity).
    destruct (run_err (host.exec_Run ["rcctl"; "get"; Name d] w).1); exact Hfr.
  - unfold Query. rewrite bind_run.
    assert (Hfr : only_calls (rcctl_call d) w
                    (host.exec_Run ["rcctl"; "check"; Name d] w).2)
      by (apply only_calls_exec; exists "check"; reflexivity).
    destruct (run_err (host.exec_Run ["rcctl"; "check"; Name d] w).1) as [[]|]; exact Hfr.
  - unfold Delete. rewrite bind_run.
    pose proof (rcctl_calls d "stop" w) as Hc1.
    destruct (rcctl d "stop" w) as [[e|] w1]; cbn [fst snd ret] in *;
      [exists w1; split; [exact Hc1 | left; reflexivity]|].
    rewrite bind_run. pose proof (rcctl_calls d "disable" w1) as Hc2.
    assert (Hboth : only_calls (rcctl_call d) w (rcctl d "disable" w1).2)
      by (eapply only_calls_trans; eassumption).
    destruct (rcctl d "disable" w1) as [[e|] w2]; cbn [fst snd ret] in *;
      [exists w2; split; [exact Hboth | left; reflexivity]|].
    rewrite bind_run. exists w2. split; [exact Hboth|]. right.
    pose proof (syscall_log (Remove (Join ["/etc/rc.d"; Name d])) "remove"
                  (Join ["/etc/rc.d"; Name d])
                  (fun m => match m !! Join ["/etc/rc.d"; Name d] with
                            | None => Some "no such file or directory"
                            | Some _ => None
                            end)
                  (fun m => delete (Join ["/etc/rc.d"; Name d]) m) w2) as Hlog.
    fold (host.os_Remove (Join ["/etc/rc.d"; Name d])) in Hlog.
    destruct (host.os_Remove (Join ["/etc/rc.d"; Name d]) w2) as [[e|] w3];
      cbn [fst snd ret] in *; eexists; exact Hlog.
Qed.

End rc_frame.

Section query_contract.
Context `{Filepath}.

Lemma Query_probe (d : CobraDaemon) (w : World) :
  (daemon.Query d w).1.2 <> None -> (daemon.Query d w).1.1 = false.
Proof.
  destruct d as [t|r|s]; cbn [daemon.Query].
  - rewrite Query_run. cbv zeta. cbn [fst snd].
    destruct (WindowsTask.taskScheduler t "QUERY" ["/FO"; "csv"; "/NH"] w)
      as [[[c out] [e|]] w1];
      cbn [fst snd]; [reflexivity|].
    destruct (negb _ || negb _); [reflexivity|].
    destruct (negb (String.eqb _ (quoted_task _))); [reflexivity|].
    cbn [fst snd]. congruence.
  - unfold RCDaemon.Query. rewrite bind_run. cbn [fst snd].
    destruct (run_err (host.exec_Run _ w).1) as [[]|]; cbn [ret fst snd]; congruence.
  - unfold Daemontools.Query. rewrite bind_run, svstat_run. cbv zeta. cbn [fst snd].
    destruct (run_err _); [reflexivity|].
    destruct (_ <? 2)%nat; [reflexivity|].
    destruct (negb _); [reflexivity|]. cbn [ret fst snd]. congruence.
Qed.

(** X6. For every backend, [Query] only looks: it runs one external command
    and leaves the file system as it is; and it never reports "running"
    together with an error. *)
Theorem Query_only_looks (d : CobraDaemon) (w : World) :
  fs (daemon.Query d w).2 = fs w
  /\ (exists argv err,
        log (daemon.Query d w).2 = log w ++ [{| ev_call := Exec argv; ev_err := err |}])
  /\ ((daemon.Query d w).1.2 <> None -> (daemon.Query d w).1.1 = false).
Proof.
  split; [|split; [|apply Query_probe]].
  - destruct d as [t|r|s]; cbn [daemon.Query].
    + rewrite Query_run. cbv zeta. cbn [fst snd].
      rewrite taskScheduler_run. reflexivity.
    + unfold RCDaemon.Query. rewrite bind_run. cbn [fst snd].
      destruct (run_err (host.exec_Run _ w).1) as [[]|]; reflexivity.
    + unfold Daemontools.Query. rewrite bind_run, svstat_run. cbv zeta. cbn [fst snd].
      destruct (run_err _); [reflexivity|].
      destruct (_ <? 2)%nat; [reflexivity|]. destruct (negb _); reflexivity.
  - destruct d as [t|r|s]; cbn [daemon.Query].
    + rewrite Query_run. cbv zeta. cbn [fst snd].
      rewrite taskScheduler_run. cbv zeta. cbn [snd]. eexists _, _. reflexivity.
    + unfold RCDaemon.Query. rewrite bind_run. cbn [fst snd]. eexists _, _.
      destruct (run_err (host.exec_Run _ w).1) as [[]|]; cbn [ret snd]; apply exec_Run_log.
    + unfold Daemontools.Query. rewrite bind_run, svstat_run. cbv zeta. cbn [fst snd].
      eexists _, _.
      destruct (run_err _); [apply exec_Run_log|].
      destruct (_ <? 2)%nat; [apply exec_Run_log|].
      destruct (negb _); apply exec_Run_log.
Qed.

End query_contract.

(** ** Installing the rc script *)







Section rc_install.
Context `{Filepath}.
Variable rcTemplate : string.
Import RCDaemon.


End rc_install.

(** ** Installing a supervised service twice *)

Create HintDb host_keep.

Lemma keeps_refl (w : World) : keeps_entries w w.
Proof. intros k Hk. exact Hk. Qed.

Lemma keeps_trans (w1 w2 w3 : World) :
  keeps_entries w1 w2 -> keeps_entries w2 w3 -> keeps_entries w1 w3.
Proof. intros H12 H23 k Hk. apply H23, H12, Hk. Qed.

Lemma insert_keeps (m : gmap string node) (q k : string) (v : node) :
  is_Some (m !! k) -> is_Some (<[q := v]> m !! k).
Proof.
  intros Hk. destruct (decide (q = k)) as [->|Hne].
  - rewrite lookup_insert_eq. eauto.
  - rewrite lookup_insert_ne by exact Hne. exact Hk.
Qed.

Lemma syscall_keeps (c : call) (op p : string) (pre : gmap string node -> option string)
    (eff : gmap string node -> gmap string node) (w : World) :
  (forall m k, is_Some (m !! k) -> is_Some (eff m !! k)) ->
  keeps_entries w (host.syscall c op p pre eff w).2.
Proof.
  intros Heff k Hk. rewrite syscall_fs.
  destruct (host.syscall c op p pre eff w).1; [exact Hk | apply Heff, Hk].
Qed.

Lemma write_eff_keeps (p data : string) (perm : N) (m : gmap string node) (k : string) :
  is_Some (m !! k) -> is_Some (host.write_eff p data perm m !! k).
Proof.
  intros Hk. unfold host.write_eff. destruct (host.resolve m p) as [q|]; [|exact Hk].
  destruct (m !! q) as [[| |]|]; apply insert_keeps, Hk.
Qed.

Section host_keeps.
Context `{Filepath}.

Lemma MkdirAll_keeps (p : string) (perm : N) (w : World) :
  keeps_entries w (host.os_MkdirAll p perm w).2.
Proof.
  apply syscall_keeps. intros m k. generalize (filepath.parents "" p ++ [p]).
  intros chain. revert m. induction chain as [|q chain IH]; intros m Hk; [exact Hk|].
  cbn [fold_left]. apply IH. unfold host.mkdir_missing.
  destruct (m !! q); [exact Hk | apply insert_keeps, Hk].
Qed.

Lemma Mkdir_keeps (p : string) (perm : N) (w : World) :
  keeps_entries w (host.os_Mkdir p perm w).2.
Proof. apply syscall_keeps. intros m k. apply insert_keeps. Qed.

Lemma Chown_keeps (p : string) (uid gid : Z) (w : World) :
  keeps_entries w (host.os_Chown p uid gid w).2.
Proof.
  apply syscall_keeps. intros m k Hk. destruct (host.resolve m p) as [q|]; [|exact Hk].
  destruct (m !! q) as [[| |]|]; try exact Hk. apply insert_keeps, Hk.
Qed.

Lemma WriteFile_keeps (p data : string) (perm : N) (w : World) :
  keeps_entries w (host.os_WriteFile p data perm w).2.
Proof. apply syscall_keeps. intros m k. apply write_eff_keeps. Qed.

Lemma OpenFile_keeps (p : string) (perm : N) (w : World) :
  keeps_entries w (host.os_OpenFile p perm w).2.
Proof. apply syscall_keeps. intros m k. apply write_eff_keeps. Qed.

Lemma Copy_keeps (p src : string) (w : World) : keeps_entries w (host.io_Copy p src w).2.
Proof.
  unfold host.io_Copy.
  destruct (fs w !! src) as [[data pm| |]|]; apply syscall_keeps; intros m k Hk;
    try exact Hk.
  unfold host.copy_eff. destruct (host.resolve m p) as [q|]; [|exact Hk].
  destruct (m !! q) as [[| |]|]; try exact Hk. apply insert_keeps, Hk.
Qed.

Lemma Open_keeps (p : string) (w : World) : keeps_entries w (host.os_Open p w).2.
Proof. intros k Hk. exact Hk. Qed.

End host_keeps.

#[local] Hint Resolve keeps_refl MkdirAll_keeps Mkdir_keeps Chown_keeps WriteFile_keeps
  OpenFile_keeps Copy_keeps Open_keeps : host_keep.

(** From an equation [f w = (r, w')], that [w'] keeps the entries of [w]. *)
Ltac keep_by E :=
  match type of E with
  | ?f ?w = (_, ?w') =>
      let X := fresh "Hkeep" in
      assert (X : keeps_entries w w')
        by (replace w' with (f w).2 by (rewrite E; reflexivity); auto with host_keep)
  end.

Section daemontools_reinstall.
Context `{Filepath}.
Variables runTemplate logTemplate : string.
Import Daemontools.

Lemma Install_links_free_name (d : Daemontools) (w : World) :
  (Install runTemplate logTemplate d w).1 = None ->
  ~ is_Some (fs w !! service d)
  /\ fs (Install runTemplate logTemplate d w).2 !! service d = Some (Link (controlDir d)).
Proof.
  { unfold Install.
    destruct (strconv.Atoi (Gid d)) as [e|gid]; [discriminate|].
    fold (controlDir d). set (dir := controlDir d) in *. unfold bind, ret.
    destruct (host.os_MkdirAll "/var/svc.d" host.mode_0755 w) as [[e|] w1] eqn:E1;
      [discriminate|]. keep_by E1.
    destruct (host.os_MkdirAll (Join [dir; "log"]) host.mode_0750 w1) as [[e|] w2] eqn:E2;
      [discriminate|]. keep_by E2.
    destruct (host.os_Chown dir (-1) gid w2) as [[e|] w3] eqn:E3; [discriminate|].
    keep_by E3.
    destruct (host.os_WriteFile (Join [dir; "run"]) (templateData d runTemplate)
                host.mode_0700 w3) as [[e|] w4] eqn:E4; [discriminate|]. keep_by E4.
    destruct (host.os_WriteFile (Join [dir; "log"; "run"]) (templateData d logTemplate)
                host.mode_0700 w4) as [[e|] w5] eqn:E5; [discriminate|]. keep_by E5.
    destruct (host.os_Open (Executable d) w5) as [[e|ifp] w6] eqn:E6; [discriminate|].
    keep_by E6.
    destruct (host.os_OpenFile (serviceBin d) host.mode_0755 w6) as [[e|] w7] eqn:E7;
      [discriminate|]. keep_by E7.
    destruct (host.io_Copy (serviceBin d) ifp w7) as [[e|] w8] eqn:E8; [discriminate|].
    keep_by E8.
    destruct (host.IsDir (Join ["/var/log"; Name d]) w8) as [isdir w8'] eqn:E8'.
    assert (w8' = w8) by (unfold host.IsDir in E8'; congruence). subst w8'.
    set (step9 := if negb isdir
                  then host.os_Mkdir (Join ["/var/log"; Name d]) host.mode_0770
                  else (fun w => (None, w))).
    assert (E9 : keeps_entries w8 (step9 w8).2).
    { subst step9. destruct isdir; cbn [negb snd]; auto with host_keep. }
    destruct (step9 w8) as [[e|] w9]; [discriminate|]. cbn [snd] in E9.
    destruct (host.os_WriteFile (Join [dir; "down"]) "" host.mode_0600 w9)
      as [[e|] w10] eqn:E10; [discriminate|]. keep_by E10.
    pose proof (syscall_run (Symlink dir (service d)) "symlink" (service d)
                  (fun m => match m !! service d with
                            | Some _ => Some "file exists"
                            | None => None
                            end)
                  (fun m => <[service d := Link dir]> m) w10) as Hsym.
    fold (host.os_Symlink dir (service d)) in Hsym. cbv zeta in Hsym.
    destruct (host.os_Symlink dir (service d) w10) as [[e|] w11]; [discriminate|].
    intros _. cbn [snd]. injection Hsym as Herr Hw11.
    destruct (io_fault (env w10) (length (log w10))); [discriminate|].
    destruct (fs w10 !! service d) eqn:Hfree; [discriminate|].
    subst w11. cbn [fs]. split; [|apply lookup_insert_eq].
    intros Htaken.
    assert (Hlate : is_Some (fs w10 !! service d)).
    { apply Hkeep7, E9, Hkeep6, Hkeep5, Hkeep4, Hkeep3, Hkeep2, Hkeep1, Hkeep0,
        Hkeep, Htaken. }
    rewrite Hfree in Hlate. destruct Hlate; discriminate. }
Qed.

Lemma syscall_step (c : call) (op p : string) (pre : gmap string node -> option string)
    (eff : gmap string node -> gmap string node) (w : World) :
  step_of c (host.syscall c op p pre eff w) w.
Proof.
  split; [apply syscall_log|]. intros e He. rewrite syscall_fs, He. reflexivity.
Qed.

Lemma MkdirAll_step (p : string) (perm : N) (w : World) :
  step_of (MkdirAll p perm) (host.os_MkdirAll p perm w) w.
Proof. apply syscall_step. Qed.

Lemma Mkdir_step (p : string) (perm : N) (w : World) :
  step_of (Mkdir p perm) (host.os_Mkdir p perm w) w.
Proof. apply syscall_step. Qed.

Lemma Chown_step (p : string) (uid gid : Z) (w : World) :
  step_of (Chown p uid gid) (host.os_Chown p uid gid w) w.
Proof. apply syscall_step. Qed.

Lemma WriteFile_step (p data : string) (perm : N) (w : World) :
  step_of (WriteFile p data perm) (host.os_WriteFile p data perm w) w.
Proof. apply syscall_step. Qed.

Lemma OpenFile_step (p : string) (perm : N) (w : World) :
  step_of (OpenFile p perm) (host.os_OpenFile p perm w) w.
Proof. apply syscall_step. Qed.

Lemma Symlink_step (oldname newname : string) (w : World) :
  step_of (Symlink oldname newname) (host.os_Symlink oldname newname w) w.
Proof. apply syscall_step. Qed.

Lemma Open_step (p : string) (w : World) :
  log (host.os_Open p w).2
  = log w ++ [{| ev_call := Open p;
                 ev_err := match (host.os_Open p w).1 with
                           | inl e => Some e
                           | inr _ => None
                           end |}].
Proof. reflexivity. Qed.

Lemma Copy_step (dst src : string) (w : World) :
  exists data, step_of (Copy dst data) (host.io_Copy dst src w) w.
Proof.
  unfold host.io_Copy.
  destruct (fs w !! src) as [[data pm|pm g|t]|];
    [exists data | exists "" | exists "" | exists ""]; apply syscall_step.
Qed.

Lemma Symlink_ok (oldname newname : string) (w : World) :
  (host.os_Symlink oldname newname w).1 = None ->
  fs w !! newname = None
  /\ fs (host.os_Symlink oldname newname w).2 = <[newname := Link oldname]> (fs w).
Proof.
  unfold host.os_Symlink. intros Hok. rewrite (syscall_ok _ _ _ _ _ _ Hok). cbn [fs].
  apply syscall_ok_pre in Hok as [Hpre _].
  destruct (fs w !! newname); [discriminate | auto].
Qed.

(** Two runs from the same log that agree: their last calls agree, and so
    do the calls before. *)
Lemma same_last (l oks evs : list event) (ev ev' : event) :
  (l ++ oks) ++ [ev] = l ++ evs ++ [ev'] -> ev = ev' /\ oks = evs.
Proof.
  rewrite <- app_assoc. intros Heq. apply app_inv_head in Heq.
  apply app_inj_tail in Heq as [-> ->]. auto.
Qed.

(** In a run of [Install] that gets as far as the symbolic link, every call
    before it was made and succeeded, and the result is that of the link. *)
Lemma Install_reaches_link (d : Daemontools) (w : World) (evs : list event)
    (err : option error) :
  let dir := controlDir d in
  let w' := (Install runTemplate logTemplate d w).2 in
  log w' = log w ++ evs ++ [{| ev_call := Symlink dir (service d); ev_err := err |}] ->
  exists gid copied logdir,
    strconv.Atoi (Gid d) = inr gid
    /\ (logdir = [] \/ logdir = [Mkdir (Join ["/var/log"; Name d]) host.mode_0770])
    /\ evs = map (fun c => {| ev_call := c; ev_err := None |})
               ([MkdirAll "/var/svc.d" host.mode_0755;
                 MkdirAll (Join [dir; "log"]) host.mode_0750;
                 Chown dir (-1) gid;
                 WriteFile (Join [dir; "run"]) (templateData d runTemplate) host.mode_0700;
                 WriteFile (Join [dir; "log"; "run"]) (templateData d logTemplate)
                   host.mode_0700;
                 Open (Executable d);
                 OpenFile (serviceBin d) host.mode_0755;
                 Copy (serviceBin d) copied]
                ++ logdir
                ++ [WriteFile (Join [dir; "down"]) "" host.mode_0600])
    /\ (Install runTemplate logTemplate d w).1 = option_map Fatal err
    /\ (exists pm, host.stat (fs w') (Join [dir; "down"]) = Some (RegFile "" pm)).
Proof.
  cbv zeta. unfold Install.
  destruct (strconv.Atoi (Gid d)) as [e|gid] eqn:Egid.
  { unfold ret. cbn [snd]. intros Hlog. exfalso.
    apply (f_equal (@length event)) in Hlog. rewrite !length_app in Hlog.
    cbn [length] in Hlog. lia. }
  fold (controlDir d). set (dir := controlDir d) in *. unfold bind, ret.
  destruct (MkdirAll_step "/var/svc.d" host.mode_0755 w) as [L1 _].
  destruct (host.os_MkdirAll "/var/svc.d" host.mode_0755 w) as [[e|] w1];
    cbn [fst snd] in *.
  { rewrite L1. intros Hlog. rewrite <- (app_nil_r (log w)) in Hlog at 1.
    apply same_last in Hlog as [Hev _]. discriminate Hev. }
  destruct (MkdirAll_step (Join [dir; "log"]) host.mode_0750 w1) as [L2 _].
  rewrite L1 in L2.
  destruct (host.os_MkdirAll (Join [dir; "log"]) host.mode_0750 w1) as [[e|] w2];
    cbn [fst snd] in *.
  { rewrite L2. intros Hlog. apply same_last in Hlog as [Hev _]. discriminate Hev. }
  rewrite <- app_assoc in L2.
  destruct (Chown_step dir (-1) gid w2) as [L3 _]. rewrite L2 in L3.
  destruct (host.os_Chown dir (-1) gid w2) as [[e|] w3]; cbn [fst snd] in *.
  { rewrite L3. intros Hlog. apply same_last in Hlog as [Hev _]. discriminate Hev. }
  rewrite <- app_assoc in L3.
  destruct (WriteFile_step (Join [dir; "run"]) (templateData d runTemplate)
              host.mode_0700 w3) as [L4 _]. rewrite L3 in L4.
  destruct (host.os_WriteFile (Join [dir; "run"]) (templateData d runTemplate)
              host.mode_0700 w3) as [[e|] w4]; cbn [fst snd] in *.
  { rewrite L4. intros Hlog. apply same_last in Hlog as [Hev _]. discriminate Hev. }
  rewrite <- app_assoc in L4.
  destruct (WriteFile_step (Join [dir; "log"; "run"]) (templateData d logTemplate)
              host.mode_0700 w4) as [L5 _]. rewrite L4 in L5.
  destruct (host.os_WriteFile (Join [dir; "log"; "run"]) (templateData d logTemplate)
              host.mode_0700 w4) as [[e|] w5]; cbn [fst snd] in *.
  { rewrite L5. intros Hlog. apply same_last in Hlog as [Hev _]. discriminate Hev. }
  rewrite <- app_assoc in L5.
  pose proof (Open_step (Executable d) w5) as L6. rewrite L5 in L6.
  destruct (host.os_Open (Executable d) w5) as [[e|ifp] w6]; cbn [fst snd] in *.
  { rewrite L6. intros Hlog. apply same_last in Hlog as [Hev _]. discriminate Hev. }
  rewrite <- app_assoc in L6.
  destruct (OpenFile_step (serviceBin d) host.mode_0755 w6) as [L7 _]. rewrite L6 in L7.
  destruct (host.os_OpenFile (serviceBin d) host.mode_0755 w6) as [[e|] w7];
    cbn [fst snd] in *.
  { rewrite L7. intros Hlog. apply same_last in Hlog as [Hev _]. discriminate Hev. }
  rewrite <- app_assoc in L7.
  destruct (Copy_step (serviceBin d) ifp w7) as (copied & [L8 _]).
  rewrite L7 in L8.
  destruct (host.io_Copy (serviceBin d) ifp w7) as [[e|] w8]; cbn [fst snd] in *.
  { rewrite L8. intros Hlog. apply same_last in Hlog as [Hev _]. discriminate Hev. }
  rewrite <- app_assoc in L8.
  destruct (host.IsDir (Join ["/var/log"; Name d]) w8) as [isdir w8'] eqn:E8'.
  assert (w8' = w8) by (unfold host.IsDir in E8'; congruence). subst w8'.
  set (step9 := if negb isdir
                then host.os_Mkdir (Join ["/var/log"; Name d]) host.mode_0770
                else (fun w => (None, w))).
  assert (L9 : exists logdir,
             (logdir = [] \/ logdir = [Mkdir (Join ["/var/log"; Name d]) host.mode_0770])
             /\ ((step9 w8).1 = None ->
                 log (step9 w8).2
                 = log w8 ++ map (fun c => {| ev_call := c; ev_err := None |}) logdir)
             /\ (forall e, (step9 w8).1 = Some e ->
                   log (step9 w8).2
                   = log w8 ++ [{| ev_call := Mkdir (Join ["/var/log"; Name d])
                                                host.mode_0770;
                                   ev_err := Some e |}])).
  { subst step9. destruct isdir; cbn [negb fst snd].
    - exists []. split; [auto|]. split; [|discriminate].
      intros _. cbn [map]. rewrite app_nil_r. reflexivity.
    - exists [Mkdir (Join ["/var/log"; Name d]) host.mode_0770]. split; [auto|].
      destruct (Mkdir_step (Join ["/var/log"; Name d]) host.mode_0770 w8) as [L9 _].
      split; [intros Hok; rewrite L9, Hok; reflexivity|].
      intros e He. rewrite L9, He. reflexivity. }
  destruct L9 as (logdir & Hlogdir & L9ok & L9err).
  destruct (step9 w8) as [[e|] w9]; cbn [fst snd] in *.
  { rewrite (L9err e eq_refl), L8. intros Hlog.
    apply same_last in Hlog as [Hev _]. discriminate Hev. }
  specialize (L9ok eq_refl). clear L9err. rewrite L8, <- app_assoc in L9ok.
  destruct (WriteFile_step (Join [dir; "down"]) "" host.mode_0600 w9) as [L10 _].
  pose proof (WriteFile_present (Join [dir; "down"]) "" host.mode_0600 w9) as Hst10.
  rewrite L9ok in L10.
  destruct (host.os_WriteFile (Join [dir; "down"]) "" host.mode_0600 w9) as [[e|] w10];
    cbn [fst snd] in *.
  { rewrite L10. intros Hlog. apply same_last in Hlog as [Hev _]. discriminate Hev. }
  rewrite <- app_assoc in L10.
  destruct (Hst10 eq_refl) as [pm Hdown]. clear Hst10.
  destruct (Symlink_step dir (service d) w10) as [L11 R11].
  pose proof (Symlink_ok dir (service d) w10) as Hsym.
  rewrite L10 in L11.
  destruct (host.os_Symlink dir (service d) w10) as [res w11]; cbn [fst snd] in *.
  assert (Hfinal : forall (r : option error) (w12 : World), w12 = w11 ->
             r = match res with Some e => Some (Fatal e) | None => None end ->
             log w12 = log w ++ evs ++ [{| ev_call := Symlink dir (service d);
                                           ev_err := err |}] ->
             exists gid0 copied0 logdir0,
               (inr gid : error + Z) = inr gid0
               /\ (logdir0 = []
                   \/ logdir0 = [Mkdir (Join ["/var/log"; Name d]) host.mode_0770])
               /\ evs = map (fun c => {| ev_call := c; ev_err := None |})
                          ([MkdirAll "/var/svc.d" host.mode_0755;
                            MkdirAll (Join [dir; "log"]) host.mode_0750;
                            Chown dir (-1) gid0;
                            WriteFile (Join [dir; "run"]) (templateData d runTemplate)
                              host.mode_0700;
                            WriteFile (Join [dir; "log"; "run"])
                              (templateData d logTemplate) host.mode_0700;
                            Open (Executable d);
                            OpenFile (serviceBin d) host.mode_0755;
                            Copy (serviceBin d) copied0]
                           ++ logdir0
                           ++ [WriteFile (Join [dir; "down"]) "" host.mode_0600])
               /\ r = option_map Fatal err
               /\ (exists pm0, host.stat (fs w12) (Join [dir; "down"])
                               = Some (RegFile "" pm0))).
  { intros r w12 -> -> Hlog. rewrite L11 in Hlog.
    apply same_last in Hlog as [Hev Hevs]. injection Hev as Hres.
    exists gid, copied, logdir. split; [reflexivity|]. split; [exact Hlogdir|].
    split; [rewrite <- Hevs, !map_app; cbn [map app]; rewrite <- ?app_assoc; reflexivity|].
    split; [subst res; destruct err; reflexivity|].
    exists pm. destruct res as [e|].
    - rewrite (R11 e eq_refl). exact Hdown.
    - destruct (Hsym eq_refl) as [Hfree Hfs]. rewrite Hfs.
      apply stat_other; assumption. }
  destruct res as [e|]; cbn [fst snd]; apply Hfinal; reflexivity.
Qed.

(** X8. [Install] of the supervised-tree backend fails whenever the name of
    the supervision directory is taken, whatever it names, and when it
    succeeds the name was free and is now a symbolic link to the control
    directory.  The name is looked at by the last call only, the creation of
    the link: a run of [Install] that gets as far as this call has made every
    call before it with success, so the control directory, the two scripts,
    the copy of the executable and the [down] file are written by then, and
    what [Install] returns is the outcome of the link.  An [Install] that
    fails because the name is taken has therefore written all of these. *)
Theorem Install_needs_free_name (d : Daemontools) (w : World) :
  let dir := controlDir d in
  let w' := (Install runTemplate logTemplate d w).2 in
  (is_Some (fs w !! service d) -> (Install runTemplate logTemplate d w).1 <> None)
  /\ ((Install runTemplate logTemplate d w).1 = None ->
      fs w !! service d = None /\ fs w' !! service d = Some (Link dir))
  /\ (forall evs err,
        log w' = log w ++ evs ++ [{| ev_call := Symlink dir (service d); ev_err := err |}] ->
        exists gid copied logdir,
          strconv.Atoi (Gid d) = inr gid
          /\ (logdir = [] \/ logdir = [Mkdir (Join ["/var/log"; Name d]) host.mode_0770])
          /\ evs = map (fun c => {| ev_call := c; ev_err := None |})
                     ([MkdirAll "/var/svc.d" host.mode_0755;
                       MkdirAll (Join [dir; "log"]) host.mode_0750;
                       Chown dir (-1) gid;
                       WriteFile (Join [dir; "run"]) (templateData d runTemplate)
                         host.mode_0700;
                       WriteFile (Join [dir; "log"; "run"]) (templateData d logTemplate)
                         host.mode_0700;
                       Open (Executable d);
                       OpenFile (serviceBin d) host.mode_0755;
                       Copy (serviceBin d) copied]
                      ++ logdir
                      ++ [WriteFile (Join [dir; "down"]) "" host.mode_0600])
          /\ (Install runTemplate logTemplate d w).1 = option_map Fatal err
          /\ (exists pm, host.stat (fs w') (Join [dir; "down"]) = Some (RegFile "" pm))).
Proof.
  cbv zeta. pose proof (Install_links_free_name d w) as Hmain.
  split; [|split].
  - intros Htaken Hok. exact (proj1 (Hmain Hok) Htaken).
  - intros Hok. destruct (Hmain Hok) as [Hfree Hlink]. split; [|exact Hlink].
    destruct (fs w !! service d) eqn:E; [|reflexivity]. exfalso. apply Hfree. eauto.
  - intros evs err. apply Install_reaches_link.
Qed.

End daemontools_reinstall.

(** ** Starting and stopping a supervised service *)

Section daemontools_start.
Context `{Filepath}.
Import Daemontools.

(** X9. [Start] of the supervised-tree backend enables before it signals:
    when removing the [down] file fails, that error is returned and [svc -u]
    is not run; when [Start] succeeds, [svc -u] was its last call and the
    [down] file is absent.  [Stop] sends [svc -d] and leaves the file system
    as it is, so it does not put the [down] file back. *)
Theorem Daemontools_Start_Stop (d : Daemontools) (w : World) :
  (forall e, (enable d w).1 = Some e -> Start d w = (Some (Fatal e), (enable d w).2))
  /\ ((Start d w).1 = None ->
      is_file (Start d w).2 (downFile d) = false
      /\ log (Start d w).2
         = log (enable d w).2 ++ [{| ev_call := Exec ["svc"; "-u"; service d];
                                     ev_err := None |}])
  /\ fs (Stop d w).2 = fs w
  /\ (exists err, log (Stop d w).2
                  = log w ++ [{| ev_call := Exec ["svc"; "-d"; service d]; ev_err := err |}]).
Proof.
  split; [|split; [|split]].
  - intros e He. unfold Start. rewrite bind_run, He. reflexivity.
  - unfold Start. rewrite bind_run.
    destruct (enable_once d w) as (_ & _ & Hsucc & _). cbv zeta in Hsucc.
    destruct (enable d w) as [[e|] w1]; cbn [fst snd ret] in *; [discriminate|].
    destruct (Hsucc eq_refl) as [Habsent _].
    rewrite bind_run.
    destruct (run_err (host.exec_Run ["svc"; "-u"; service d] w1).1) eqn:Hr;
      cbn [ret fst snd]; [discriminate|].
    intros _. split.
    + rewrite <- Habsent. apply is_file_fs. reflexivity.
    + rewrite exec_Run_log. cbn [fst host.exec_Run] in Hr. rewrite Hr. reflexivity.
  - rewrite Stop_run. reflexivity.
  - rewrite Stop_run. cbn [snd]. eexists. apply exec_Run_log.
Qed.

End daemontools_start.

(** ** Text without placeholders *)

Lemma expand_plain (mapping : string -> string) (lit rest : string) :
  count "$" lit = 0%nat ->
  os.expand_go mapping 0 (lit +:+ rest) = lit +:+ os.expand_go mapping 0 rest.
Proof.
  induction lit as [|c lit IH]; [reflexivity|].
  cbn [count]. destruct (Ascii.eqb c "$") eqn:E; [discriminate|].
  intros Hc. change (String c lit +:+ rest) with (String c (lit +:+ rest)).
  cbn [os.expand_go]. rewrite E. cbn [andb]. rewrite IH by exact Hc. reflexivity.
Qed.

(** X10. Rendering leaves text without a dollar sign as it is: a template
    with no dollar sign is its own rendering, and the text before the first
    dollar sign of a template is copied byte for byte. *)
Theorem templateData_plain_text (d : Daemontools.Daemontools) (lit rest : string) :
  count "$" lit = 0%nat ->
  Daemontools.templateData d lit = lit
  /\ Daemontools.templateData d (lit +:+ rest) = lit +:+ Daemontools.templateData d rest.
Proof.
  intros Hc. unfold Daemontools.templateData, os.Expand. split.
  - rewrite <- (append_nil_r lit) at 1. rewrite expand_plain by exact Hc.
    apply append_nil_r.
  - apply expand_plain, Hc.
Qed.

(** ** The calls of the supervised-tree backend *)

Lemma only_calls_weaken (P Q : call -> Prop) (w w' : World) :
  (forall c, P c -> Q c) -> only_calls P w w' -> only_calls Q w w'.
Proof.
  intros HPQ (rest & Hlog & Hall). exists rest. split; [exact Hlog|].
  eapply Forall_impl; [exact Hall|]. intros ev. apply HPQ.
Qed.

Section daemontools_frame.
Context `{Filepath}.
Import Daemontools.

(** X11. The calls of the supervised-tree backend outside [Install].
    [GetConfig] makes one call, the reading of the [run] script under the
    supervision directory, and the probe [svstat] one, the [svstat] command.
    [Start] makes no call but the removal of the [down] file and [svc -u].
    [Delete] makes no file-system call but [RemoveAll] of the supervision
    directory and of the control directory; its other calls are [svstat]
    and [svc -d], for the service and for its log supervisor. *)
Theorem Daemontools_frame (d : Daemontools) (w : World) :
  (exists err,
     log (GetConfig d w).2
     = log w ++ [{| ev_call := ReadFile (Join [service d; "run"]); ev_err := err |}])
  /\ (forall serviceDir,
        exists err,
          log (svstat d serviceDir w).2
          = log w ++ [{| ev_call := Exec ["svstat"; serviceDir]; ev_err := err |}])
  /\ only_calls (fun c => c = Remove (downFile d) \/ c = Exec ["svc"; "-u"; service d])
       w (Start d w).2
  /\ only_calls (fun c => c = Exec ["svstat"; service d]
                          \/ c = Exec ["svc"; "-d"; service d]
                          \/ after_probe_call d c)
       w (Delete d w).2.
Proof.
  split; [|split; [|split]].
  - unfold GetConfig. rewrite bind_run.
    assert (Hl : log (host.os_ReadFile (Join [service d; "run"]) w).2
                 = log w ++ [{| ev_call := ReadFile (Join [service d; "run"]);
                                ev_err := match (host.os_ReadFile
                                                   (Join [service d; "run"]) w).1 with
                                          | inl e => Some e
                                          | inr _ => None
                                          end |}]) by reflexivity.
    destruct (host.os_ReadFile (Join [service d; "run"]) w) as [[e|data] w1];
      cbn [fst snd ret] in *; eexists; exact Hl.
  - intros serviceDir. rewrite svstat_run. cbn [snd]. eexists. apply exec_Run_log.
  - unfold Start. rewrite bind_run.
    assert (He : only_calls (fun c => c = Remove (downFile d)
                                      \/ c = Exec ["svc"; "-u"; service d])
                   w (enable d w).2).
    { rewrite enable_run. destruct (is_file w (downFile d)); [|apply only_calls_refl].
      cbn [snd]. eapply only_calls_step;
        [apply only_calls_refl | unfold host.os_Remove; apply syscall_log|].
      left. reflexivity. }
    destruct (enable d w) as [[e|] w1]; cbn [fst snd ret] in *; [exact He|].
    rewrite bind_run.
    assert (Hs : only_calls (fun c => c = Remove (downFile d)
                                      \/ c = Exec ["svc"; "-u"; service d])
                   w (host.exec_Run ["svc"; "-u"; service d] w1).2).
    { eapply only_calls_step; [exact He | apply exec_Run_log|]. right. reflexivity. }
    destruct (run_err _); exact Hs.
  - set (P := fun c => c = Exec ["svstat"; service d]
                       \/ c = Exec ["svc"; "-d"; service d]
                       \/ after_probe_call d c).
    assert (Htail : forall w1, only_calls P w w1 -> only_calls P w (Delete_tail d w1).2).
    { intros w1 H1. eapply only_calls_trans; [exact H1|].
      eapply only_calls_weaken; [|apply Delete_tail_run].
      intros c Hc. right. right. exact Hc. }
    rewrite Delete_cases.
    assert (H1 : only_calls P w (svstat d (service d) w).2).
    { rewrite svstat_run. cbn [snd]. apply only_calls_exec. left. reflexivity. }
    destruct (svstat d (service d) w) as [[running [e|]] w1]; cbn [fst snd] in *;
      [destruct running; exact H1|].
    destruct running; cbv beta iota; [|apply Htail, H1].
    pose proof (Stop_run d w1) as Hstop. cbv zeta in Hstop.
    assert (H2 : only_calls P w (Stop d w1).2).
    { rewrite Hstop. cbn [snd]. eapply only_calls_step; [exact H1 | apply exec_Run_log|].
      right. left. reflexivity. }
    destruct (Stop d w1) as [[e|] w2]; cbn [snd] in *; [exact H2 | apply Htail, H2].
Qed.

End daemontools_frame.

(** ** The commands *)

Section commands.
Context `{Filepath}.
Variables xmlTemplate rcTemplate runTemplate logTemplate : string.

(** X12. The [query] command always leaves the process with a status: 0
    when [Query] reports the service running and 1 otherwise, an error
    included.  The status is the same with and without the quiet flag, and
    it is 0 exactly when [Query] answers "running" without an error. *)
Theorem daemonQueryCmd_status (d : CobraDaemon) (quiet : bool) (w : World) :
  daemon.daemonQueryCmd d quiet w
  = (Some (if (daemon.Query d w).1.1 then 0 else 1), (daemon.Query d w).2)
  /\ ((daemon.daemonQueryCmd d quiet w).1 = Some 0 <-> (daemon.Query d w).1 = (true, None)).
Proof.
  pose proof (Query_probe d w) as Herr.
  unfold daemon.daemonQueryCmd. rewrite bind_run.
  destruct (daemon.Query d w) as [[running [e|]] w1]; cbn [fst snd] in *.
  - rewrite Herr by discriminate.
    destruct quiet; cbn [negb daemon.CheckErr ret]; (split; [reflexivity|]);
      cbn [fst]; split; discriminate.
  - destruct quiet, running; cbn [negb daemon.CheckErr ret fst];
      (split; [reflexivity|]); split; congruence.
Qed.

(** X13. The [install] command has two outcomes, a normal return or exit
    status 1, and it returns normally only when [Install] was run and
    succeeded.  Without the force flag, or when the configuration cannot be
    read, [Delete] is not run.  With the flag and a readable configuration
    [Delete] runs first and its failure ends the command before [Install].
    On the supervised-tree backend, installing without the flag over a taken
    service name exits with status 1. *)
Theorem daemonInstallCmd_outcome (d : CobraDaemon) (force : bool) (w : World) :
  let install := daemon.Install xmlTemplate rcTemplate runTemplate logTemplate in
  let install_cmd :=
    daemon.daemonInstallCmd xmlTemplate rcTemplate runTemplate logTemplate in
  let w1 := (daemon.GetConfig d w).2 in
  let status (r : option error * World) : option Z * World :=
    (match r.1 with Some _ => Some 1 | None => None end, r.2) in
  ((force = false \/ (daemon.GetConfig d w).1.2 <> None) ->
   install_cmd d force w = status (install d w1))
  /\ (force = true -> (daemon.GetConfig d w).1.2 = None ->
      (forall e, (daemon.Delete d w1).1 = Some e ->
                 install_cmd d force w = (Some 1, (daemon.Delete d w1).2))
      /\ ((daemon.Delete d w1).1 = None ->
          install_cmd d force w = status (install d (daemon.Delete d w1).2)))
  /\ (forall s, d = OfDaemontools s -> force = false ->
                is_Some (fs w !! Daemontools.service s) ->
                (install_cmd d force w).1 = Some 1).
Proof.
  cbv zeta.
  set (install := daemon.Install xmlTemplate rcTemplate runTemplate logTemplate).
  set (install_cmd :=
         daemon.daemonInstallCmd xmlTemplate rcTemplate runTemplate logTemplate).
  set (status := fun r : option error * World =>
                   (match r.1 with Some _ => Some 1 | None => None end, r.2)).
  assert (Hplain : forall w', (let* err := install d in daemon.CheckErr err (ret None)) w'
                              = status (install d w')).
  { intros w'. rewrite bind_run. subst status. cbv beta.
    destruct (install d w') as [[e|] w2]; reflexivity. }
  assert (Hnoforce : force = false \/ (daemon.GetConfig d w).1.2 <> None ->
                     install_cmd d force w = status (install d (daemon.GetConfig d w).2)).
  { intros Hcase. subst install_cmd. unfold daemon.daemonInstallCmd. fold install.
    rewrite bind_run.
    destruct (daemon.GetConfig d w) as [[out [e|]] w1]; cbn [fst snd andb] in *.
    - apply Hplain.
    - destruct Hcase as [-> | Hne]; [apply Hplain | congruence]. }
  split; [exact Hnoforce|]. split.
  - intros -> Hcfg. subst install_cmd. unfold daemon.daemonInstallCmd. fold install.
    rewrite bind_run.
    destruct (daemon.GetConfig d w) as [[out [e|]] w1]; cbn [fst snd andb] in *;
      [discriminate|].
    rewrite bind_run. split.
    + intros e He. destruct (daemon.Delete d w1) as [[e'|] w2]; cbn [fst snd] in *;
        [reflexivity | discriminate].
    + intros Hok. destruct (daemon.Delete d w1) as [[e'|] w2]; cbn [fst snd] in *;
        [discriminate|]. cbn [daemon.CheckErr]. apply Hplain.
  - intros s -> -> Htaken. rewrite Hnoforce by (left; reflexivity).
    subst status install. cbn [fst daemon.Install daemon.GetConfig].
    destruct (Daemontools.Install runTemplate logTemplate s
                (Daemontools.GetConfig s w).2).1 eqn:E; [reflexivity|].
    exfalso. apply Install_links_free_name in E as [Hfree _]. apply Hfree.
    replace (fs (Daemontools.GetConfig s w).2) with (fs w); [exact Htaken|].
    unfold Daemontools.GetConfig. rewrite bind_run.
    unfold host.os_ReadFile, host.read. cbv zeta. cbn [fst snd].
    destruct (io_fault _ _); [reflexivity|].
    destruct (host.stat _ _) as [[]|]; reflexivity.
Qed.

(** X14. The [restart] command stops before it starts: when [Stop] fails
    the command exits with status 1 and [Start] is not run.  On the
    supervised-tree backend a restart that returns normally leaves the
    service without its [down] file, the start signal [svc -u] being the last
    call made. *)
Theorem daemonRestartCmd_order (d : CobraDaemon) (w : World) :
  (forall e, (daemon.Stop d w).1 = Some e ->
             daemon.daemonRestartCmd d w = (Some 1, (daemon.Stop d w).2))
  /\ ((daemon.Stop d w).1 = None ->
      daemon.daemonRestartCmd d w = daemon.daemonStartCmd d (daemon.Stop d w).2)
  /\ (forall s, d = OfDaemontools s -> (daemon.daemonRestartCmd d w).1 = None ->
                let w' := (daemon.daemonRestartCmd d w).2 in
                is_file w' (downFile s) = false
                /\ exists before,
                     log w' = log w
                              ++ {| ev_call := Exec ["svc"; "-d"; Daemontools.service s];
                                    ev_err := None |}
                              :: before
                              ++ [{| ev_call := Exec ["svc"; "-u"; Daemontools.service s];
                                     ev_err := None |}]).
Proof.
  assert (Hfail : forall e, (daemon.Stop d w).1 = Some e ->
                            daemon.daemonRestartCmd d w = (Some 1, (daemon.Stop d w).2)).
  { intros e He. unfold daemon.daemonRestartCmd. rewrite bind_run.
    destruct (daemon.Stop d w) as [[e'|] w1]; cbn [fst snd] in *;
      [reflexivity | discriminate]. }
  assert (Hok : (daemon.Stop d w).1 = None ->
                daemon.daemonRestartCmd d w = daemon.daemonStartCmd d (daemon.Stop d w).2).
  { intros He. unfold daemon.daemonRestartCmd. rewrite bind_run.
    destruct (daemon.Stop d w) as [[e'|] w1]; cbn [fst snd] in *;
      [discriminate | reflexivity]. }
  split; [exact Hfail|]. split; [exact Hok|].
  intros s -> Hret. cbv zeta.
  destruct (daemon.Stop (OfDaemontools s) w).1 as [e|] eqn:Hstop.
  { rewrite (Hfail e eq_refl) in Hret. discriminate. }
  rewrite (Hok eq_refl) in Hret |- *. clear Hfail Hok.
  cbn [daemon.Stop] in *. unfold daemon.daemonStartCmd in *. cbn [daemon.Start] in *.
  rewrite bind_run in Hret |- *.
  pose proof (Stop_run s w) as Hrun. cbv zeta in Hrun.
  rewrite Hrun in Hstop. cbn [fst] in Hstop.
  destruct (run_err (exec_outcome (env w) (length (log w))
                       ["svc"; "-d"; Daemontools.service s])) eqn:Ho; [discriminate|].
  set (w1 := (Daemontools.Stop s w).2) in *.
  assert (Hlog1 : log w1 = log w ++ [{| ev_call := Exec ["svc"; "-d"; Daemontools.service s];
                                        ev_err := None |}]).
  { subst w1. rewrite Hrun. cbn [snd]. rewrite exec_Run_log, Ho. reflexivity. }
  assert (Hstart : (Daemontools.Start s w1).1 = None).
  { destruct (Daemontools.Start s w1) as [[e|] w2]; cbn [fst snd] in *;
      [discriminate | reflexivity]. }
  assert (Hen : exists before, log (Daemontools.enable s w1).2 = log w1 ++ before).
  { rewrite enable_run. destruct (is_file w1 (downFile s)).
    - cbn [snd]. eexists. unfold host.os_Remove. apply syscall_log.
    - exists []. cbn [snd]. rewrite app_nil_r. reflexivity. }
  destruct Hen as [before Hen].
  assert (Hfacts : is_file (Daemontools.Start s w1).2 (downFile s) = false
                   /\ log (Daemontools.Start s w1).2
                      = log (Daemontools.enable s w1).2
                        ++ [{| ev_call := Exec ["svc"; "-u"; Daemontools.service s];
                               ev_err := None |}]).
  { revert Hstart. unfold Daemontools.Start. rewrite bind_run.
    destruct (enable_once s w1) as (_ & _ & Hsucc & _). cbv zeta in Hsucc.
    destruct (Daemontools.enable s w1) as [[e|] w2]; cbn [fst snd ret] in *;
      [discriminate|].
    destruct (Hsucc eq_refl) as [Habsent _]. rewrite bind_run.
    destruct (run_err (host.exec_Run ["svc"; "-u"; Daemontools.service s] w2).1) eqn:Hr;
      cbn [ret fst snd]; [discriminate|].
    intros _. split.
    - rewrite <- Habsent. apply is_file_fs. reflexivity.
    - rewrite exec_Run_log. cbn [fst host.exec_Run] in Hr. rewrite Hr. reflexivity. }
  destruct Hfacts as [Hdown Hlog].
  destruct (Daemontools.Start s w1) as [[e|] w2]; cbn [fst snd] in *; [discriminate|].
  cbn [daemon.CheckErr ret snd]. split; [exact Hdown|].
  exists before. rewrite Hlog, Hen, Hlog1, <- !app_assoc. reflexivity.
Qed.

End commands.

(** ** What [NewDaemon] builds *)

Section factory_success.
Context `{Filepath}.

(** X15. When [NewDaemon] succeeds.  It returns a daemon exactly when the
    user is resolved, the working directory is a directory and the platform
    is linux, openbsd or windows, where on windows the [logs] directory
    below the home directory of the resolved user must also be created
    without error.  The daemon returned is of the backend of the platform
    and carries the name given; on linux and openbsd building it makes no
    call on the host. *)
Theorem NewDaemon_builds (name username dir command : string) (args : list string)
    (w : World) :
  let r := NewDaemon name username dir command args w in
  ((exists d, r.1 = inr d) <->
   exists taskUser,
     resolved_user w username = inr taskUser
     /\ is_directory w (working_directory taskUser dir) = true
     /\ (GOOS (env w) = "linux" \/ GOOS (env w) = "openbsd"
         \/ (GOOS (env w) = "windows"
             /\ (host.os_MkdirAll (Join [user.HomeDir taskUser; "logs"])
                   host.mode_0700 w).1 = None)))
  /\ (forall d, r.1 = inr d ->
        match d with
        | OfWindowsTask t => GOOS (env w) = "windows" /\ WindowsTask.Name t = name
        | OfRCDaemon rc => GOOS (env w) = "openbsd" /\ RCDaemon.Name rc = name /\ r.2 = w
        | OfDaemontools s =>
            GOOS (env w) = "linux" /\ Daemontools.Name s = name /\ r.2 = w
        end).
Proof.
  cbv zeta.
  destruct (resolved_user w username) as [e|taskUser] eqn:Hu.
  { rewrite (NewDaemon_unresolved _ _ _ _ _ _ _ Hu). cbn [fst]. split.
    - split; [intros [d Hd]; discriminate | intros (u & Hu' & _); discriminate].
    - intros d Hd. discriminate. }
  rewrite (NewDaemon_resolved _ _ _ _ _ _ _ Hu). cbv zeta.
  destruct (is_directory w (working_directory taskUser dir)) eqn:Hd; cbn [negb].
  2:{ cbn [fst]. split.
      - split; [intros [d Hd']; discriminate|].
        intros (u & [= <-] & Hd' & _). congruence.
      - intros d Hd'. discriminate. }
  destruct (String.eqb_spec (GOOS (env w)) "windows") as [Hw|Hw].
  { unfold WindowsTask.NewWindowsTask. cbv zeta. rewrite !bind_run.
    destruct (host.os_MkdirAll (Join [user.HomeDir taskUser; "logs"]) host.mode_0700 w)
      as [[e|] w1] eqn:Emk; cbn [fst snd ret].
    - split.
      + split; [intros [d Hd']; discriminate|].
        intros (u & [= <-] & _ & [Hl | [Ho | [_ Hmk]]]);
          [rewrite Hw in Hl; discriminate | rewrite Hw in Ho; discriminate|].
        rewrite Emk in Hmk. discriminate.
      + intros d Hd'. discriminate.
    - split.
      + split; [|intros _; eexists; reflexivity].
        intros _. exists taskUser. split; [reflexivity|]. split; [exact Hd|].
        right. right. split; [exact Hw|]. rewrite Emk. reflexivity.
      + intros d [= <-]. split; [exact Hw | reflexivity]. }
  destruct (String.eqb_spec (GOOS (env w)) "openbsd") as [Ho|Ho].
  { unfold RCDaemon.NewRCDaemon.
    destruct (Split command) as [dirname basename]. unfold bind, ret. cbn [fst snd]. split.
    - split; [|intros _; eexists; reflexivity].
      intros _. exists taskUser. split; [reflexivity|]. split; [exact Hd|]. auto.
    - intros d [= <-]. auto. }
  destruct (String.eqb_spec (GOOS (env w)) "linux") as [Hl|Hl].
  { unfold Daemontools.NewDaemontools.
    destruct (Split command) as [dirname basename]. unfold bind, ret. cbn [fst snd]. split.
    - split; [|intros _; eexists; reflexivity].
      intros _. exists taskUser. split; [reflexivity|]. split; [exact Hd|]. auto.
    - intros d [= <-]. auto. }
  cbn [fst]. split.
  - split; [intros [d Hd']; discriminate|].
    intros (u & _ & _ & [Hl' | [Ho' | [Hw' _]]]); contradiction.
  - intros d Hd'. discriminate.
Qed.

End factory_success.

(** ** The default name of the daemon *)

Lemma Cut_spec (s : string) (sep : ascii) :
  let '(before, after, found) := Cut s sep in
  count sep before = 0%nat
  /\ s = before +:+ (if found : bool then String sep after else "").
Proof.
  induction s as [|c s IH]; [split; reflexivity|].
  cbn [Cut]. destruct (Ascii.eqb_spec c sep) as [->|Hne]; [split; reflexivity|].
  destruct (Cut s sep) as [[before after] found]. destruct IH as [IH1 IH2].
  cbn [count]. destruct (Ascii.eqb_spec c sep) as [|_]; [contradiction|]. split; [exact IH1|].
  change (String c before +:+ ?x) with (String c (before +:+ x)). rewrite <- IH2. reflexivity.
Qed.

Lemma unix_Split_file (path : string) : count "/" (filepath.unix_Split path).2 = 0%nat.
Proof.
  induction path as [|c p IH]; [reflexivity|].
  cbn [filepath.unix_Split]. destruct (filepath.unix_Split p) as [d f]. cbn [snd] in IH.
  destruct (String.eqb d "" && negb (Ascii.eqb c "/")) eqn:E; cbn [snd count]; [|exact IH].
  apply andb_true_iff in E as [_ E]. apply negb_true_iff in E. rewrite E, IH. reflexivity.
Qed.

Lemma prefix_head (sep c : ascii) (x : string) :
  String.prefix (String sep "") (String c x) = true -> c = sep.
Proof. cbn [String.prefix]. destruct (ascii_dec sep c); [auto | discriminate]. Qed.

(** A text is cut at its first separator in one way only. *)
Lemma cut_unique (sep : ascii) (a a' r r' : string) :
  count sep a = 0%nat -> count sep a' = 0%nat ->
  a +:+ r = a' +:+ r' ->
  (r = "" \/ String.prefix (String sep "") r = true) ->
  (r' = "" \/ String.prefix (String sep "") r' = true) ->
  a = a'.
Proof.
  revert a'. induction a as [|c a IH]; intros [|c' a'] Ha Ha' Heq Hr Hr'.
  - reflexivity.
  - exfalso. change (r = String c' (a' +:+ r')) in Heq. subst r.
    destruct Hr as [Hr|Hr]; [discriminate|]. apply prefix_head in Hr as ->.
    cbn [count] in Ha'. rewrite Ascii.eqb_refl in Ha'. discriminate.
  - exfalso. change (String c (a +:+ r) = r') in Heq. subst r'.
    destruct Hr' as [Hr'|Hr']; [discriminate|]. apply prefix_head in Hr' as ->.
    cbn [count] in Ha. rewrite Ascii.eqb_refl in Ha. discriminate.
  - change (String c (a +:+ r) = String c' (a' +:+ r')) in Heq.
    injection Heq as <- Heq. f_equal.
    cbn [count] in Ha, Ha'. apply (IH a'); [lia | lia | exact Heq | exact Hr | exact Hr'].
Qed.

(** X16. The default name [daemonDefaults] derives from the executable is
    the base name of the cleaned path cut at its first dot: the base name is
    the default name followed by nothing or by a rest that begins with a
    dot, and the default name contains neither a dot nor a path separator.
    When the path of the executable cannot be found the process exits with
    status 1. *)
Theorem daemonDefaults_name (executable : error + string) :
  match executable, daemonDefaults executable with
  | inr path, inr (binary, name) =>
      binary = filepath.Clean path
      /\ count "." name = 0%nat
      /\ count "/" name = 0%nat
      /\ exists rest,
           (filepath.unix_Split binary).2 = name +:+ rest
           /\ (rest = "" \/ String.prefix "." rest = true)
  | inl _, inl status => status = 1
  | _, _ => False
  end.
Proof.
  destruct executable as [e|path]; cbn [daemonDefaults]; [reflexivity|].
  pose proof (unix_Split_file (filepath.Clean path)) as Hfile.
  destruct (filepath.unix_Split (filepath.Clean path)) as [dir base] eqn:Esplit.
  cbn [snd] in *.
  pose proof (Cut_spec base ".") as Hcut.
  destruct (Cut base ".") as [[name after] found]. destruct Hcut as [Hdot Hbase].
  rewrite Esplit. cbn [snd].
  split; [reflexivity|]. split; [exact Hdot|]. split.
  - rewrite Hbase, count_append in Hfile. lia.
  - exists (if found then String "." after else ""). split; [exact Hbase|].
    destruct found; [right | left; reflexivity].
    cbn [String.prefix].
    destruct (ascii_dec "." ".") as [_|Hn]; [|exfalso; apply Hn; reflexivity].
    destruct after; reflexivity.
Qed.

(** ** The further properties on the sample hosts *)

Section further_examples.
#[local] Existing Instance filepath.unix.

(** A task name with a comma: the answer of the scheduler has four fields. *)
Lemma Query_separator_in_name_witness :
  count "," (WindowsTask.Name comma_task) <> 0%nat
  /\ exists e, (WindowsTask.Query comma_task comma_world).1 = (false, Some e).
Proof.
  assert (Hc : count "," (WindowsTask.Name comma_task) <> 0%nat)
    by (vm_compute; discriminate).
  split; [exact Hc|].
  exact (Query_separator_in_name comma_task comma_world (or_introl Hc)).
Defined.

Lemma svstat_blank_in_directory_witness :
  count " " (Daemontools.service blank_svc) <> 0%nat
  /\ exists e, (Daemontools.Query blank_svc up_svc_world).1 = (false, Some e).
Proof.
  assert (Hc : count " " (Daemontools.service blank_svc) <> 0%nat)
    by (vm_compute; discriminate).
  split; [exact Hc|].
  exact (proj2 (svstat_blank_in_directory blank_svc (Daemontools.service blank_svc)
                  up_svc_world Hc) eq_refl).
Defined.

(** Without an [rcctl] on the host, [Start] stops at the [enable] verb. *)
Lemma RCDaemon_Start_order_witness :
  map ev_call (log (RCDaemon.Start netboot_rc (broken_world "openbsd")).2)
  = [Exec ["rcctl"; "enable"; "netboot"]].
Proof.
  destruct (RCDaemon_Start_order netboot_rc (broken_world "openbsd")) as (Hfail & _).
  rewrite (proj2 (Hfail (ExecError "exec: not found") eq_refl)). reflexivity.
Defined.


(** Installing over the installed service fails at the link, after the run
    script of the control directory has been written again; on the fresh
    host [Install] succeeds. *)
Lemma Install_needs_free_name_witness :
  (Daemontools.Install sample_run_template sample_log_template netboot_svc
     down_svc_world).1 <> None
  /\ (exists evs err,
        In {| ev_call := WriteFile "/var/svc.d/netboot/run"
                           (Daemontools.templateData netboot_svc sample_run_template)
                           host.mode_0700;
              ev_err := None |} evs
        /\ log (Daemontools.Install sample_run_template sample_log_template netboot_svc
                  down_svc_world).2
           = evs ++ [{| ev_call := Symlink "/var/svc.d/netboot" "/etc/service/netboot";
                        ev_err := Some err |}])
  /\ fs (Daemontools.Install sample_run_template sample_log_template netboot_new
           fresh_linux_world).2 !! "/etc/service/netboot"
     = Some (Link "/var/svc.d/netboot").
Proof.
  destruct (Install_needs_free_name sample_run_template sample_log_template netboot_svc
              down_svc_world) as (Htaken & _ & Hlate).
  split; [apply Htaken; vm_compute; eauto|]. split.
  - destruct (Hlate (removelast (log (Daemontools.Install sample_run_template
                                        sample_log_template netboot_svc down_svc_world).2))
                (Some (PathError "symlink" "/etc/service/netboot" "file exists")))
      as (gid & copied & logdir & _ & _ & Hevs & _); [vm_compute; reflexivity|].
    exists (removelast (log (Daemontools.Install sample_run_template sample_log_template
                               netboot_svc down_svc_world).2)),
      (PathError "symlink" "/etc/service/netboot" "file exists").
    split; [|vm_compute; reflexivity].
    rewrite Hevs.
    apply (in_map (fun c => {| ev_call := c; ev_err := None |})), in_or_app. left.
    do 3 right. left. reflexivity.
  - destruct (Install_needs_free_name sample_run_template sample_log_template netboot_new
                fresh_linux_world) as (_ & Hok & _).
    destruct Hok as [_ Hlink]; [vm_compute; reflexivity | exact Hlink].
Defined.

Lemma Daemontools_Start_Stop_witness :
  (Daemontools.Start netboot_svc down_svc_world).1 = None
  /\ is_file (Daemontools.Start netboot_svc down_svc_world).2 "/etc/service/netboot/down"
     = false.
Proof.
  assert (Hok : (Daemontools.Start netboot_svc down_svc_world).1 = None)
    by (vm_compute; reflexivity).
  split; [exact Hok|].
  destruct (Daemontools_Start_Stop netboot_svc down_svc_world) as (_ & Hstart & _).
  exact (proj1 (Hstart Hok)).
Defined.

Lemma templateData_plain_text_witness :
  Daemontools.templateData netboot_svc "exec ${TASK_BIN}" = "exec /usr/local/bin/netbootd".
Proof.
  etransitivity;
    [exact (proj2 (templateData_plain_text netboot_svc "exec " "${TASK_BIN}" eq_refl))|].
  vm_compute. reflexivity.
Defined.

Lemma daemonQueryCmd_status_witness :
  (daemon.daemonQueryCmd (OfDaemontools netboot_svc) true up_svc_world).1 = Some 0
  /\ (daemon.daemonQueryCmd (OfDaemontools netboot_svc) false down_svc_world).1 = Some 1.
Proof.
  split.
  - apply (daemonQueryCmd_status (OfDaemontools netboot_svc) true up_svc_world).
    vm_compute. reflexivity.
  - rewrite (proj1 (daemonQueryCmd_status (OfDaemontools netboot_svc) false
                      down_svc_world)).
    vm_compute. reflexivity.
Defined.

(** Installing once more without the force flag ends with status 1. *)
Lemma daemonInstallCmd_outcome_witness :
  (daemon.daemonInstallCmd "" "" sample_run_template sample_log_template
     (OfDaemontools netboot_svc) false down_svc_world).1 = Some 1.
Proof.
  apply (daemonInstallCmd_outcome "" "" sample_run_template sample_log_template
           (OfDaemontools netboot_svc) false down_svc_world) with (s := netboot_svc);
    [reflexivity | reflexivity | vm_compute; eauto].
Defined.

Lemma daemonRestartCmd_order_witness :
  (daemon.daemonRestartCmd (OfDaemontools netboot_svc) down_svc_world).1 = None
  /\ is_file (daemon.daemonRestartCmd (OfDaemontools netboot_svc) down_svc_world).2
       "/etc/service/netboot/down" = false.
Proof.
  assert (Hok : (daemon.daemonRestartCmd (OfDaemontools netboot_svc) down_svc_world).1
                = None) by (vm_compute; reflexivity).
  split; [exact Hok|].
  destruct (daemonRestartCmd_order (OfDaemontools netboot_svc) down_svc_world)
    as (_ & _ & Hsvc).
  exact (proj1 (Hsvc netboot_svc eq_refl Hok)).
Defined.

Lemma NewDaemon_builds_witness :
  exists s,
    (NewDaemon "netboot" "svc" "" "/home/svc/netbootd" ["server"] fresh_linux_world).1
    = inr (OfDaemontools s)
    /\ Daemontools.Name s = "netboot".
Proof.
  destruct (NewDaemon_builds "netboot" "svc" "" "/home/svc/netbootd" ["server"]
              fresh_linux_world) as [Hiff Hkind].
  destruct (proj2 Hiff) as [d Hd].
  { exists svc. split; [reflexivity|]. split; [vm_compute; reflexivity|].
    left. reflexivity. }
  specialize (Hkind d Hd). destruct d as [t|rc|s].
  - destruct Hkind as [Hos _]. vm_compute in Hos. discriminate.
  - destruct Hkind as [Hos _]. vm_compute in Hos. discriminate.
  - exists s. split; [exact Hd | exact (proj1 (proj2 Hkind))].
Defined.

(** A base name with two dots is cut at the first. *)
Lemma daemonDefaults_name_witness :
  daemonDefaults (inr "/usr/local/bin/../sbin/netbootd.bin.1")
  = inr ("/usr/local/sbin/netbootd.bin.1", "netbootd").
Proof.
  pose proof (daemonDefaults_name (inr "/usr/local/bin/../sbin/netbootd.bin.1")) as Hname.
  cbv beta iota in Hname.
  destruct (daemonDefaults (inr "/usr/local/bin/../sbin/netbootd.bin.1"))
    as [status|[binary name]]; [contradiction|].
  destruct Hname as (-> & Hdot & _ & rest & Hbase & Hrest).
  assert (Hcut : name = "netbootd").
  { apply (cut_unique "." name "netbootd" rest ".bin.1");
      [exact Hdot | reflexivity | symmetry; exact Hbase | exact Hrest
       | right; reflexivity]. }
  rewrite Hcut. vm_compute. reflexivity.
Defined.

End further_examples.
